(** * mypy_primer: selection, sharding, the bisection oracle and the exit code

    A shallow embedding of [src/mypy_primer/main.py].  Pure code
    ([select_projects], [are_results_good]) becomes Rocq functions into an
    error type; the coroutines ([primer], [bisect],
    [validate_expected_success], [main]) become programs of a small monad
    that threads the state of the bisected checkout, logs every call to an
    external collaborator and propagates Python exceptions; so do
    [coverage] and [measure_project_runtimes]. *)

From Stdlib Require Import ZArith String Ascii List Lia Permutation Sorted OrderedTypeEx.
From Stdlib Require PrimFloat DecimalString.
From stdpp Require Import base list strings.

Local Open Scope Z_scope.

(** ** Python values *)

(** The exceptions the modelled code raises or lets through.  [Other] stands
    for any exception raised by an external collaborator; [SystemExit] and
    [KeyboardInterrupt] derive from [BaseException] only. *)
Inductive exn : Type :=
  | ValueError (msg : string)
  | AssertionError
  | KeyError (key : string)
  | IndexError
  | CalledProcessError (cmd : list string)
  | Other (what : string)
  | SystemExit (code : Z)
  | KeyboardInterrupt.

(** [isinstance(e, Exception)]: what [except Exception] catches. *)
Definition is_Exception (e : exn) : bool :=
  match e with
  | SystemExit _ | KeyboardInterrupt => false
  | _ => true
  end.

(** The outcome of evaluating a piece of Python: a value, a raised
    exception, or (for the model of a [while True] loop only) no answer
    within the given number of iterations. *)
Inductive Res (A : Type) : Type :=
  | Ok (a : A)
  | Raise (e : exn)
  | Fuel.
Arguments Ok {A} a.
Arguments Raise {A} e.
Arguments Fuel {A}.

Definition res_bind {A B} (r : Res A) (f : A -> Res B) : Res B :=
  match r with
  | Ok a => f a
  | Raise e => Raise e
  | Fuel => Fuel
  end.

(** Truthiness of an optional string ([None] and [""] are falsy) and of an
    optional integer ([None] and [0] are falsy). *)
Definition truthy_str (o : option string) : option string :=
  match o with
  | Some s => if String.eqb s "" then None else Some s
  | None => None
  end.

Definition truthy_int (o : option Z) : option Z :=
  match o with
  | Some n => if n =? 0 then None else Some n
  | None => None
  end.

(** [l[i]] on a list, with Python's negative indices. *)
Definition py_getitem {A} (l : list A) (i : Z) : Res A :=
  let n := Z.of_nat (length l) in
  let j := if i <? 0 then i + n else i in
  if (0 <=? j) && (j <? n)
  then match l !! Z.to_nat j with
       | Some x => Ok x
       | None => Raise IndexError
       end
  else Raise IndexError.

(** [any(f(x) for x in l)] and [all(f(x) for x in l)]: the generator is
    consumed left to right and no further than the deciding element, so an
    exception raised by a later element is not seen. *)
Fixpoint py_any {A} (f : A -> Res bool) (l : list A) : Res bool :=
  match l with
  | [] => Ok false
  | x :: l' =>
      match f x with
      | Ok true => Ok true
      | Ok false => py_any f l'
      | Raise e => Raise e
      | Fuel => Fuel
      end
  end.

Fixpoint py_all {A} (f : A -> Res bool) (l : list A) : Res bool :=
  match l with
  | [] => Ok true
  | x :: l' =>
      match f x with
      | Ok true => py_all f l'
      | Ok false => Ok false
      | Raise e => Raise e
      | Fuel => Fuel
      end
  end.

(** [needle in haystack] on strings. *)
Fixpoint str_contains (needle haystack : string) : bool :=
  String.prefix needle haystack ||
  match haystack with
  | EmptyString => false
  | String _ rest => str_contains needle rest
  end.

(** A [dict] with string keys.  Python dictionaries keep insertion order
    (which [values()] shows) and assigning to a key that is present keeps
    its position, so the dictionary is an association list without
    repeated keys. *)
Section Dict.
Context {V : Type}.

Fixpoint dict_set (k : string) (v : V) (d : list (string * V)) : list (string * V) :=
  match d with
  | [] => [(k, v)]
  | (k', v') :: d' =>
      if String.eqb k k' then (k', v) :: d' else (k', v') :: dict_set k v d'
  end.

(** [dict(items)] *)
Definition dict (items : list (string * V)) : list (string * V) :=
  fold_left (fun d kv => dict_set (fst kv) (snd kv) d) items [].

Fixpoint dict_lookup (k : string) (d : list (string * V)) : option V :=
  match d with
  | [] => None
  | (k', v) :: d' => if String.eqb k k' then Some v else dict_lookup k d'
  end.

(** [d[k]] *)
Definition dict_get (d : list (string * V)) (k : string) : Res V :=
  match dict_lookup k d with
  | Some v => Ok v
  | None => Raise (KeyError k)
  end.

(** [d.values()] *)
Definition dict_values (d : list (string * V)) : list V := map snd d.
End Dict.

(** ** Data model *)

(** [RevisionLike = Union[str, None, Callable[[Path], Awaitable[str]]]]; a
    callable is named by what it was built from. *)
Inductive RevisionLike : Type :=
  | RevNone
  | RevStr (s : string)
  | RevFn (descr : string).

Definition rev_truthy (r : RevisionLike) : bool :=
  match r with
  | RevNone => false
  | RevStr s => negb (String.eqb s "")
  | RevFn _ => true
  end.

(** [mypy_primer.model.Project], with the fields [main.py] reads.  [name] is
    a property of the class, computed from the fields that [replace] leaves
    alone. *)
Module Project.
Record t : Type := mk {
  location : string;
  name : string;
  revision : RevisionLike;
  expected_success : bool;
  cost : Z
}.

(** [dataclasses.replace(p, revision=r)] *)
Definition replace_revision (p : t) (r : RevisionLike) : t :=
  {| location := location p; name := name p; revision := r;
     expected_success := expected_success p; cost := cost p |}.
End Project.

(** What [main.py] reads of a [mypy_primer.model.MypyResult]. *)
Record MypyResult : Type := mkMypyResult {
  success : bool;
  output : string;
  runtime : PrimFloat.float
}.

(** What [main.py] reads of a [PrimerResult]: the old run, and the [diff]
    property (the changed lines, empty when there are none). *)
Record PrimerResult : Type := mkPrimerResult {
  pr_project : Project.t;
  old_result : MypyResult;
  new_result : MypyResult;
  diff : string
}.

(** The options held by [ctx.get()]. *)
Module Args.
Record t : Type := mk {
  local_project : option string;
  project_selector : option string;
  expected_success : bool;
  project_date : RevisionLike;
  num_shards : option Z;
  shard_index : option Z;
  bisect : bool;
  bisect_output : option string;
  coverage : bool;
  validate_expected_success : bool;
  measure_project_runtimes : bool;
  old_success : bool;
  output : string;
  debug : bool;
  clear : bool;
  base_dir : string;
  new_mypy : RevisionLike;
  old_mypy : RevisionLike;
  new_typeshed : RevisionLike;
  old_typeshed : RevisionLike
}.
End Args.

(** ** Functions of the other modules of the package

    [main.py] imports these; their code is not part of the file under
    study, so they are the operations of an interface. *)
Class Library : Type := {
  (** [mypy_primer.projects.get_projects()] *)
  get_projects : list Project.t;
  (** [Project.from_location(location)] *)
  from_location : string -> Project.t;
  (** [bool(re.search(pattern, text, flags))] for a pattern that compiles;
      the third argument says whether [flags] is [re.I]. *)
  re_search : string -> string -> bool -> bool;
  (** [mypy_primer.utils.strip_colour_code] *)
  strip_colour_code : string -> string;
  (** [mypy_primer.git_utils.revision_or_recent_tag_fn] *)
  revision_or_recent_tag_fn : RevisionLike -> RevisionLike;
  (** [str(result)] for a [MypyResult] *)
  str_MypyResult : MypyResult -> string;
  (** [result.format_full()], [result.format_diff_only()] and
      [result.format_concise()] *)
  format_full : PrimerResult -> string;
  format_diff_only : PrimerResult -> string;
  format_concise : PrimerResult -> string;
  (** [format(Style.BLUE)] and [format(Style.RESET)] *)
  Style_BLUE : string;
  Style_RESET : string;
  (** [text.strip()] *)
  str_strip : string -> string;
  (** [path.absolute()] *)
  path_absolute : string -> string;
  (** [path.parent] *)
  path_parent : string -> string;
  (** [sorted(results, reverse=True)] on pairs of a runtime and a project:
      the order of tuples, which between equal runtimes is the order of
      [Project] *)
  sorted_runtimes :
    list (PrimFloat.float * Project.t) -> Res (list (PrimFloat.float * Project.t));
  (** the runtime of [f"{time_taken:6.2f}"] *)
  format_runtime : PrimFloat.float -> string;
  (** [parse_options_and_set_ctx(argv)] *)
  parse_options_and_set_ctx : list string -> Res Args.t
}.

(** ** Project selection and sharding *)

(** The sort key [lambda p: (p.cost, p.location)] and Python's [<] on such
    tuples. *)
Definition sort_key (p : Project.t) : Z * string :=
  (Project.cost p, Project.location p).

Definition key_lt (a b : Z * string) : bool :=
  (fst a <? fst b) || ((fst a =? fst b) && String.ltb (snd a) (snd b)).

(** [sorted(projects, key=sort_key, reverse=True)]: descending by key, and
    stable (elements with equal keys keep the order they came in). *)
Fixpoint insert_desc (x : Project.t) (l : list Project.t) : list Project.t :=
  match l with
  | [] => [x]
  | y :: l' =>
      if key_lt (sort_key x) (sort_key y)
      then y :: insert_desc x l'
      else x :: y :: l'
  end.

Definition sorted_reverse (l : list Project.t) : list Project.t :=
  foldr insert_desc [] l.

(** [min(range(len(shard_costs)), key=lambda i: shard_costs[i])]: the first
    index of a least element; [None] stands for the [ValueError] that [min]
    raises on an empty range. *)
Fixpoint min_from (best : nat) (bestv : Z) (i : nat) (rest : list Z) : nat :=
  match rest with
  | [] => best
  | c :: rest' =>
      if c <? bestv then min_from i c (S i) rest' else min_from best bestv (S i) rest'
  end.

Definition min_index (shard_costs : list Z) : option nat :=
  match shard_costs with
  | [] => None
  | c :: rest => Some (min_from 0%nat c 1%nat rest)
  end.

(** The body of [for p in sorted(...)], over the projects already sorted. *)
Fixpoint assign_shards (ps : list Project.t)
    (shard_costs : list Z) (shard_projects : list (list Project.t))
    : Res (list Z * list (list Project.t)) :=
  match ps with
  | [] => Ok (shard_costs, shard_projects)
  | p :: ps' =>
      match min_index shard_costs with
      | None => Raise (ValueError "min() arg is an empty sequence")
      | Some min_shard =>
          assign_shards ps'
            (alter (fun c => c + Project.cost p) min_shard shard_costs)
            (alter (fun s => s ++ [p]) min_shard shard_projects)
      end
  end.

(** Lines 161-166: the shard costs and the shards for [num_shards]. *)
Definition partition_shards (num_shards : Z) (projects : list Project.t)
    : Res (list Z * list (list Project.t)) :=
  assign_shards (sorted_reverse projects)
    (replicate (Z.to_nat num_shards) 0)
    (replicate (Z.to_nat num_shards) []).

Section Selection.
Context {L : Library}.

(** Lines 145-155: the corpus after the three optional transformations. *)
Definition filtered_projects (ARGS : Args.t) : list Project.t :=
  let project_iter := get_projects in
  let project_iter :=
    match truthy_str (Args.project_selector ARGS) with
    | Some sel => List.filter (fun p => re_search sel (Project.location p) true) project_iter
    | None => project_iter
    end in
  let project_iter :=
    if Args.expected_success ARGS
    then List.filter (fun p => Project.expected_success p) project_iter
    else project_iter in
  let project_iter :=
    if rev_truthy (Args.project_date ARGS)
    then map (fun p => Project.replace_revision p (Args.project_date ARGS)) project_iter
    else project_iter in
  project_iter.

Definition select_projects (ARGS : Args.t) : Res (list Project.t) :=
  match truthy_str (Args.local_project ARGS) with
  | Some loc => Ok [from_location loc]
  | None =>
      let projects := filtered_projects ARGS in
      match projects with
      | [] => Raise (ValueError "No projects selected!")
      | _ :: _ =>
          match truthy_int (Args.num_shards ARGS) with
          | Some num_shards =>
              match Args.shard_index ARGS with
              | None => Raise AssertionError
              | Some shard_index =>
                  res_bind (partition_shards num_shards projects) (fun st =>
                  py_getitem (snd st) shard_index)
              end
          | None => Ok projects
          end
      end
  end.
End Selection.

(** ** The bisection oracle *)

(** The element of the generator on lines 278-280: the comparison of a
    project's new output with its recorded output. *)
Definition same_output (new old : MypyResult) : bool :=
  String.eqb (output new) (output old).

Section Oracle.
Context {L : Library}.

(** The element of the generator on lines 274-277. *)
Definition output_matches (pattern : string) (r : MypyResult) : bool :=
  re_search pattern (strip_colour_code (output r)) false.

(** [are_results_good], a closure of [bisect] over [ARGS], [projects] and
    [old_results]. *)
Definition are_results_good (ARGS : Args.t) (projects : list Project.t)
    (old_results results : list (string * MypyResult)) : Res bool :=
  match truthy_str (Args.bisect_output ARGS) with
  | Some pattern =>
      res_bind
        (py_any (fun project =>
           res_bind (dict_get results (Project.name project)) (fun r =>
           Ok (output_matches pattern r))) projects)
        (fun found => Ok (negb found))
  | None =>
      py_all (fun project =>
        res_bind (dict_get results (Project.name project)) (fun r =>
        res_bind (dict_get old_results (Project.name project)) (fun o =>
        Ok (same_output r o)))) projects
  end.
End Oracle.

(** ** Helpers of [coverage] *)

(** [str(n)] for an integer *)
Definition str_int (n : Z) : string :=
  DecimalString.NilZero.string_of_int (Z.to_int n).

(** [sum(numbers)] *)
Definition sum (numbers : list Z) : Z := fold_left Z.add numbers 0.

(** [[f(x) for x in l]], up to the first exception *)
Fixpoint py_map {A B} (f : A -> Res B) (l : list A) : Res (list B) :=
  match l with
  | [] => Ok []
  | x :: l' =>
      match f x with
      | Ok y =>
          match py_map f l' with
          | Ok ys => Ok (y :: ys)
          | Raise e => Raise e
          | Fuel => Fuel
          end
      | Raise e => Raise e
      | Fuel => Fuel
      end
  end.

(** [sorted(projects, key=..., reverse=True)], the keys being computed:
    descending by key, and stable. *)
Fixpoint insert_by_key (x : Z * Project.t) (l : list (Z * Project.t))
    : list (Z * Project.t) :=
  match l with
  | [] => [x]
  | y :: l' => if fst x <? fst y then y :: insert_by_key x l' else x :: y :: l'
  end.

Definition sorted_by_key_reverse (l : list (Z * Project.t)) : list Project.t :=
  map snd (foldr insert_by_key [] l).

(** ** Effects *)

Inductive FsOp : Type :=
  | Rmtree (path : string)
  | Mkdir (path : string).

(** One entry of the log per call to an external collaborator, per printed
    text and per printed traceback. *)
Inductive Event : Type :=
  | EvFs (op : FsOp)
  | EvSetupMypy (mypy_dir : string) (revision : RevisionLike) (editable : bool)
  | EvEnsureRepo (parent_dir : string) (revision : RevisionLike)
  | EvProjectSetup (p : Project.t)
  | EvRunMypy (p : Project.t) (mypy_exe : string)
  | EvPrimerResult (p : Project.t)
  | EvRun (cmd : list string) (cwd : option string)
  | EvResolveRevision (revision : RevisionLike) (repo_dir : string)
  | EvSourcePaths (p : Project.t) (python_exe : string)
  | EvLineCount (path : string)
  | EvPrint (text : string)
  | EvDebugPrint (text : string)
  | EvTraceback (e : exn).

(** What the world outside answers.  [W] is its state: the file system and
    the checkouts, among them the one [git bisect] moves. *)
Class Environment (W : Type) : Type := {
  path_exists : string -> W -> bool;
  path_is_dir : string -> W -> bool;
  fs_ext : FsOp -> W -> Res unit * W;
  (** [setup_mypy] (lines 41-87), every step of which is a call to an
      external tool, taken as one action that answers the path of the
      checker's executable. *)
  setup_mypy_ext : string -> RevisionLike -> bool -> W -> Res string * W;
  (** [ensure_repo_at_revision] on the typeshed repository *)
  ensure_repo_ext : string -> RevisionLike -> W -> Res string * W;
  (** [project.setup()] *)
  project_setup_ext : Project.t -> W -> Res unit * W;
  (** [project.run_mypy(mypy_exe, typeshed_dir=None, mypy_path=[])] *)
  run_mypy_ext : Project.t -> string -> W -> Res MypyResult;
  (** awaiting [project.primer_result(...)] *)
  primer_result_ext :
    Project.t -> string -> string -> option string -> option string -> W -> Res PrimerResult;
  (** the order in which [asyncio.as_completed] yields *)
  completion_order : W -> list Project.t -> list Project.t;
  completion_order_perm : forall w l, Permutation (completion_order w l) l;
  (** [run(cmd, cwd=cwd, output=True)]: the standard output of the command,
      or [CalledProcessError] *)
  run_ext : list string -> option string -> W -> Res string * W;
  (** [get_revision_for_revision_or_date] *)
  get_revision_ext : RevisionLike -> string -> W -> Res string;
  (** awaiting [project.source_paths(python_exe)] *)
  source_paths_ext : Project.t -> string -> W -> Res (list string) * W;
  (** [mypy_primer.utils.line_count(path)] *)
  line_count_ext : string -> W -> Res Z
}.

(** A program: from the state of the world to an outcome, the events it
    logged, and the new state. *)
Definition M (W A : Type) : Type := W -> Res A * list Event * W.

Section Monad.
Context {W : Type}.

Definition ret {A} (a : A) : M W A := fun w => (Ok a, [], w).

Definition raise {A} (e : exn) : M W A := fun w => (Raise e, [], w).

Definition lift {A} (r : Res A) : M W A := fun w => (r, [], w).

Definition bind {A B} (m : M W A) (f : A -> M W B) : M W B := fun w =>
  match m w with
  | (Ok a, evs, w') =>
      match f a w' with
      | (r, evs', w'') => (r, evs ++ evs', w'')
      end
  | (Raise e, evs, w') => (Raise e, evs, w')
  | (Fuel, evs, w') => (Fuel, evs, w')
  end.

Definition emit (ev : Event) : M W unit := fun w => (Ok tt, [ev], w).

(** An external call that may change the world: logged, then answered. *)
Definition call {A} (ev : Event) (ext : W -> Res A * W) : M W A := fun w =>
  match ext w with
  | (r, w') => (r, [ev], w')
  end.

(** An external call that only reads the world. *)
Definition ask {A} (ev : Event) (ext : W -> Res A) : M W A := fun w =>
  (ext w, [ev], w).

(** Reading the state of the world. *)
Definition read {A} (f : W -> A) : M W A := fun w => (Ok (f w), [], w).

Definition py_assert (b : bool) : M W unit :=
  if b then ret tt else raise AssertionError.

(** [try: m finally: cleanup] *)
Definition try_finally {A} (m : M W A) (cleanup : M W unit) : M W A := fun w =>
  match m w with
  | (Fuel, evs, w') => (Fuel, evs, w')
  | (r, evs, w') =>
      match cleanup w' with
      | (Ok _, evs', w'') => (r, evs ++ evs', w'')
      | (Raise e, evs', w'') => (Raise e, evs ++ evs', w'')
      | (Fuel, evs', w'') => (Fuel, evs ++ evs', w'')
      end
  end.

(** [await asyncio.gather] of the tasks [ms]: the answers in the order of [ms], or the
    first exception.  The tasks are run one after the other, in that
    order: their interleaving is not modelled. *)
Fixpoint gather {A} (ms : list (M W A)) : M W (list A) :=
  match ms with
  | [] => ret []
  | m :: ms' => bind m (fun a => bind (gather ms') (fun l => ret (a :: l)))
  end.

(** Running tasks whose exceptions nobody retrieves. *)
Fixpoint run_detached (ms : list (M W unit)) : M W unit := fun w =>
  match ms with
  | [] => (Ok tt, [], w)
  | m :: ms' =>
      match m w with
      | (Fuel, evs, w') => (Fuel, evs, w')
      | (_, evs, w') =>
          match run_detached ms' w' with
          | (r, evs', w'') => (r, evs ++ evs', w'')
          end
      end
  end.

(** [await asyncio.wait(ms)]: refuses an empty collection, and leaves an
    exception of a task in the task. *)
Definition asyncio_wait (ms : list (M W unit)) : M W unit :=
  match ms with
  | [] => raise (ValueError "Set of coroutines/Futures is empty.")
  | _ :: _ => run_detached ms
  end.
End Monad.

Notation "'do' x <- m ; k" := (bind m (fun x => k))
  (at level 10, x name, m at level 100, k at level 200).
Notation "'seq' m ; k" := (bind m (fun _ => k))
  (at level 10, m at level 100, k at level 200).

(** ** The coroutines *)

Definition path_join (dir child : string) : string :=
  String.append dir (String.append "/" child).

Definition RECENT_MYPYS : list string := ["0.991"; "0.982"; "0.971"; "0.961"].

Definition SUBMODULE_UPDATE : list string := ["git"; "submodule"; "update"; "--init"].

Section Coroutines.
Context {L : Library} {W : Type} {E : Environment W}.

Definition setup_mypy (mypy_dir : string) (revision_like : RevisionLike)
    (editable : bool) : M W string :=
  call (EvSetupMypy mypy_dir revision_like editable)
       (setup_mypy_ext mypy_dir revision_like editable).

Definition exec (cmd : list string) (cwd : option string) : M W string :=
  call (EvRun cmd cwd) (run_ext cmd cwd).

Definition debug_print (text : string) : M W unit := emit (EvDebugPrint text).

Definition print (text : string) : M W unit := emit (EvPrint text).

Definition when (b : bool) (m : M W unit) : M W unit :=
  if b then m else ret tt.

Definition setup_new_and_old_mypy (ARGS : Args.t)
    (new_mypy_revision old_mypy_revision : RevisionLike) : M W (string * string) :=
  do exes <- gather
    [setup_mypy (path_join (Args.base_dir ARGS) "new_mypy") new_mypy_revision false;
     setup_mypy (path_join (Args.base_dir ARGS) "old_mypy") old_mypy_revision false];
  match exes with
  | [new_mypy; old_mypy] =>
      seq when (Args.debug ARGS)
        (do versions <- gather
           [exec [new_mypy; "--version"] None; exec [old_mypy; "--version"] None];
         match versions with
         | [new_version; old_version] =>
             seq debug_print (String.append Style_BLUE (String.append "new mypy version: "
                   (String.append (str_strip new_version) Style_RESET)));
             debug_print (String.append Style_BLUE (String.append "old mypy version: "
                   (String.append (str_strip old_version) Style_RESET)))
         | _ => ret tt
         end);
      ret (new_mypy, old_mypy)
  | _ => raise (ValueError "not enough values to unpack")
  end.

(** The two branches of [setup_new_and_old_typeshed], which differ in the
    directory and the revision only. *)
Definition fresh_typeshed (ARGS : Args.t) (dir : string) (revision : RevisionLike)
    : M W (option string) :=
  let parent_dir := path_join (Args.base_dir ARGS) dir in
  do there <- read (path_exists parent_dir);
  seq when there (call (EvFs (Rmtree parent_dir)) (fs_ext (Rmtree parent_dir)));
  seq call (EvFs (Mkdir parent_dir)) (fs_ext (Mkdir parent_dir));
  do repo <- call (EvEnsureRepo parent_dir revision) (ensure_repo_ext parent_dir revision);
  ret (Some repo).

Definition setup_new_and_old_typeshed (ARGS : Args.t)
    (new_typeshed_revision old_typeshed_revision : RevisionLike)
    : M W (option string * option string) :=
  do new_typeshed_dir <-
    (if rev_truthy (Args.new_typeshed ARGS)
     then fresh_typeshed ARGS "new_typeshed" new_typeshed_revision
     else ret None);
  do old_typeshed_dir <-
    (if rev_truthy (Args.old_typeshed ARGS)
     then fresh_typeshed ARGS "old_typeshed" old_typeshed_revision
     else ret None);
  ret (new_typeshed_dir, old_typeshed_dir).

(** *** [validate_expected_success] *)

(** The [for mypy_exe in recent_mypy_exes] loop of [inner]: the first
    executable that succeeds on the project, if any. *)
Fixpoint first_success (ARGS : Args.t) (project : Project.t)
    (mypy_exes : list string) : M W (option string) :=
  match mypy_exes with
  | [] => ret None
  | mypy_exe :: rest =>
      do mypy_result <- ask (EvRunMypy project mypy_exe) (run_mypy_ext project mypy_exe);
      seq when (Args.debug ARGS)
        (seq debug_print Style_BLUE;
         seq debug_print (str_MypyResult mypy_result);
         debug_print Style_RESET);
      if success mypy_result then ret (Some mypy_exe) else first_success ARGS project rest
  end.

Definition validate_inner (ARGS : Args.t) (recent_mypy_exes : list string)
    (project : Project.t) : M W (option string) :=
  seq call (EvProjectSetup project) (project_setup_ext project);
  do found <- first_success ARGS project recent_mypy_exes;
  let succeeded := match found with Some _ => true | None => false end in
  if succeeded && negb (Project.expected_success project) then
    ret (Some (String.append "Project " (String.append (Project.location project)
           (String.append " succeeded with "
           (String.append (match found with Some exe => exe | None => "None" end)
           ", but is not marked as expecting success")))))
  else if negb succeeded && Project.expected_success project then
    ret (Some (String.append "Project " (String.append (Project.location project)
           " did not succeed, but is marked as expecting success")))
  else ret None.

Fixpoint print_truthy (results : list (option string)) : M W unit :=
  match results with
  | [] => ret tt
  | result :: rest =>
      seq match truthy_str result with
          | Some text => print text
          | None => ret tt
          end;
      print_truthy rest
  end.

Definition validate_expected_success (ARGS : Args.t) : M W unit :=
  do recent_mypy_exes <- gather
    (map (fun recent_mypy =>
            setup_mypy (path_join (Args.base_dir ARGS) (String.append "mypy_" recent_mypy))
                       (RevStr recent_mypy) false)
         RECENT_MYPYS);
  do projects <- lift (select_projects ARGS);
  do results <- gather (map (validate_inner ARGS recent_mypy_exes) projects);
  print_truthy results.

(** *** [bisect] *)

Definition run_wrapper (mypy_exe : string) (project : Project.t)
    : M W (string * MypyResult) :=
  do r <- ask (EvRunMypy project mypy_exe) (run_mypy_ext project mypy_exe);
  ret (Project.name project, r).

Definition NEWLINE : string := String "010" EmptyString.

Definition debug_results (results : list (string * MypyResult)) : M W unit :=
  debug_print (String.concat NEWLINE (map str_MypyResult (dict_values results))).

(** One turn of the [while True] loop (lines 285-299); the answer says
    whether the turn ended in [return]. *)
Definition bisect_step (ARGS : Args.t) (projects : list Project.t)
    (mypy_exe repo_dir : string) (old_results : list (string * MypyResult))
    : M W bool :=
  seq exec SUBMODULE_UPDATE (Some repo_dir);
  do results_fut <- gather (map (run_wrapper mypy_exe) projects);
  let results := dict results_fut in
  do good <- lift (are_results_good ARGS projects old_results results);
  let state := if good then "good" else "bad" in
  do stdout <- exec ["git"; "bisect"; state] (Some repo_dir);
  if str_contains "first bad commit" stdout then
    seq print stdout;
    ret true
  else
    seq when (Args.debug ARGS)
      (seq debug_results results;
       seq debug_print stdout;
       debug_print Style_RESET);
    ret false.

(** The loop, for at most [fuel] turns. *)
Fixpoint bisect_loop (fuel : nat) (ARGS : Args.t) (projects : list Project.t)
    (mypy_exe repo_dir : string) (old_results : list (string * MypyResult))
    : M W unit :=
  match fuel with
  | O => fun w => (Fuel, [], w)
  | S fuel' =>
      do returned <- bisect_step ARGS projects mypy_exe repo_dir old_results;
      if returned then ret tt
      else bisect_loop fuel' ARGS projects mypy_exe repo_dir old_results
  end.

(** Lines 239-270: everything before the assertion on the old results.
    It answers what the loop needs. *)
Definition bisect_init (ARGS : Args.t)
    : M W (list Project.t * string * string * list (string * MypyResult)) :=
  seq py_assert (negb (rev_truthy (Args.new_typeshed ARGS)));
  seq py_assert (negb (rev_truthy (Args.old_typeshed ARGS)));
  do mypy_exe <- setup_mypy (path_join (Args.base_dir ARGS) "bisect_mypy")
                   (revision_or_recent_tag_fn (Args.old_mypy ARGS)) true;
  let repo_dir := path_join (path_join (Args.base_dir ARGS) "bisect_mypy") "mypy" in
  do is_dir <- read (path_is_dir repo_dir);
  seq py_assert is_dir;
  do projects <- lift (select_projects ARGS);
  seq asyncio_wait
    (map (fun project => call (EvProjectSetup project) (project_setup_ext project)) projects);
  do results_fut <- gather (map (run_wrapper mypy_exe) projects);
  let old_results := dict results_fut in
  seq when (Args.debug ARGS)
    (seq debug_results old_results;
     debug_print Style_RESET);
  seq exec ["git"; "bisect"; "start"] (Some repo_dir);
  seq exec ["git"; "bisect"; "good"] (Some repo_dir);
  let new_mypy :=
    if rev_truthy (Args.new_mypy ARGS) then Args.new_mypy ARGS else RevStr "origin/HEAD" in
  do new_revision <- ask (EvResolveRevision new_mypy repo_dir)
                         (get_revision_ext new_mypy repo_dir);
  seq exec ["git"; "bisect"; "bad"; new_revision] (Some repo_dir);
  ret (projects, mypy_exe, repo_dir, old_results).

Definition bisect (fuel : nat) (ARGS : Args.t) : M W unit :=
  do st <- bisect_init ARGS;
  match st with
  | (projects, mypy_exe, repo_dir, old_results) =>
      do good <- lift (are_results_good ARGS projects old_results old_results);
      seq py_assert good;
      bisect_loop fuel ARGS projects mypy_exe repo_dir old_results
  end.

(** *** [primer] *)

Definition report (ARGS : Args.t) (result : PrimerResult) : M W unit :=
  if String.eqb (Args.output ARGS) "full" then print (format_full result)
  else if String.eqb (Args.output ARGS) "diff" then print (format_diff_only result)
  else if String.eqb (Args.output ARGS) "concise" then
    let concise := format_concise result in
    if String.eqb concise "" then ret tt
    else seq print concise; print ""
  else ret tt.

(** The [for result_fut in asyncio.as_completed(results)] loop (lines
    350-366), over the projects in the order their results complete. *)
Fixpoint primer_loop (ARGS : Args.t) (new_mypy old_mypy : string)
    (new_typeshed old_typeshed : option string)
    (completed : list Project.t) (retcode : Z) : M W Z :=
  match completed with
  | [] => ret retcode
  | project :: rest =>
      do result <- ask (EvPrimerResult project)
                       (primer_result_ext project new_mypy old_mypy new_typeshed old_typeshed);
      if Args.old_success ARGS && negb (success (old_result result)) then
        primer_loop ARGS new_mypy old_mypy new_typeshed old_typeshed rest retcode
      else
        seq report ARGS result;
        let retcode :=
          if (retcode =? 0) && negb (String.eqb (diff result) "") then 1 else retcode in
        primer_loop ARGS new_mypy old_mypy new_typeshed old_typeshed rest retcode
  end.

Definition primer (ARGS : Args.t) : M W Z :=
  do projects <- lift (select_projects ARGS);
  do exes <- setup_new_and_old_mypy ARGS (Args.new_mypy ARGS)
               (revision_or_recent_tag_fn (Args.old_mypy ARGS));
  do sheds <- setup_new_and_old_typeshed ARGS (Args.new_typeshed ARGS) (Args.old_typeshed ARGS);
  do completed <- read (fun w => completion_order w projects);
  primer_loop ARGS (fst exes) (snd exes) (fst sheds) (snd sheds) completed 0.

(** *** [main] *)

Definition set_base_dir (ARGS : Args.t) (dir : string) : Args.t :=
  {| Args.local_project := Args.local_project ARGS;
     Args.project_selector := Args.project_selector ARGS;
     Args.expected_success := Args.expected_success ARGS;
     Args.project_date := Args.project_date ARGS;
     Args.num_shards := Args.num_shards ARGS;
     Args.shard_index := Args.shard_index ARGS;
     Args.bisect := Args.bisect ARGS;
     Args.bisect_output := Args.bisect_output ARGS;
     Args.coverage := Args.coverage ARGS;
     Args.validate_expected_success := Args.validate_expected_success ARGS;
     Args.measure_project_runtimes := Args.measure_project_runtimes ARGS;
     Args.old_success := Args.old_success ARGS;
     Args.output := Args.output ARGS;
     Args.debug := Args.debug ARGS;
     Args.clear := Args.clear ARGS;
     Args.base_dir := dir;
     Args.new_mypy := Args.new_mypy ARGS;
     Args.old_mypy := Args.old_mypy ARGS;
     Args.new_typeshed := Args.new_typeshed ARGS;
     Args.old_typeshed := Args.old_typeshed ARGS |}.

(** *** [measure_project_runtimes] *)

(** [inner] of [measure_project_runtimes] (lines 220-223) *)
Definition measure_inner (mypy_exe : string) (project : Project.t)
    : M W (PrimFloat.float * Project.t) :=
  seq call (EvProjectSetup project) (project_setup_ext project);
  do result <- ask (EvRunMypy project mypy_exe) (run_mypy_ext project mypy_exe);
  ret (runtime result, project).

(** The loop of lines 228-229. *)
Fixpoint print_runtimes (results : list (PrimFloat.float * Project.t)) : M W unit :=
  match results with
  | [] => ret tt
  | (time_taken, project) :: rest =>
      seq print (String.append (format_runtime time_taken)
                   (String.append "  " (Project.location project)));
      print_runtimes rest
  end.

Definition measure_project_runtimes (ARGS : Args.t) : M W unit :=
  do revision <-
    (if rev_truthy (Args.new_mypy ARGS) then ret (Args.new_mypy ARGS)
     else do recent <- lift (py_getitem RECENT_MYPYS 0); ret (RevStr recent));
  do mypy_exe <- setup_mypy (path_join (Args.base_dir ARGS) "timer_mypy") revision false;
  do projects <- lift (select_projects ARGS);
  do results <- gather (map (measure_inner mypy_exe) projects);
  do results <- lift (sorted_runtimes results);
  print_runtimes results.

(** *** [coverage] *)

(** [sum(map(line_count, paths))] *)
Fixpoint count_lines (paths : list string) : M W Z :=
  match paths with
  | [] => ret 0
  | path :: rest =>
      do n <- ask (EvLineCount path) (line_count_ext path);
      do m <- count_lines rest;
      ret (n + m)
  end.

(** The loop of lines 315-317 over [zip(projects, all_paths)]: it answers
    [project_to_paths] and [project_to_lines]. *)
Fixpoint coverage_counts (pairs : list (Project.t * list string))
    (project_to_paths project_to_lines : list (string * Z))
    : M W (list (string * Z) * list (string * Z)) :=
  match pairs with
  | [] => ret (project_to_paths, project_to_lines)
  | (project, paths) :: rest =>
      let project_to_paths :=
        dict_set (Project.location project) (Z.of_nat (length paths)) project_to_paths in
      do lines <- count_lines paths;
      let project_to_lines := dict_set (Project.location project) lines project_to_lines in
      coverage_counts rest project_to_paths project_to_lines
  end.

(** The loop of lines 319-321. *)
Fixpoint print_coverage (projects : list Project.t)
    (project_to_paths project_to_lines : list (string * Z)) : M W unit :=
  match projects with
  | [] => ret tt
  | project :: rest =>
      let p := Project.location project in
      do lines <- lift (dict_get project_to_lines p);
      do paths <- lift (dict_get project_to_paths p);
      seq print (String.append p (String.append " " (String.append (str_int lines)
                   (String.append " " (str_int paths)))));
      print_coverage rest project_to_paths project_to_lines
  end.

Definition coverage (ARGS : Args.t) : M W unit :=
  do mypy_exe <- setup_mypy (path_join (Args.base_dir ARGS) "new_mypy")
                   (Args.new_mypy ARGS) false;
  do projects <- lift (select_projects ARGS);
  let mypy_python := path_join (path_parent mypy_exe) "python" in
  do there <- read (path_exists mypy_python);
  seq py_assert there;
  do all_paths <- gather
    (map (fun project => call (EvSourcePaths project mypy_python)
                              (source_paths_ext project mypy_python))
         projects);
  do counts <- coverage_counts (combine projects all_paths) [] [];
  let project_to_paths := fst counts in
  let project_to_lines := snd counts in
  do keys <- lift (py_map (fun p => dict_get project_to_lines (Project.location p)) projects);
  seq print_coverage (sorted_by_key_reverse (combine keys projects))
        project_to_paths project_to_lines;
  seq print (String.append "Checking "
               (String.append (str_int (Z.of_nat (length projects))) " projects..."));
  seq print (String.append "Containing "
               (String.append (str_int (sum (dict_values project_to_paths))) " files..."));
  print (String.append "Totalling to "
           (String.append (str_int (sum (dict_values project_to_lines))) " lines...")).

(** The choice of the coroutine (lines 385-395) and its run. *)
Definition run_coro (fuel : nat) (ARGS : Args.t) : M W (option Z) :=
  if Args.coverage ARGS then
    seq coverage ARGS; ret None
  else if Args.bisect ARGS || (match truthy_str (Args.bisect_output ARGS) with
                               | Some _ => true | None => false end) then
    seq bisect fuel ARGS; ret None
  else if Args.validate_expected_success ARGS then
    seq validate_expected_success ARGS; ret None
  else if Args.measure_project_runtimes ARGS then
    seq measure_project_runtimes ARGS; ret None
  else
    do retcode <- primer ARGS; ret (Some retcode).

Definition clear_base_dir (ARGS : Args.t) : M W unit :=
  do there <- read (path_exists (Args.base_dir ARGS));
  when (there && Args.clear ARGS)
    (call (EvFs (Rmtree (Args.base_dir ARGS))) (fs_ext (Rmtree (Args.base_dir ARGS)))).

Definition inner (fuel : nat) (argv : list string) : M W (option Z) :=
  do ARGS <- lift (parse_options_and_set_ctx argv);
  seq clear_base_dir ARGS;
  let ARGS := set_base_dir ARGS (path_absolute (Args.base_dir ARGS)) in
  seq call (EvFs (Mkdir (Args.base_dir ARGS))) (fs_ext (Mkdir (Args.base_dir ARGS)));
  let projects_dir := path_join (Args.base_dir ARGS) "projects" in
  seq call (EvFs (Mkdir projects_dir)) (fs_ext (Mkdir projects_dir));
  try_finally (run_coro fuel ARGS) (clear_base_dir ARGS).

(** [main]: the answer is the status handed to [sys.exit]; an exception
    that [except Exception] does not catch leaves [main]. *)
Definition main (fuel : nat) (argv : list string) : M W Z := fun w =>
  match inner fuel argv w with
  | (Ok retcode, evs, w') =>
      (Ok (match retcode with Some n => n | None => 0 end), evs, w')
  | (Raise e, evs, w') =>
      if is_Exception e then (Ok 70, evs ++ [EvTraceback e], w')
      else (Raise e, evs, w')
  | (Fuel, evs, w') => (Fuel, evs, w')
  end.
End Coroutines.

(** ** Concrete collaborators

    Instances of the two interfaces, on which the programs above can be
    run. *)

Definition ESC : ascii := "027"%char.

Definition sgr_parameter (c : ascii) : bool :=
  let n := nat_of_ascii c in
  ((48 <=? n)%nat && (n <=? 57)%nat) || Ascii.eqb c ";" || Ascii.eqb c "[".

(** Modelled from the spec: [strip_colour_code] of [mypy_primer.utils],
    which is not in [main.py].  The spec says it strips ANSI styling: a
    styling sequence is ESC, an opening bracket, digits and semicolons, and
    a closing [m]; such sequences are removed and everything else is kept.
    [pending] is the part of a sequence read so far. *)
Fixpoint strip_ansi (pending : option string) (text : string) : string :=
  match text with
  | EmptyString => match pending with Some seen => seen | None => EmptyString end
  | String c rest =>
      match pending with
      | None =>
          if Ascii.eqb c ESC then strip_ansi (Some (String c EmptyString)) rest
          else String c (strip_ansi None rest)
      | Some seen =>
          if Ascii.eqb c "m" then strip_ansi None rest
          else if sgr_parameter c then strip_ansi (Some (String.append seen (String c EmptyString))) rest
          else if Ascii.eqb c ESC then String.append seen (strip_ansi (Some (String c EmptyString)) rest)
          else String.append seen (String c (strip_ansi None rest))
      end
  end.

Definition ascii_lower (c : ascii) : ascii :=
  let n := nat_of_ascii c in
  if (65 <=? n)%nat && (n <=? 90)%nat then ascii_of_nat (n + 32) else c.

Fixpoint str_lower (s : string) : string :=
  match s with
  | EmptyString => EmptyString
  | String c rest => String (ascii_lower c) (str_lower rest)
  end.

(** A library in which [re.search] is given patterns without
    metacharacters, so that it is a search for a substring, and the corpus
    and the parsed options are fixed. *)
(** The path without its last component. *)
Fixpoint dirname_aux (path : string) : option string :=
  match path with
  | EmptyString => None
  | String c rest =>
      match dirname_aux rest with
      | Some dir => Some (String c dir)
      | None => if Ascii.eqb c "/" then Some EmptyString else None
      end
  end.

Definition dirname (path : string) : string :=
  match dirname_aux path with
  | Some dir => dir
  | None => "."
  end.

(** Descending by runtime, the projects never being compared. *)
Fixpoint insert_runtime (x : PrimFloat.float * Project.t)
    (l : list (PrimFloat.float * Project.t)) : list (PrimFloat.float * Project.t) :=
  match l with
  | [] => [x]
  | y :: l' =>
      if PrimFloat.ltb (fst x) (fst y) then y :: insert_runtime x l' else x :: y :: l'
  end.

(** In this library the runtimes are formatted as the runtime of the
    examples, which is zero. *)
Definition literal_library (corpus : list Project.t) (ARGS : Args.t) : Library := {|
  get_projects := corpus;
  from_location := fun loc => Project.mk loc loc RevNone false 5;
  re_search := fun pattern text ignore_case =>
    if ignore_case then str_contains (str_lower pattern) (str_lower text)
    else str_contains pattern text;
  strip_colour_code := strip_ansi None;
  revision_or_recent_tag_fn := fun r => r;
  str_MypyResult := output;
  format_full := diff;
  format_diff_only := diff;
  format_concise := diff;
  Style_BLUE := "";
  Style_RESET := "";
  str_strip := fun s => s;
  path_absolute := fun p => p;
  path_parent := dirname;
  sorted_runtimes := fun results => Ok (foldr insert_runtime [] results);
  format_runtime := fun _ => "  0.00";
  parse_options_and_set_ctx := fun _ => Ok ARGS
|}.

(** Modelled from the spec: the bisection primitive ([git bisect], an
    external tool).  The spec describes it as a binary search over an
    ordered revision history that tracks a good and a bad boundary, tests
    the midpoint, and reports the first bad commit when the interval has
    collapsed to one revision.  Revisions are numbered along the history,
    oldest first. *)
Module Linear.
Record Checkout : Type := mk {
  revs : list string;
  head : nat;
  good : option nat;
  bad : option nat
}.

Definition set_head (w : Checkout) (h : nat) : Checkout :=
  mk (revs w) h (good w) (bad w).

(** The position of a revision in the history. *)
Fixpoint index_of (rev : string) (l : list string) : option nat :=
  match l with
  | [] => None
  | r :: l' => if String.eqb rev r then Some 0%nat else S <$> index_of rev l'
  end.

(** The number of candidates for the first bad revision: the revisions
    after the good boundary, up to the bad one. *)
Definition interval_size (w : Checkout) : nat :=
  match good w, bad w with
  | Some g, Some b => (b - g)%nat
  | _, _ => 0%nat
  end.

(** What the primitive does after a verdict: report the first bad
    revision, or check out the midpoint of the interval. *)
Definition next (cmd : list string) (w : Checkout) : Res string * Checkout :=
  match good w, bad w with
  | Some g, Some b =>
      if (b <=? g)%nat then (Raise (CalledProcessError cmd), w)
      else if (b - g =? 1)%nat then
        (Ok (String.append (nth b (revs w) "") " is the first bad commit"), w)
      else (Ok "Bisecting: revisions left to test", set_head w (g + (b - g) / 2)%nat)
  | _, _ => (Ok "status: waiting for both good and bad commits", w)
  end.

Definition git (cmd : list string) (cwd : option string) (w : Checkout)
    : Res string * Checkout :=
  match cmd with
  | ["git"; "submodule"; "update"; "--init"] => (Ok "", w)
  | ["git"; "bisect"; "start"] => (Ok "", mk (revs w) (head w) None None)
  | ["git"; "bisect"; "good"] => next cmd (mk (revs w) (head w) (Some (head w)) (bad w))
  | ["git"; "bisect"; "bad"] => next cmd (mk (revs w) (head w) (good w) (Some (head w)))
  | ["git"; "bisect"; "bad"; rev] =>
      match index_of rev (revs w) with
      | Some b => next cmd (mk (revs w) (head w) (good w) (Some b))
      | None => (Raise (CalledProcessError cmd), w)
      end
  | _ => (Raise (CalledProcessError cmd), w)
  end.

Definition checkout (revision : RevisionLike) (w : Checkout) : Res unit * Checkout :=
  match revision with
  | RevStr rev =>
      match index_of rev (revs w) with
      | Some h => (Ok tt, set_head w h)
      | None => (Raise (CalledProcessError ["git"; "checkout"; rev]), w)
      end
  | _ => (Ok tt, w)
  end.

Definition resolve (revision : RevisionLike) (w : Checkout) : Res string :=
  match revision with
  | RevStr rev =>
      if String.eqb rev "origin/HEAD" then
        match last (revs w) with
        | Some tip => Ok tip
        | None => Raise (CalledProcessError ["git"; "rev-parse"; rev])
        end
      else
        match index_of rev (revs w) with
        | Some _ => Ok rev
        | None => Raise (CalledProcessError ["git"; "rev-parse"; rev])
        end
  | _ => Raise (Other "revision")
  end.

(** The environment in which [checker h p] is what the checker at
    revision [h] says of project [p], [compare p] is the differential
    result of project [p], every other external call succeeds, and
    results complete in the order of submission.  An editable setup of the
    checker checks the revision out in the history; any other setup
    installs the checker elsewhere. *)
Definition env (checker : nat -> Project.t -> MypyResult)
    (compare : Project.t -> Res PrimerResult) : Environment Checkout := {|
  path_exists := fun _ _ => true;
  path_is_dir := fun _ _ => true;
  fs_ext := fun _ w => (Ok tt, w);
  setup_mypy_ext := fun mypy_dir revision editable w =>
    if editable then
      match checkout revision w with
      | (Ok _, w') => (Ok (path_join mypy_dir "venv/bin/mypy"), w')
      | (Raise e, w') => (Raise e, w')
      | (Fuel, w') => (Fuel, w')
      end
    else (Ok (path_join mypy_dir "venv/bin/mypy"), w);
  ensure_repo_ext := fun parent_dir _ w => (Ok (path_join parent_dir "typeshed"), w);
  project_setup_ext := fun _ w => (Ok tt, w);
  run_mypy_ext := fun p _ w => Ok (checker (head w) p);
  primer_result_ext := fun p _ _ _ _ _ => compare p;
  completion_order := fun _ l => l;
  completion_order_perm := fun _ l => Permutation_refl l;
  run_ext := git;
  get_revision_ext := fun revision _ w => resolve revision w;
  source_paths_ext := fun p _ w => (Ok [path_join (Project.location p) "setup.py"], w);
  line_count_ext := fun _ _ => Ok 10
|}.
End Linear.

(** ** The steps of [setup_mypy]

    [setup_mypy] (lines 41-87) step by step.  The context supplies the
    options that it reads, the constants of [utils] and the platform; the
    tools that it calls answer through an interface, and each call is
    logged as a step. *)

Module Setup.
Record Ctx : Type := mkCtx {
  mypyc_compile_level : option Z;
  repo : string;
  BIN_DIR : string;
  MYPY_EXE_NAME : string;
  (** [sys.platform == "darwin"] *)
  darwin : bool
}.

(** [Run cmd cwd level] is [run(cmd, cwd=cwd, env=env)], where [level] is
    the value of [MYPYC_OPT_LEVEL] when [env] is passed. *)
Inductive Step : Type :=
  | Mkdir (dir : string)
  | VenvCreate (venv_dir : string)
  | Run (cmd : list string) (cwd : option string) (level : option Z)
  | EnsureRepo (repo dir : string) (revision : RevisionLike).

Class Tools (S : Type) : Type := {
  mkdir : string -> S -> Res unit * S;
  venv_create : string -> S -> Res unit * S;
  run : list string -> option string -> option Z -> S -> Res unit * S;
  ensure_repo_at_revision : string -> string -> RevisionLike -> S -> Res string * S;
  path_exists : string -> S -> bool
}.

Definition P (S A : Type) : Type := S -> Res A * list Step * S.

Section Steps.
Context {S : Type} {T : Tools S}.

Definition pure {A} (a : A) : P S A := fun s => (Ok a, [], s).

Definition step {A} (st : Step) (tool : S -> Res A * S) : P S A := fun s =>
  match tool s with
  | (r, s') => (r, [st], s')
  end.

Definition and_then {A B} (m : P S A) (f : A -> P S B) : P S B := fun s =>
  match m s with
  | (Ok a, steps, s') =>
      match f a s' with
      | (r, steps', s'') => (r, steps ++ steps', s'')
      end
  | (Raise e, steps, s') => (Raise e, steps, s')
  | (Fuel, steps, s') => (Fuel, steps, s')
  end.

Definition UPSTREAM : string := "https://github.com/python/mypy".

Definition pypi_cmd (pip_exe revision : string) : list string :=
  [pip_exe; "install"; String.append "mypy==" revision].

(** The optimistic installation from PyPI (lines 57-61): the answer is
    [install_from_repo]. *)
Definition install_from_pypi (pip_exe revision : string) : P S bool := fun s =>
  match run (pypi_cmd pip_exe revision) None None s with
  | (Ok _, s') => (Ok false, [Run (pypi_cmd pip_exe revision) None None], s')
  | (Raise (CalledProcessError _), s') =>
      (Ok true, [Run (pypi_cmd pip_exe revision) None None], s')
  | (Raise e, s') => (Raise e, [Run (pypi_cmd pip_exe revision) None None], s')
  | (Fuel, s') => (Fuel, [Run (pypi_cmd pip_exe revision) None None], s')
  end.

Definition build_cmd (python_exe : string) : list string :=
  [python_exe; "setup.py"; "--use-mypyc"; "build_ext"; "--inplace"].

Definition install_cmd (pip_exe : string) (editable : bool) (repo_dir : string)
    : list string :=
  [pip_exe; "install"] ++ (if editable then ["--editable"] else []) ++ [repo_dir; "tomli"].

(** The installation from the repository (lines 63-80). *)
Definition install_from_repository (c : Ctx) (mypy_dir venv_dir pip_exe : string)
    (revision_like : RevisionLike) (editable : bool) : P S unit :=
  and_then (step (EnsureRepo (repo c) mypy_dir revision_like)
                 (ensure_repo_at_revision (repo c) mypy_dir revision_like)) (fun repo_dir =>
  and_then
    match mypyc_compile_level c with
    | Some level =>
        let python_exe := path_join (path_join venv_dir (BIN_DIR c)) "python" in
        and_then (step (Run [pip_exe; "install"; "typing_extensions"; "mypy_extensions"]
                            None None)
                       (run [pip_exe; "install"; "typing_extensions"; "mypy_extensions"]
                            None None)) (fun _ =>
        step (Run (build_cmd python_exe) (Some repo_dir) (Some level))
             (run (build_cmd python_exe) (Some repo_dir) (Some level)))
    | None => pure tt
    end (fun _ =>
  step (Run (install_cmd pip_exe editable repo_dir) None None)
       (run (install_cmd pip_exe editable repo_dir) None None))).

Definition setup_mypy (c : Ctx) (mypy_dir : string) (revision_like : RevisionLike)
    (editable : bool) : P S string :=
  and_then (step (Mkdir mypy_dir) (mkdir mypy_dir)) (fun _ =>
  let venv_dir := path_join mypy_dir "venv" in
  and_then (step (VenvCreate venv_dir) (venv_create venv_dir)) (fun _ =>
  let pip_exe := path_join (path_join venv_dir (BIN_DIR c)) "pip" in
  let editable := match mypyc_compile_level c with Some _ => true | None => editable end in
  and_then
    match revision_like with
    | RevStr revision =>
        if negb editable && String.eqb (repo c) UPSTREAM
        then install_from_pypi pip_exe revision
        else pure true
    | _ => pure true
    end (fun install_from_repo =>
  and_then
    (if install_from_repo : bool
     then install_from_repository c mypy_dir venv_dir pip_exe revision_like editable
     else pure tt) (fun _ =>
  let mypy_exe := path_join (path_join venv_dir (BIN_DIR c)) (MYPY_EXE_NAME c) in
  and_then
    (if darwin c
     then step (Run [mypy_exe; "--version"] None None) (run [mypy_exe; "--version"] None None)
     else pure tt) (fun _ =>
  fun s => if path_exists mypy_exe s then (Ok mypy_exe, [], s)
           else (Raise AssertionError, [], s)))))).
End Steps.

(** The executable that [setup_mypy] answers. *)
Definition mypy_exe (c : Ctx) (mypy_dir : string) : string :=
  path_join (path_join (path_join mypy_dir "venv") (BIN_DIR c)) (MYPY_EXE_NAME c).

Definition pip_exe (c : Ctx) (mypy_dir : string) : string :=
  path_join (path_join (path_join mypy_dir "venv") (BIN_DIR c)) "pip".

Definition python_exe (c : Ctx) (mypy_dir : string) : string :=
  path_join (path_join (path_join mypy_dir "venv") (BIN_DIR c)) "python".

(** The warm-up on macOS (lines 83-85). *)
Definition warm_up (c : Ctx) (mypy_dir : string) : list Step :=
  if darwin c then [Run [mypy_exe c mypy_dir; "--version"] None None] else [].

(** An attempt to install a released checker from PyPI. *)
Definition is_pypi (st : Step) : bool :=
  match st with
  | Run [_; "install"; requirement] _ _ => String.prefix "mypy==" requirement
  | _ => false
  end.

Definition is_clone (st : Step) : bool :=
  match st with
  | EnsureRepo _ _ _ => true
  | _ => false
  end.

(** Tools for the concrete runs: every tool succeeds, except that PyPI
    has the releases [released] only; the clone of the repository lands in
    [mypy_dir/mypy]; the world is the list of the files that exist. *)
Definition tools (released : list string) : Tools (list string) := {|
  mkdir := fun dir s => (Ok tt, dir :: s);
  venv_create := fun venv_dir s => (Ok tt, venv_dir :: s);
  run := fun cmd _ _ s =>
    match cmd with
    | [pip; "install"; requirement] =>
        if existsb (fun r => String.eqb requirement (String.append "mypy==" r)) released
        then (Ok tt, String.append (substring 0 (String.length pip - 3) pip) "mypy" :: s)
        else (Raise (CalledProcessError cmd), s)
    | [pip; "install"; "--editable"; _; "tomli"] | [pip; "install"; _; "tomli"] =>
        (Ok tt, String.append (substring 0 (String.length pip - 3) pip) "mypy" :: s)
    | _ => (Ok tt, s)
    end;
  ensure_repo_at_revision := fun _ dir _ s => (Ok (path_join dir "mypy"), path_join dir "mypy" :: s);
  path_exists := fun path s => existsb (String.eqb path) s
|}.

Definition ctx (level : option Z) (repo : string) : Ctx :=
  mkCtx level repo "bin" "mypy" false.
End Setup.

(** * Specification-side definitions *)

(** ** What the specification says of sharding *)

(** The accumulated cost of a shard. *)
Definition total_cost (shard : list Project.t) : Z :=
  foldr (fun p acc => Project.cost p + acc) 0 shard.

(** [a] is taken no later than [b]: higher cost first, and among equal
    costs the location decides. *)
Definition lpt_order (a b : Project.t) : Prop :=
  Project.cost b < Project.cost a \/
  (Project.cost a = Project.cost b /\
   String.compare (Project.location b) (Project.location a) <> Gt).

(** Longest-processing-time-first: each project in turn goes to a shard
    whose accumulated cost is lowest at that moment. *)
Inductive lpt_run : list (list Project.t) -> list Project.t -> list (list Project.t) -> Prop :=
  | lpt_done shards : lpt_run shards [] shards
  | lpt_next shards p ps i shard final :
      shards !! i = Some shard ->
      (forall j other, shards !! j = Some other -> total_cost shard <= total_cost other) ->
      lpt_run (alter (fun s => s ++ [p]) i shards) ps final ->
      lpt_run shards (p :: ps) final.

(** ** What the specification says of selection and of the oracle *)

(** The projects that the criteria select, before any sharding. *)
Definition matched {L : Library} (ARGS : Args.t) : list Project.t :=
  match truthy_str (Args.local_project ARGS) with
  | Some loc => [from_location loc]
  | None => filtered_projects ARGS
  end.

(** The dictionary that [bisect] builds from the results of one run of the
    batch: [run p] is the result of project [p]. *)
Definition batch_results (run : Project.t -> MypyResult) (projects : list Project.t)
    : list (string * MypyResult) :=
  dict (map (fun p => (Project.name p, run p)) projects).

(** What the dictionary records for a project. *)
Definition recorded (results : list (string * MypyResult)) (p : Project.t)
    : option MypyResult :=
  dict_lookup (Project.name p) results.

(** The verdict of the oracle on the checker at revision [h], against the
    baseline recorded at revision [g0]. *)
Definition verdict_at {L : Library} (checker : nat -> Project.t -> MypyResult)
    (ARGS : Args.t) (projects : list Project.t) (g0 h : nat) : Res bool :=
are_results_good ARGS projects
  (batch_results (checker g0) projects) (batch_results (checker h) projects).

(** The checkout once the head has been marked good ([v = true]) or bad. *)
Definition mark (v : bool) (w : Linear.Checkout) : Linear.Checkout :=
if v then Linear.mk (Linear.revs w) (Linear.head w) (Some (Linear.head w)) (Linear.bad w)
else Linear.mk (Linear.revs w) (Linear.head w) (Linear.good w) (Some (Linear.head w)).

(** The checkout once the primitive has answered: left alone when the
    interval has collapsed, at the midpoint otherwise. *)
Definition advance (w : Linear.Checkout) : Linear.Checkout :=
match Linear.good w with
| Some g =>
    if (Linear.interval_size w =? 1)%nat then w
    else Linear.set_head w (g + Linear.interval_size w / 2)%nat
| None => w
end.

(** A result that the [--old-success] filter lets through. *)
Definition counted (ARGS : Args.t) (result : PrimerResult) : bool :=
negb (Args.old_success ARGS && negb (success (old_result result))).

(** The options that select [primer]. *)
Definition primer_mode (ARGS : Args.t) : Prop :=
Args.coverage ARGS = false /\ Args.bisect ARGS = false /\
truthy_str (Args.bisect_output ARGS) = None /\
Args.validate_expected_success ARGS = false /\
Args.measure_project_runtimes ARGS = false.

(** ** The event log *)

Definition outcome {W A} (out : Res A * list Event * W) : Res A := fst (fst out).

Definition events {W A} (out : Res A * list Event * W) : list Event := snd (fst out).

(** A program that logs no event of the kind [P], whatever the world. *)
Definition silent {W A} (P : Event -> bool) (m : M W A) : Prop :=
forall w, Forall (fun ev => P ev = false) (events (m w)).

Fixpoint cmd_eqb (a b : list string) : bool :=
match a, b with
| [], [] => true
| x :: a', y :: b' => String.eqb x y && cmd_eqb a' b'
| _, _ => false
end.

(** The first action of a turn of the bisection loop. *)
Definition is_turn (ev : Event) : bool :=
match ev with
| EvRun cmd _ => cmd_eqb cmd SUBMODULE_UPDATE
| _ => false
end.

Definition is_traceback (ev : Event) : bool :=
match ev with
| EvTraceback _ => true
| _ => false
end.

(** The work on a project: its setup, the runs of the checker on it and
    the reading of its sources. *)
Definition is_project_work (ev : Event) : bool :=
match ev with
| EvProjectSetup _ | EvRunMypy _ _ | EvPrimerResult _
| EvSourcePaths _ _ | EvLineCount _ => true
| _ => false
end.

Definition count_events (P : Event -> bool) (evs : list Event) : nat :=
length (List.filter P evs).

(** A program that never returns normally and logs no event of the kind
    [P]. *)
Definition stops {W A} (P : Event -> bool) (m : M W A) : Prop :=
forall w, (forall a, outcome (m w) <> Ok a) /\ Forall (fun ev => P ev = false) (events (m w)).

(** A program that, from [w], returns [a], logs [evs] and leaves [w']. *)
Definition runs {W A} (m : M W A) (w : W) (a : A) (evs : list Event) (w' : W) : Prop :=
m w = (Ok a, evs, w').

(** ** Values for the concrete runs *)

Module Example.
Definition project (name : string) (cost : Z) : Project.t :=
  Project.mk name name RevNone false cost.

(** The options of a plain run: nothing selected, nothing sharded. *)
Definition args : Args.t :=
  Args.mk None None false RevNone None None false None false false false false
          "full" false false "base" RevNone RevNone RevNone RevNone.

Definition a : Project.t := project "a" 5.
Definition b : Project.t := project "b" 3.
Definition c : Project.t := project "c" 2.

Definition success_result : MypyResult := mkMypyResult true "Success" PrimFloat.zero.
Definition error_result : MypyResult := mkMypyResult false "error: x" PrimFloat.zero.

(** The same text as [success_result], in bold. *)
Definition bold_result : MypyResult :=
  mkMypyResult true (String.append (String ESC "[1mSuccess") (String ESC "[0m"))
               PrimFloat.zero.
End Example.

Module Scenario.
(** A history of five revisions; the checker reports an error from the
    fourth on. *)
Definition history : list string := ["r0"; "r1"; "r2"; "r3"; "r4"].

Definition checker (h : nat) (p : Project.t) : MypyResult :=
if (h <? 3)%nat then Example.success_result else Example.error_result.

(** A differential result with a diff, whose old run failed. *)
Definition compare (p : Project.t) : Res PrimerResult :=
Ok (mkPrimerResult p Example.error_result Example.error_result "+ error: y").

Definition start : Linear.Checkout := Linear.mk history 0 None None.

Definition corpus : list Project.t := [Example.a; Example.b; Example.c].

(** Options for a bisection between two revisions. *)
Definition args_bisect (old new : string) (pattern : option string) : Args.t :=
Args.mk None None false RevNone None None true pattern false false false false
        "full" false false "base" (RevStr new) (RevStr old) RevNone RevNone.

Definition library (ARGS : Args.t) : Library := literal_library corpus ARGS.

Definition environment : Environment Linear.Checkout := Linear.env checker compare.
End Scenario.

(** ** Vocabulary of the further properties *)

(** A shard built so far: in the order of the sort, and all of it before
    the projects still to come. *)
Definition shard_ok (ps : list Project.t) (shard : list Project.t) : Prop :=
StronglySorted lpt_order shard /\ Forall (fun x => Forall (lpt_order x) ps) shard.

(** The accumulated costs of two shards differ by at most [bound]. *)
Definition balanced (bound : Z) (costs : list Z) : Prop :=
forall i j ci cj, costs !! i = Some ci -> costs !! j = Some cj -> ci - cj <= bound.

(** The last project of a list that has a given name. *)
Fixpoint last_named (name : string) (projects : list Project.t) : option Project.t :=
match projects with
| [] => None
| q :: rest =>
    match last_named name rest with
    | Some r => Some r
    | None => if String.eqb name (Project.name q) then Some q else None
    end
end.

(** A verdict handed to the bisection primitive. *)
Definition is_verdict (ev : Event) : bool :=
match ev with
| EvRun cmd _ => cmd_eqb cmd ["git"; "bisect"; "good"] || cmd_eqb cmd ["git"; "bisect"; "bad"]
| _ => false
end.

Definition is_print (ev : Event) : bool :=
match ev with
| EvPrint _ => true
| _ => false
end.

(** The projects whose differential result was awaited, in that order. *)
Definition awaited (evs : list Event) : list Project.t :=
omap (fun ev => match ev with EvPrimerResult p => Some p | _ => None end) evs.

(** The texts printed, in that order. *)
Definition prints (evs : list Event) : list string :=
omap (fun ev => match ev with EvPrint text => Some text | _ => None end) evs.

(** A project whose result arrives and gets past the [--old-success]
    filter. *)
Definition passes {W : Type} {E : Environment W} (ARGS : Args.t) (new_mypy old_mypy : string)
    (new_typeshed old_typeshed : option string) (w : W) (p : Project.t) : bool :=
match primer_result_ext p new_mypy old_mypy new_typeshed old_typeshed w with
| Ok result => counted ARGS result
| _ => false
end.

Module Stream.
(** The options of a plain run with [--old-success]. *)
Definition args_old_success : Args.t :=
Args.mk None None false RevNone None None false None false false false true
        "full" false false "base" RevNone RevNone RevNone RevNone.

(** The differential result of project [b] raises. *)
Definition faulty (p : Project.t) : Res PrimerResult :=
if String.eqb (Project.name p) "b" then Raise (Other "boom") else Scenario.compare p.

(** Every project has a diff; the old run succeeded on project [a] only. *)
Definition mixed (p : Project.t) : Res PrimerResult :=
if String.eqb (Project.name p) "a"
then Ok (mkPrimerResult p Example.success_result Example.error_result "+ error: a")
else Scenario.compare p.
End Stream.

Module Disk.
Definition remove (path : string) (w : list string) : list string :=
List.filter (fun q => negb (String.eqb path q)) w.

(** An environment whose world is the list of the directories that exist:
    [rmtree] takes a directory away, [mkdir] adds it, and every tool
    succeeds without touching them. *)
Definition env (compare : Project.t -> Res PrimerResult) : Environment (list string) := {|
  path_exists := fun path w => existsb (String.eqb path) w;
  path_is_dir := fun path w => existsb (String.eqb path) w;
  fs_ext := fun op w =>
    match op with
    | Rmtree path => (Ok tt, remove path w)
    | Mkdir path => (Ok tt, path :: w)
    end;
  setup_mypy_ext := fun mypy_dir _ _ w => (Ok (path_join mypy_dir "venv/bin/mypy"), w);
  ensure_repo_ext := fun parent_dir _ w => (Ok (path_join parent_dir "typeshed"), w);
  project_setup_ext := fun _ w => (Ok tt, w);
  run_mypy_ext := fun _ _ _ => Ok Example.success_result;
  primer_result_ext := fun p _ _ _ _ _ => compare p;
  completion_order := fun _ l => l;
  completion_order_perm := fun _ l => Permutation_refl l;
  run_ext := fun _ _ w => (Ok EmptyString, w);
  get_revision_ext := fun _ _ _ => Ok "r0";
  source_paths_ext := fun p _ w => (Ok [path_join (Project.location p) "setup.py"], w);
  line_count_ext := fun _ _ => Ok 10
|}.

(** The options of a plain run with [--clear]. *)
Definition args_clear : Args.t :=
Args.mk None None false RevNone None None false None false false false false
        "full" false true "base" RevNone RevNone RevNone RevNone.
End Disk.

(** The executables of the checker that were run, in that order. *)
Definition checked (evs : list Event) : list string :=
omap (fun ev => match ev with EvRunMypy _ mypy_exe => Some mypy_exe | _ => None end) evs.

(** A program of [setup_mypy] that takes no step of the kind [Q]. *)
Definition quiet {S A} (Q : Setup.Step -> bool) (m : Setup.P S A) : Prop :=
forall s, Forall (fun st => Q st = false) (snd (fst (m s))).

(** The boundaries are inside the range and carry their verdicts: the
    good one was judged good, the bad one was judged bad or is the end of
    the range; the revision checked out lies between them. *)
Definition bounded {L : Library} (checker : nat -> Project.t -> MypyResult)
    (ARGS : Args.t) (projects : list Project.t) (g0 b0 : nat)
    (w : Linear.Checkout) : Prop :=
exists g b,
  Linear.good w = Some g /\ Linear.bad w = Some b /\
  (g0 <= g)%nat /\ (g < b)%nat /\ (b <= b0)%nat /\
  verdict_at checker ARGS projects g0 g = Ok true /\
  (b = b0 \/ verdict_at checker ARGS projects g0 b = Ok false) /\
  ((g < Linear.head w < b)%nat \/ (Linear.head w = g /\ b = S g)).

(** Two adjacent revisions of the range: the first was judged good, the
    second was judged bad or is the end of the range. *)
Definition located {L : Library} (checker : nat -> Project.t -> MypyResult)
    (ARGS : Args.t) (projects : list Project.t) (g0 b0 : nat)
    (w : Linear.Checkout) : Prop :=
exists g,
  Linear.good w = Some g /\ Linear.bad w = Some (S g) /\
  (g0 <= g)%nat /\ (S g <= b0)%nat /\
  verdict_at checker ARGS projects g0 g = Ok true /\
  (S g = b0 \/ verdict_at checker ARGS projects g0 (S g) = Ok false).

(** * Properties *)

(** ** Sorting *)

Lemma key_lt_true (a b : Project.t) :
  key_lt (sort_key a) (sort_key b) = true ->
  Project.cost a < Project.cost b \/
  (Project.cost a = Project.cost b /\
   String.compare (Project.location a) (Project.location b) = Lt).
Proof.
  unfold key_lt, sort_key, String.ltb; simpl.
  destruct (Z.ltb_spec (Project.cost a) (Project.cost b)); [auto|].
  destruct (Z.eqb_spec (Project.cost a) (Project.cost b)); simpl; [|discriminate].
  destruct (String.compare _ _); (discriminate || auto).
Qed.

Lemma key_lt_false (a b : Project.t) :
  key_lt (sort_key a) (sort_key b) = false -> lpt_order a b.
Proof.
  unfold key_lt, sort_key, String.ltb, lpt_order; simpl.
  destruct (Z.ltb_spec (Project.cost a) (Project.cost b)); [discriminate|].
  destruct (Z.eqb_spec (Project.cost a) (Project.cost b)); simpl; [|lia].
  rewrite (String.compare_antisym (Project.location a)).
  destruct (String.compare _ _); simpl; (discriminate || (right; split; congruence)).
Qed.

Lemma key_lt_order (a b : Project.t) :
  key_lt (sort_key a) (sort_key b) = true -> lpt_order b a.
Proof.
  intros Hlt. destruct (key_lt_true _ _ Hlt) as [Hc | [Hc Hs]]; [left; lia|].
  right. split; [lia | congruence].
Qed.

Lemma str_le_trans (a b c : string) :
  String.compare a b <> Gt -> String.compare b c <> Gt -> String.compare a c <> Gt.
Proof.
  intros Hab Hbc.
  destruct (String.compare a b) eqn:Eab; [| |congruence].
  - apply String.compare_eq_iff in Eab. subst. assumption.
  - destruct (String.compare b c) eqn:Ebc; [| |congruence].
    + apply String.compare_eq_iff in Ebc. subst. congruence.
    + assert (Hac : String.compare a c = Lt).
      { apply String_as_OT.cmp_lt.
        eapply String_as_OT.lt_trans; apply String_as_OT.cmp_lt; eassumption. }
      congruence.
Qed.

Lemma lpt_order_trans (a b c : Project.t) :
  lpt_order a b -> lpt_order b c -> lpt_order a c.
Proof.
  unfold lpt_order. intros [Hab | [Hab Sab]] [Hbc | [Hbc Sbc]]; try (left; lia).
  right. split; [lia|]. eapply str_le_trans; eassumption.
Qed.

Lemma insert_desc_perm (x : Project.t) (l : list Project.t) :
  Permutation (insert_desc x l) (x :: l).
Proof.
  induction l as [|y l IH]; simpl; [reflexivity|].
  destruct (key_lt (sort_key x) (sort_key y)); [|reflexivity].
  rewrite IH. apply perm_swap.
Qed.

Lemma sorted_reverse_perm (l : list Project.t) : Permutation (sorted_reverse l) l.
Proof.
  induction l as [|x l IH]; simpl; [reflexivity|].
  rewrite insert_desc_perm. by constructor.
Qed.

Lemma insert_desc_sorted (x : Project.t) (l : list Project.t) :
  StronglySorted lpt_order l -> StronglySorted lpt_order (insert_desc x l).
Proof.
  induction 1 as [|y l Hs IH Hall]; simpl.
  - repeat constructor.
  - destruct (key_lt (sort_key x) (sort_key y)) eqn:Hk.
    + constructor; [exact IH|].
      eapply Permutation_Forall; [symmetry; apply insert_desc_perm|].
      constructor; [by apply key_lt_order | exact Hall].
    + apply key_lt_false in Hk.
      constructor; [by constructor|].
      constructor; [exact Hk|].
      eapply Forall_impl; [exact Hall|].
      intros z Hz. eapply lpt_order_trans; eassumption.
Qed.

Lemma sorted_reverse_sorted (l : list Project.t) :
  StronglySorted lpt_order (sorted_reverse l).
Proof.
  induction l as [|x l IH]; simpl; [constructor|].
  by apply insert_desc_sorted.
Qed.

(** ** Sharding *)

Lemma total_cost_app (s t : list Project.t) :
  total_cost (s ++ t) = total_cost s + total_cost t.
Proof. induction s as [|p s IH]; simpl; lia. Qed.

Lemma min_from_spec (rest pre : list Z) (best : nat) (bestv : Z) :
  pre !! best = Some bestv ->
  (forall j c, pre !! j = Some c -> bestv <= c) ->
  exists c, (pre ++ rest) !! min_from best bestv (length pre) rest = Some c /\
            forall j cj, (pre ++ rest) !! j = Some cj -> c <= cj.
Proof.
  revert pre best bestv.
  induction rest as [|c rest IH]; intros pre best bestv Hbest Hmin; simpl.
  - rewrite app_nil_r. eauto.
  - replace (pre ++ c :: rest) with ((pre ++ [c]) ++ rest) by (by rewrite <- app_assoc).
    replace (S (length pre)) with (length (pre ++ [c])) by (rewrite length_app; simpl; lia).
    destruct (Z.ltb_spec c bestv) as [Hlt | Hge].
    + apply IH.
      * rewrite lookup_app_r by lia. by rewrite Nat.sub_diag.
      * intros j cj Hj. apply lookup_app_Some in Hj as [Hj | [_ Hj]].
        -- specialize (Hmin _ _ Hj). lia.
        -- destruct (j - length pre)%nat; simpl in Hj; [|done].
           injection Hj as <-. lia.
    + apply IH.
      * apply lookup_app_l_Some. exact Hbest.
      * intros j cj Hj. apply lookup_app_Some in Hj as [Hj | [_ Hj]].
        -- by apply (Hmin j).
        -- destruct (j - length pre)%nat; simpl in Hj; [|done].
           injection Hj as <-. lia.
Qed.

Lemma min_index_spec (costs : list Z) :
  costs <> [] ->
  exists i c, min_index costs = Some i /\ costs !! i = Some c /\
              forall j cj, costs !! j = Some cj -> c <= cj.
Proof.
  destruct costs as [|c0 rest]; [done|]. intros _. simpl.
  destruct (min_from_spec rest [c0] 0 c0) as (c & Hc & Hmin); [done | |].
  - intros [|j] cj Hj; simpl in Hj; [|done]. injection Hj as <-. lia.
  - exists (min_from 0 c0 1 rest), c. auto.
Qed.

Lemma concat_alter_app (shards : list (list Project.t)) (i : nat) (p : Project.t) :
  (i < length shards)%nat ->
  Permutation (concat (alter (fun s => s ++ [p]) i shards)) (concat shards ++ [p]).
Proof.
  revert i. induction shards as [|s shards IH]; intros i Hi; simpl in *; [lia|].
  destruct i as [|i]; simpl.
  - rewrite <- !app_assoc. apply Permutation_app_head. apply Permutation_app_comm.
  - rewrite <- app_assoc. apply Permutation_app_head. apply IH. lia.
Qed.

Lemma map_total_cost_alter (shards : list (list Project.t)) (i : nat) (p : Project.t) :
  alter (fun c => c + Project.cost p) i (map total_cost shards)
  = map total_cost (alter (fun s => s ++ [p]) i shards).
Proof.
  revert i. induction shards as [|s shards IH]; intros [|i]; simpl; try done.
  - f_equal. rewrite total_cost_app. simpl. lia.
  - f_equal. apply IH.
Qed.

(** The loop of the code keeps [shard_costs] equal to the accumulated costs
    of the shards, and runs as the specification's [lpt_run] does. *)
Lemma assign_shards_spec (ps : list Project.t) (shards : list (list Project.t)) :
  shards <> [] ->
  exists final,
    assign_shards ps (map total_cost shards) shards = Ok (map total_cost final, final) /\
    lpt_run shards ps final /\
    length final = length shards /\
    Permutation (concat final) (concat shards ++ ps).
Proof.
  revert shards. induction ps as [|p ps IH]; intros shards Hne; simpl.
  - exists shards. repeat split; [constructor | by rewrite app_nil_r].
  - destruct (min_index_spec (map total_cost shards)) as (i & c & Hi & Hc & Hmin).
    { by destruct shards. }
    rewrite Hi. rewrite map_total_cost_alter.
    rewrite list_lookup_fmap in Hc.
    destruct (shards !! i) as [shard|] eqn:Hshard; [|done].
    simpl in Hc. injection Hc as <-.
    destruct (IH (alter (fun s => s ++ [p]) i shards)) as (final & Hrun & Hlpt & Hlen & Hperm).
    { destruct shards; [done|]. by destruct i. }
    exists final. split; [exact Hrun|]. split; [|split].
    + econstructor; [exact Hshard | | exact Hlpt].
      intros j other Hj. apply (Hmin j). rewrite list_lookup_fmap, Hj. done.
    + rewrite Hlen. apply length_alter.
    + rewrite Hperm. rewrite concat_alter_app by (eapply lookup_lt_Some; eassumption).
      rewrite <- app_assoc. done.
Qed.

Lemma map_total_cost_replicate (n : nat) :
  map total_cost (replicate n []) = replicate n 0.
Proof. induction n; simpl; by f_equal. Qed.

Lemma concat_replicate_nil (n : nat) : concat (replicate n (@nil Project.t)) = [].
Proof. induction n; simpl; done. Qed.

Lemma total_cost_perm (s t : list Project.t) :
  Permutation s t -> total_cost s = total_cost t.
Proof. induction 1; simpl; lia. Qed.

(** Two shards of a list of lists without repetition share no element. *)
Lemma concat_NoDup_disjoint (shards : list (list Project.t)) (i j : nat)
    (si sj : list Project.t) (p : Project.t) :
  NoDup (concat shards) ->
  shards !! i = Some si -> shards !! j = Some sj ->
  p ∈ si -> p ∈ sj -> i = j.
Proof.
  revert i j. induction shards as [|s shards IH]; intros i j Hnd Hi Hj Hpi Hpj; [done|].
  simpl in Hnd. apply NoDup_app in Hnd as (_ & Hdisj & Hnd).
  assert (Hin : forall k sk, shards !! k = Some sk -> p ∈ sk -> p ∈ concat shards).
  { intros k sk Hk Hp. apply list_elem_of_In, in_concat. exists sk.
    split; apply list_elem_of_In; [by eapply list_elem_of_lookup_2 | done]. }
  destruct i as [|i], j as [|j]; simpl in *.
  - done.
  - injection Hi as <-. exfalso. eapply Hdisj; eauto.
  - injection Hj as <-. exfalso. eapply Hdisj; eauto.
  - f_equal. by apply IH.
Qed.

Lemma partition_one_shard (projects : list Project.t) :
  exists shard,
    partition_shards 1 projects = Ok ([total_cost shard], [shard]) /\
    Permutation shard projects.
Proof.
  unfold partition_shards. simpl.
  destruct (assign_shards_spec (sorted_reverse projects) [[]]) as (final & Hrun & _ & Hlen & Hperm);
    [done|].
  destruct final as [|shard [|? ?]]; simpl in Hlen; try lia.
  exists shard. split; [exact Hrun|].
  simpl in Hperm. rewrite app_nil_r in Hperm. rewrite Hperm. apply sorted_reverse_perm.
Qed.

(** With sharding on, [select_projects] answers the shard that
    [shard_index] names among those of [partition_shards]. *)
Lemma select_projects_shard {L : Library} (ARGS : Args.t) (num_shards shard_index : Z)
    (projects : list Project.t) :
  truthy_str (Args.local_project ARGS) = None ->
  filtered_projects ARGS = projects -> projects <> [] ->
  Args.num_shards ARGS = Some num_shards -> num_shards <> 0 ->
  Args.shard_index ARGS = Some shard_index ->
  select_projects ARGS =
  res_bind (partition_shards num_shards projects) (fun st => py_getitem (snd st) shard_index).
Proof.
  intros Hlocal Hfiltered Hne Hnum Hnz Hidx. unfold select_projects.
  rewrite Hlocal, Hfiltered, Hnum, Hidx. destruct projects; [done|]. simpl.
  destruct (Z.eqb_spec num_shards 0); done.
Qed.

Lemma py_getitem_lookup {A} (l : list A) (i : Z) (x : A) :
  0 <= i -> l !! Z.to_nat i = Some x -> py_getitem l i = Ok x.
Proof.
  intros Hi Hx. unfold py_getitem.
  apply lookup_lt_Some in Hx as Hlt.
  destruct (Z.ltb_spec i 0); [lia|].
  destruct (Z.leb_spec 0 i); [|lia].
  destruct (Z.ltb_spec i (Z.of_nat (length l))); [|lia].
  simpl. by rewrite Hx.
Qed.

(** ** Claims on selection and sharding *)

(** C2. For every list of projects and every number of shards [N >= 1],
    the shards computed by [select_projects] are [N] lists that partition
    the input: their concatenation is a rearrangement of the input, so no
    project is omitted or duplicated, and distinct projects lie in exactly
    one shard each.  The assignment is longest-processing-time-first: the
    projects are taken in an order sorted by cost descending, ties broken
    by location, and each goes to a shard whose accumulated cost is lowest
    at that moment; [shard_costs] holds those accumulated costs.
    [select_projects] answers the shard that [shard_index] names. *)
Theorem C2_partition_lpt {L : Library} (projects : list Project.t) (num_shards : Z) :
  1 <= num_shards ->
  exists shards,
    partition_shards num_shards projects = Ok (map total_cost shards, shards) /\
    length shards = Z.to_nat num_shards /\
    Permutation (concat shards) projects /\
    (forall p, p ∈ projects -> exists i shard, shards !! i = Some shard /\ p ∈ shard) /\
    (NoDup projects ->
     forall p i j si sj, shards !! i = Some si -> shards !! j = Some sj ->
                         p ∈ si -> p ∈ sj -> i = j) /\
    (exists order,
       Permutation order projects /\
       StronglySorted lpt_order order /\
       lpt_run (replicate (Z.to_nat num_shards) []) order shards) /\
    (forall ARGS shard_index,
       truthy_str (Args.local_project ARGS) = None ->
       filtered_projects ARGS = projects -> projects <> [] ->
       Args.num_shards ARGS = Some num_shards ->
       Args.shard_index ARGS = Some shard_index ->
       0 <= shard_index < num_shards ->
       exists shard,
         shards !! Z.to_nat shard_index = Some shard /\
         select_projects ARGS = Ok shard).
Proof.
  intros HN. unfold partition_shards.
  set (n := Z.to_nat num_shards).
  assert (Hn : replicate n (@nil Project.t) <> []).
  { destruct n eqn:En; [lia | done]. }
  destruct (assign_shards_spec (sorted_reverse projects) _ Hn)
    as (shards & Hrun & Hlpt & Hlen & Hperm).
  rewrite map_total_cost_replicate in Hrun.
  rewrite concat_replicate_nil in Hperm. simpl in Hperm.
  rewrite sorted_reverse_perm in Hperm.
  exists shards. split; [exact Hrun|].
  split; [by rewrite Hlen, length_replicate|].
  split; [exact Hperm|]. split; [|split].
  - intros p Hp. rewrite <- Hperm in Hp.
    apply list_elem_of_In, in_concat in Hp as (shard & Hs & Hp).
    apply list_elem_of_In, list_elem_of_lookup in Hs as [i Hi].
    exists i, shard. split; [done | by apply list_elem_of_In].
  - intros Hnd p i j si sj. apply concat_NoDup_disjoint.
    by rewrite Hperm.
  - split.
    + exists (sorted_reverse projects).
      split; [apply sorted_reverse_perm|]. split; [apply sorted_reverse_sorted | exact Hlpt].
    + intros ARGS shard_index Hlocal Hfiltered Hne Hnum Hidx Hrange.
      destruct (lookup_lt_is_Some_2 shards (Z.to_nat shard_index)) as [shard Hshard].
      { rewrite Hlen, length_replicate. lia. }
      exists shard. split; [exact Hshard|].
      rewrite (select_projects_shard ARGS num_shards shard_index projects) by (done || lia).
      unfold partition_shards. fold n. rewrite Hrun. simpl.
      apply py_getitem_lookup; [lia | exact Hshard].
Qed.

(** C9. Projects of costs 5, 3 and 2 in two shards: the first shard holds
    the project of cost 5 and the second those of cost 3 and 2, both of
    total cost 5.  For every list of projects, one shard holds them all and
    its total cost is the sum of all costs. *)
Theorem C9_scenario_and_one_shard :
  (forall p5 p3 p2 : Project.t,
     Project.cost p5 = 5 -> Project.cost p3 = 3 -> Project.cost p2 = 2 ->
     partition_shards 2 [p5; p3; p2] = Ok ([5; 5], [[p5]; [p3; p2]]) /\
     total_cost [p5] = 5 /\ total_cost [p3; p2] = 5) /\
  (forall projects : list Project.t,
     exists shard,
       partition_shards 1 projects = Ok ([total_cost projects], [shard]) /\
       Permutation shard projects /\
       total_cost shard = total_cost projects).
Proof.
  split.
  - intros p5 p3 p2 H5 H3 H2.
    destruct p5, p3, p2; simpl in *; subst.
    unfold partition_shards, sorted_reverse, key_lt. simpl. done.
  - intros projects.
    destruct (partition_one_shard projects) as (shard & Hrun & Hperm).
    exists shard. rewrite <- (total_cost_perm _ _ Hperm). done.
Qed.

(** C10. When a local project location is supplied, selection answers
    exactly the project at that location, whatever the selector, the
    expected-success filter, the date override, the sharding options and
    the corpus are, and the empty-selection error does not occur. *)
Theorem C10_local_project {L : Library} (ARGS : Args.t) (loc : string) :
  Args.local_project ARGS = Some loc -> loc <> EmptyString ->
  select_projects ARGS = Ok [from_location loc] /\
  (forall ARGS', Args.local_project ARGS' = Some loc ->
                 select_projects ARGS' = select_projects ARGS) /\
  select_projects ARGS <> Raise (ValueError "No projects selected!").
Proof.
  intros Hloc Hne.
  assert (Hsel : forall A, Args.local_project A = Some loc ->
                           select_projects A = Ok [from_location loc]).
  { intros A HA. unfold select_projects. rewrite HA. simpl.
    destruct (String.eqb_spec loc ""); [done | reflexivity]. }
  split; [by apply Hsel|]. split.
  - intros ARGS' H'. by rewrite !Hsel.
  - by rewrite Hsel.
Qed.

Lemma assign_shards_raise (ps : list Project.t) (costs : list Z)
    (shards : list (list Project.t)) (e : exn) :
  assign_shards ps costs shards = Raise e ->
  e = ValueError "min() arg is an empty sequence".
Proof.
  revert costs shards. induction ps as [|p ps IH]; intros costs shards; simpl; [done|].
  destruct (min_index costs); [apply IH | congruence].
Qed.

Lemma select_projects_empty_iff {L : Library} (ARGS : Args.t) :
  select_projects ARGS = Raise (ValueError "No projects selected!") <-> matched ARGS = [].
Proof.
  unfold select_projects, matched.
  destruct (truthy_str (Args.local_project ARGS)); [split; discriminate|].
  destruct (filtered_projects ARGS) as [|p l]; [done|].
  split; [|discriminate]. intros Hsel. exfalso.
  destruct (truthy_int (Args.num_shards ARGS)); [|discriminate].
  destruct (Args.shard_index ARGS); [|discriminate].
  destruct (partition_shards z (p :: l)) as [[costs shards]| e |] eqn:Hpart; simpl in Hsel.
  - unfold py_getitem in Hsel.
    destruct (_ && _); [|discriminate]. destruct (shards !! _); discriminate.
  - apply assign_shards_raise in Hpart. subst. discriminate.
  - discriminate.
Qed.

(** ** Dictionaries *)

Section DictFacts.
Context {V : Type}.
Implicit Types (d : list (string * V)) (k : string) (v : V).

Lemma dict_lookup_set k k' v d :
  dict_lookup k' (dict_set k v d) = if String.eqb k' k then Some v else dict_lookup k' d.
Proof.
  induction d as [|[k0 v0] d IH]; simpl.
  - done.
  - destruct (String.eqb_spec k k0) as [->|Hne]; simpl.
    + by destruct (String.eqb k' k0).
    + rewrite IH. destruct (String.eqb_spec k' k0) as [->|]; [|done].
      destruct (String.eqb_spec k0 k); [congruence | done].
Qed.

Lemma dict_lookup_app k d d' :
  dict_lookup k (d ++ d') =
  match dict_lookup k d with Some v => Some v | None => dict_lookup k d' end.
Proof.
  induction d as [|[k0 v0] d IH]; simpl; [done|].
  by destruct (String.eqb k k0).
Qed.

(** [dict(items)[k]] is the value of the last item with key [k]. *)
Lemma dict_lookup_dict k (items : list (string * V)) :
  dict_lookup k (dict items) = dict_lookup k (rev items).
Proof.
  unfold dict.
  assert (Hgen : forall d0,
    dict_lookup k (fold_left (fun d kv => dict_set (fst kv) (snd kv) d) items d0)
    = match dict_lookup k (rev items) with
      | Some v => Some v
      | None => dict_lookup k d0
      end).
  { induction items as [|[k1 v1] items IH]; intros d0; simpl; [done|].
    rewrite IH, dict_lookup_app, dict_lookup_set. simpl.
    destruct (dict_lookup k (rev items)); [done|].
    by destruct (String.eqb k k1). }
  rewrite Hgen. by destruct (dict_lookup k (rev items)).
Qed.

Lemma dict_lookup_In k v d :
  NoDup (map fst d) -> In (k, v) d -> dict_lookup k d = Some v.
Proof.
  induction d as [|[k0 v0] d IH]; simpl; [done|].
  intros Hnd [Heq | Hin].
  - injection Heq as -> ->. by rewrite String.eqb_refl.
  - apply NoDup_cons in Hnd as [Hk0 Hnd].
    destruct (String.eqb_spec k k0) as [->|]; [|by apply IH].
    exfalso. apply Hk0. apply list_elem_of_In, in_map_iff. by exists (k0, v).
Qed.

Lemma dict_lookup_is_Some k d :
  In k (map fst d) -> is_Some (dict_lookup k d).
Proof.
  induction d as [|[k0 v0] d IH]; simpl; [done|].
  intros [-> | Hin].
  - rewrite String.eqb_refl. eauto.
  - destruct (String.eqb k k0); eauto.
Qed.
End DictFacts.

Lemma recorded_is_Some (run : Project.t -> MypyResult) (projects : list Project.t)
    (p : Project.t) :
  p ∈ projects -> is_Some (recorded (batch_results run projects) p).
Proof.
  intros Hp. unfold recorded, batch_results. rewrite dict_lookup_dict.
  apply dict_lookup_is_Some. rewrite <- map_rev, map_map. simpl.
  apply in_map_iff. exists p. split; [done|].
  apply in_rev. rewrite rev_involutive. by apply list_elem_of_In.
Qed.

Lemma recorded_unique (run : Project.t -> MypyResult) (projects : list Project.t)
    (p : Project.t) :
  NoDup (map Project.name projects) -> p ∈ projects ->
  recorded (batch_results run projects) p = Some (run p).
Proof.
  intros Hnd Hp. unfold recorded, batch_results. rewrite dict_lookup_dict.
  apply dict_lookup_In.
  - rewrite <- map_rev, map_map. simpl. rewrite map_rev.
    apply NoDup_ListNoDup, NoDup_rev, NoDup_ListNoDup. exact Hnd.
  - apply in_rev. rewrite rev_involutive. apply in_map_iff.
    exists p. split; [done | by apply list_elem_of_In].
Qed.

(** ** The bisection oracle *)

Lemma py_all_total {A} (f : A -> Res bool) (l : list A) :
  (forall x, x ∈ l -> exists b, f x = Ok b) ->
  exists b, py_all f l = Ok b /\
            (b = true <-> forall x, x ∈ l -> f x = Ok true) /\
            (b = false <-> exists x, x ∈ l /\ f x = Ok false).
Proof.
  induction l as [|x l IH]; intros Htot; simpl.
  - exists true. split; [done|]. split; split; try done.
    + intros _ x Hx. by apply elem_of_nil in Hx.
    + intros (x & Hx & _). by apply elem_of_nil in Hx.
  - destruct (Htot x) as [[|] Hx]; [by left| |]; rewrite Hx.
    + destruct IH as (b & Hb & Ht & Hf).
      { intros y Hy. apply Htot. by right. }
      exists b. split; [done|]. split; split.
      * intros Hbt y Hy. apply elem_of_cons in Hy as [->|Hy]; [done|]. by apply Ht.
      * intros Hall. apply Ht. intros y Hy. apply Hall. by right.
      * intros Hbf. apply Hf in Hbf as (y & Hy & Hfy). exists y. split; [by right | done].
      * intros (y & Hy & Hfy). apply elem_of_cons in Hy as [->|Hy]; [congruence|].
        apply Hf. eauto.
    + exists false. split; [done|]. split; split; try done.
      * intros Hall. specialize (Hall x (ltac:(by left))). congruence.
      * intros _. exists x. split; [by left | done].
Qed.

Lemma py_any_total {A} (f : A -> Res bool) (l : list A) :
  (forall x, x ∈ l -> exists b, f x = Ok b) ->
  exists b, py_any f l = Ok b /\
            (b = true <-> exists x, x ∈ l /\ f x = Ok true) /\
            (b = false <-> forall x, x ∈ l -> f x = Ok false).
Proof.
  induction l as [|x l IH]; intros Htot; simpl.
  - exists false. split; [done|]. split; split; try done.
    + intros (x & Hx & _). by apply elem_of_nil in Hx.
    + intros _ x Hx. by apply elem_of_nil in Hx.
  - destruct (Htot x) as [[|] Hx]; [by left| |]; rewrite Hx.
    + exists true. split; [done|]. split; split; try done.
      * intros _. exists x. split; [by left | done].
      * intros Hall. specialize (Hall x (ltac:(by left))). congruence.
    + destruct IH as (b & Hb & Ht & Hf).
      { intros y Hy. apply Htot. by right. }
      exists b. split; [done|]. split; split.
      * intros Hbt. apply Ht in Hbt as (y & Hy & Hfy). exists y. split; [by right | done].
      * intros (y & Hy & Hfy). apply elem_of_cons in Hy as [->|Hy]; [congruence|].
        apply Ht. eauto.
      * intros Hbf y Hy. apply elem_of_cons in Hy as [->|Hy]; [done|]. by apply Hf.
      * intros Hall. apply Hf. intros y Hy. apply Hall. by right.
Qed.

Lemma same_output_true (new old : MypyResult) :
  same_output new old = true <-> output new = output old.
Proof. unfold same_output. apply String.eqb_eq. Qed.

Section OracleFacts.
Context {L : Library}.

(** The verdict under the pattern policy, when every project has a
    recorded result. *)
Lemma pattern_verdict (ARGS : Args.t) (pattern : string) (projects : list Project.t)
    (old_results results : list (string * MypyResult)) :
  truthy_str (Args.bisect_output ARGS) = Some pattern ->
  (forall p, p ∈ projects -> is_Some (recorded results p)) ->
  exists good,
    are_results_good ARGS projects old_results results = Ok good /\
    (good = false <->
     exists p r, p ∈ projects /\ recorded results p = Some r /\
                 output_matches pattern r = true) /\
    (good = true <->
     forall p r, p ∈ projects -> recorded results p = Some r ->
                 output_matches pattern r = false).
Proof.
  intros Hpat Hrec. unfold are_results_good. rewrite Hpat.
  set (f := fun project : Project.t =>
              res_bind (dict_get results (Project.name project))
                       (fun r => Ok (output_matches pattern r))).
  assert (Hf : forall p r, recorded results p = Some r -> f p = Ok (output_matches pattern r)).
  { intros p r Hr. unfold f, dict_get. unfold recorded in Hr. by rewrite Hr. }
  destruct (py_any_total f projects) as (found & Hany & Ht & Hff).
  { intros p Hp. destruct (Hrec p Hp) as [r Hr]. rewrite (Hf p r Hr). eauto. }
  rewrite Hany. simpl. exists (negb found). split; [done|]. split.
  - rewrite negb_false_iff, Ht. split.
    + intros (p & Hp & Hfp). destruct (Hrec p Hp) as [r Hr].
      rewrite (Hf p r Hr) in Hfp. exists p, r. split; [done|]. split; congruence.
    + intros (p & r & Hp & Hr & Hm). exists p. split; [done|].
      rewrite (Hf p r Hr). congruence.
  - rewrite negb_true_iff, Hff. split.
    + intros Hall p r Hp Hr. specialize (Hall p Hp). rewrite (Hf p r Hr) in Hall. congruence.
    + intros Hall p Hp. destruct (Hrec p Hp) as [r Hr].
      rewrite (Hf p r Hr). f_equal. by eapply Hall.
Qed.

(** The verdict under the equivalence policy, when every project has a
    recorded result and a recorded baseline. *)
Lemma equivalence_verdict (ARGS : Args.t) (projects : list Project.t)
    (old_results results : list (string * MypyResult)) :
  truthy_str (Args.bisect_output ARGS) = None ->
  (forall p, p ∈ projects -> is_Some (recorded results p)) ->
  (forall p, p ∈ projects -> is_Some (recorded old_results p)) ->
  exists good,
    are_results_good ARGS projects old_results results = Ok good /\
    (good = true <->
     forall p, p ∈ projects ->
               output <$> recorded results p = output <$> recorded old_results p) /\
    (good = false <->
     exists p, p ∈ projects /\
               output <$> recorded results p <> output <$> recorded old_results p).
Proof.
  intros Hpat Hrec Hold. unfold are_results_good. rewrite Hpat.
  set (f := fun project : Project.t =>
              res_bind (dict_get results (Project.name project)) (fun r =>
              res_bind (dict_get old_results (Project.name project)) (fun o =>
              Ok (same_output r o)))).
  assert (Hf : forall p r o, recorded results p = Some r -> recorded old_results p = Some o ->
                             f p = Ok (same_output r o)).
  { intros p r o Hr Ho. unfold f, dict_get. unfold recorded in Hr, Ho. by rewrite Hr, Ho. }
  destruct (py_all_total f projects) as (good & Hall & Ht & Hff).
  { intros p Hp. destruct (Hrec p Hp) as [r Hr], (Hold p Hp) as [o Ho].
    rewrite (Hf p r o Hr Ho). eauto. }
  exists good. split; [done|]. split.
  - rewrite Ht. split.
    + intros Hgood p Hp. destruct (Hrec p Hp) as [r Hr], (Hold p Hp) as [o Ho].
      specialize (Hgood p Hp). rewrite (Hf p r o Hr Ho) in Hgood.
      rewrite Hr, Ho. simpl. f_equal. apply same_output_true. congruence.
    + intros Hsame p Hp. destruct (Hrec p Hp) as [r Hr], (Hold p Hp) as [o Ho].
      specialize (Hsame p Hp). rewrite Hr, Ho in Hsame. simpl in Hsame.
      rewrite (Hf p r o Hr Ho). f_equal. apply same_output_true. congruence.
  - rewrite Hff. split.
    + intros (p & Hp & Hfp). exists p. split; [done|].
      destruct (Hrec p Hp) as [r Hr], (Hold p Hp) as [o Ho].
      rewrite (Hf p r o Hr Ho) in Hfp. rewrite Hr, Ho. simpl.
      intros Heq. assert (same_output r o = true) by (apply same_output_true; congruence).
      congruence.
    + intros (p & Hp & Hne). exists p. split; [done|].
      destruct (Hrec p Hp) as [r Hr], (Hold p Hp) as [o Ho].
      rewrite (Hf p r o Hr Ho). f_equal. rewrite Hr, Ho in Hne. simpl in Hne.
      destruct (same_output r o) eqn:Hs; [|done].
      apply same_output_true in Hs. congruence.
Qed.
End OracleFacts.

(** ** Claims on the oracle *)

(** C1. In every bisection step the verdict over the corpus is computed
    without error, and it is good exactly when, under the equivalence
    policy, the output recorded for every project equals the output
    recorded for it in the baseline, or, under the pattern policy, the
    stripped output recorded for no project contains the pattern; one
    project that differs or matches makes the verdict bad.  When the
    projects have distinct names, what is recorded for a project is the
    result of its own run. *)
Theorem C1_aggregate_verdict {L : Library} (ARGS : Args.t) (projects : list Project.t)
    (old new : Project.t -> MypyResult) :
  let old_results := batch_results old projects in
  let results := batch_results new projects in
  exists good,
    are_results_good ARGS projects old_results results = Ok good /\
    match truthy_str (Args.bisect_output ARGS) with
    | None =>
        (good = true <->
         forall p, p ∈ projects ->
                   output <$> recorded results p = output <$> recorded old_results p) /\
        (good = false <->
         exists p, p ∈ projects /\
                   output <$> recorded results p <> output <$> recorded old_results p)
    | Some pattern =>
        (good = true <->
         forall p r, p ∈ projects -> recorded results p = Some r ->
                     re_search pattern (strip_colour_code (output r)) false = false) /\
        (good = false <->
         exists p r, p ∈ projects /\ recorded results p = Some r /\
                     re_search pattern (strip_colour_code (output r)) false = true)
    end /\
    (NoDup (map Project.name projects) ->
     forall p, p ∈ projects ->
               recorded results p = Some (new p) /\ recorded old_results p = Some (old p)).
Proof.
  intros old_results results.
  assert (Hnames : NoDup (map Project.name projects) ->
            forall p, p ∈ projects ->
              recorded results p = Some (new p) /\ recorded old_results p = Some (old p)).
  { intros Hnd p Hp. split; by apply recorded_unique. }
  destruct (truthy_str (Args.bisect_output ARGS)) as [pattern|] eqn:Hpat.
  - destruct (pattern_verdict ARGS pattern projects old_results results Hpat)
      as (good & Hgood & Hf & Ht).
    { intros p Hp. by apply recorded_is_Some. }
    exists good. auto.
  - destruct (equivalence_verdict ARGS projects old_results results Hpat)
      as (good & Hgood & Ht & Hf).
    { intros p Hp. by apply recorded_is_Some. }
    { intros p Hp. by apply recorded_is_Some. }
    exists good. auto.
Qed.

Lemma C1_witness :
  recorded (batch_results (fun _ => Example.error_result) [Example.a; Example.b]) Example.a
  = Some Example.error_result.
Proof.
  destruct (C1_aggregate_verdict (L := literal_library [] Example.args) Example.args
              [Example.a; Example.b]
              (fun _ => Example.success_result) (fun _ => Example.error_result))
    as (good & _ & _ & Hnames).
  apply Hnames.
  - apply NoDup_ListNoDup. repeat constructor; simpl; intuition discriminate.
  - by left.
Defined.

(** C3, as the code has it.  The comparison of a project's new output with
    its old one declares them equivalent exactly when the two outputs are
    identical as they are: no styling is stripped before the comparison.
    Outputs declared equivalent are also identical after stripping.  The
    verdict of the equivalence policy on one project is this comparison. *)
Theorem C3_raw_comparison {L : Library} (ARGS : Args.t) (p : Project.t) (new old : MypyResult) :
  (same_output new old = true <-> output new = output old) /\
  (same_output new old = true ->
   strip_colour_code (output new) = strip_colour_code (output old)) /\
  (truthy_str (Args.bisect_output ARGS) = None ->
   are_results_good ARGS [p] (batch_results (fun _ => old) [p]) (batch_results (fun _ => new) [p])
   = Ok (same_output new old)).
Proof.
  split; [apply same_output_true|]. split.
  - intros Hs. apply same_output_true in Hs. by rewrite Hs.
  - intros Hpat. unfold are_results_good. rewrite Hpat.
    unfold batch_results, dict, dict_get. simpl. rewrite String.eqb_refl. simpl.
    by destruct (same_output new old).
Qed.

Lemma C3_witness :
  are_results_good (L := literal_library [] Example.args) Example.args [Example.a]
    (batch_results (fun _ => Example.success_result) [Example.a])
    (batch_results (fun _ => Example.bold_result) [Example.a])
  = Ok false /\
  are_results_good (L := literal_library [] Example.args) Example.args [Example.a]
    (batch_results (fun _ => Example.bold_result) [Example.a])
    (batch_results (fun _ => Example.bold_result) [Example.a])
  = Ok true.
Proof.
  pose proof (C3_raw_comparison (L := literal_library [] Example.args) Example.args Example.a
                Example.bold_result Example.success_result) as (_ & _ & Hdiffer).
  pose proof (C3_raw_comparison (L := literal_library [] Example.args) Example.args Example.a
                Example.bold_result Example.bold_result) as (_ & _ & Hsame).
  split.
  - apply Hdiffer. reflexivity.
  - apply Hsame. reflexivity.
Defined.

(** C3, as stated, fails: a bold "Success" and a plain "Success" are
    identical once the styling is stripped, and the comparison declares
    them different. *)
Lemma C3_counterexample :
  ~ (same_output Example.bold_result Example.success_result = true <->
     strip_colour_code (Library := literal_library [] Example.args) (output Example.bold_result)
     = strip_colour_code (Library := literal_library [] Example.args) (output Example.success_result)).
Proof.
  intros [_ Hclaim]. specialize (Hclaim eq_refl). discriminate Hclaim.
Qed.

(** C7. Under the pattern policy, whatever results are recorded for the
    projects, the verdict is bad exactly when the stripped output recorded
    for at least one project contains the pattern, and it is the same for
    every order of the projects. *)
Theorem C7_pattern_policy {L : Library} (ARGS : Args.t) (pattern : string)
    (projects projects' : list Project.t)
    (old_results results : list (string * MypyResult)) :
  truthy_str (Args.bisect_output ARGS) = Some pattern ->
  (forall p, p ∈ projects -> is_Some (recorded results p)) ->
  Permutation projects projects' ->
  exists good,
    are_results_good ARGS projects old_results results = Ok good /\
    are_results_good ARGS projects' old_results results = Ok good /\
    (good = false <->
     exists p r, p ∈ projects /\ recorded results p = Some r /\
                 re_search pattern (strip_colour_code (output r)) false = true).
Proof.
  intros Hpat Hrec Hperm.
  destruct (pattern_verdict ARGS pattern projects old_results results Hpat Hrec)
    as (good & Hgood & Hf & _).
  destruct (pattern_verdict ARGS pattern projects' old_results results Hpat)
    as (good' & Hgood' & Hf' & _).
  { intros p Hp. apply Hrec. by rewrite Hperm. }
  assert (good' = good) as ->.
  { destruct good, good'; try done.
    - destruct Hf' as [Hf' _]. destruct (Hf' eq_refl) as (p & r & Hp & Hr & Hm).
      rewrite <- Hperm in Hp. destruct Hf as [_ Hf]. symmetry. apply Hf. eauto.
    - destruct Hf as [Hf _]. destruct (Hf eq_refl) as (p & r & Hp & Hr & Hm).
      rewrite Hperm in Hp. destruct Hf' as [_ Hf']. apply Hf'. eauto. }
  exists good. auto.
Qed.

Lemma C2_witness :
  exists shards,
    partition_shards 2 [Example.c; Example.a; Example.b] = Ok (map total_cost shards, shards) /\
    Permutation (concat shards) [Example.c; Example.a; Example.b].
Proof.
  destruct (C2_partition_lpt (L := literal_library [] Example.args)
              [Example.c; Example.a; Example.b] 2 ltac:(lia))
    as (shards & Hrun & _ & Hperm & _).
  exists shards. split; assumption.
Defined.

Lemma C9_witness :
  partition_shards 2 [Example.a; Example.b; Example.c]
  = Ok ([5; 5], [[Example.a]; [Example.b; Example.c]]).
Proof.
  apply (proj1 C9_scenario_and_one_shard Example.a Example.b Example.c); reflexivity.
Defined.

Lemma C10_witness :
  select_projects (L := literal_library [Example.a] Example.args)
    (Args.mk (Some "local") (Some "nothing") true (RevStr "2020-01-01") (Some 3) (Some 2)
             false None false false false false "full" false false "base"
             RevNone RevNone RevNone RevNone)
  = Ok [Project.mk "local" "local" RevNone false 5].
Proof.
  apply (C10_local_project (L := literal_library [Example.a] Example.args) _ "local");
    [reflexivity | discriminate].
Defined.

Lemma C7_witness :
  exists good,
    are_results_good (L := literal_library [] Example.args)
      (Args.mk None None false RevNone None None true (Some "error") false false false false
               "full" false false "base" RevNone RevNone RevNone RevNone)
      [Example.a; Example.b] []
      [("a", Example.success_result); ("b", Example.error_result)] = Ok good /\
    are_results_good (L := literal_library [] Example.args)
      (Args.mk None None false RevNone None None true (Some "error") false false false false
               "full" false false "base" RevNone RevNone RevNone RevNone)
      [Example.b; Example.a] []
      [("a", Example.success_result); ("b", Example.error_result)] = Ok good.
Proof.
  destruct (C7_pattern_policy (L := literal_library [] Example.args)
              (Args.mk None None false RevNone None None true (Some "error") false false false
                       false "full" false false "base" RevNone RevNone RevNone RevNone)
              "error" [Example.a; Example.b] [Example.b; Example.a] []
              [("a", Example.success_result); ("b", Example.error_result)])
    as (good & H1 & H2 & _).
  - reflexivity.
  - intros p Hp. apply elem_of_cons in Hp as [->|Hp]; [vm_compute; eauto|].
    apply elem_of_cons in Hp as [->|Hp]; [vm_compute; eauto|].
    by apply elem_of_nil in Hp.
  - apply perm_swap.
  - exists good. split; assumption.
Defined.

(** ** The event log *)

Section Silence.
Context {W : Type} (P : Event -> bool).

Lemma silent_ret {A} (a : A) : silent P (ret (W := W) a).
Proof. intros w. constructor. Qed.

Lemma silent_raise {A} (e : exn) : silent P (raise (W := W) (A := A) e).
Proof. intros w. constructor. Qed.

Lemma silent_lift {A} (r : Res A) : silent P (lift (W := W) r).
Proof. intros w. constructor. Qed.

Lemma silent_read {A} (f : W -> A) : silent P (read f).
Proof. intros w. constructor. Qed.

Lemma silent_assert (b : bool) : silent P (py_assert (W := W) b).
Proof. destruct b; [apply silent_ret | apply silent_raise]. Qed.

Lemma silent_emit (ev : Event) : P ev = false -> silent P (emit (W := W) ev).
Proof. intros Hev w. by repeat constructor. Qed.

Lemma silent_call {A} (ev : Event) (ext : W -> Res A * W) :
  P ev = false -> silent P (call ev ext).
Proof. intros Hev w. unfold call, events. destruct (ext w). by repeat constructor. Qed.

Lemma silent_ask {A} (ev : Event) (ext : W -> Res A) :
  P ev = false -> silent P (ask ev ext).
Proof. intros Hev w. by repeat constructor. Qed.

Lemma silent_bind {A B} (m : M W A) (f : A -> M W B) :
  silent P m -> (forall a, silent P (f a)) -> silent P (bind m f).
Proof.
  intros Hm Hf w. specialize (Hm w). unfold bind, events in *.
  destruct (m w) as [[[a|e|] evs] w']; simpl in *; try done.
  specialize (Hf a w'). unfold events in Hf.
  destruct (f a w') as [[r evs'] w'']; simpl in *.
  by apply Forall_app.
Qed.

Lemma silent_when (b : bool) (m : M W unit) :
  silent P m -> silent P (if b then m else ret tt).
Proof. destruct b; [done | intros _; apply silent_ret]. Qed.

Lemma silent_try_finally {A} (m : M W A) (cleanup : M W unit) :
  silent P m -> silent P cleanup -> silent P (try_finally m cleanup).
Proof.
  intros Hm Hc w. specialize (Hm w). unfold try_finally, events in *.
  destruct (m w) as [[r evs] w']; simpl in *.
  specialize (Hc w'). unfold events in Hc.
  destruct r; try done;
    destruct (cleanup w') as [[[?|?|] evs'] w'']; simpl in *; by apply Forall_app.
Qed.

Lemma silent_gather {A} (ms : list (M W A)) :
  Forall (silent P) ms -> silent P (gather ms).
Proof.
  induction 1 as [|m ms Hm _ IH]; simpl; [apply silent_ret|].
  apply silent_bind; [done|]. intros a.
  apply silent_bind; [done|]. intros l. apply silent_ret.
Qed.

Lemma silent_gather_map {A B} (f : A -> M W B) (l : list A) :
  (forall x, silent P (f x)) -> silent P (gather (map f l)).
Proof.
  intros Hf. apply silent_gather. apply Forall_forall. intros m Hm.
  apply list_elem_of_In, in_map_iff in Hm as (x & <- & _). apply Hf.
Qed.

Lemma silent_run_detached (ms : list (M W unit)) :
  Forall (silent P) ms -> silent P (run_detached ms).
Proof.
  induction 1 as [|m ms Hm _ IH]; intros w; simpl; [constructor|].
  specialize (Hm w). unfold events in *.
  destruct (m w) as [[r evs] w']; simpl in *.
  specialize (IH w').
  destruct r; try done;
    destruct (run_detached ms w') as [[r' evs'] w'']; simpl in *; by apply Forall_app.
Qed.

Lemma silent_asyncio_wait {A} (f : A -> M W unit) (l : list A) :
  (forall x, silent P (f x)) -> silent P (asyncio_wait (map f l)).
Proof.
  intros Hf. unfold asyncio_wait.
  destruct (map f l) as [|m ms] eqn:Hmap; [apply silent_raise|].
  rewrite <- Hmap. apply silent_run_detached. apply Forall_forall. intros m' Hm.
  apply list_elem_of_In, in_map_iff in Hm as (x & <- & _). apply Hf.
Qed.
End Silence.

Create HintDb silence.

(** One step of a proof that a program is silent. *)
Ltac silent_step :=
  first
    [ solve [auto with silence]
    | progress cbv zeta
    | apply silent_ret | apply silent_raise | apply silent_lift | apply silent_read
    | apply silent_assert
    | apply silent_emit; reflexivity
    | apply silent_call; reflexivity
    | apply silent_ask; reflexivity
    | apply silent_bind; [|intros ?]
    | apply silent_try_finally
    | apply silent_gather_map; intros ?
    | apply silent_asyncio_wait; intros ?
    | apply silent_when
    | match goal with
      | |- silent _ (if ?b then _ else _) => destruct b
      | |- silent _ (match ?x with _ => _ end) => destruct x
      end ].

Ltac silent_auto := repeat silent_step.

Ltac unfold_coroutines :=
  unfold setup_new_and_old_mypy, setup_new_and_old_typeshed, fresh_typeshed,
    validate_inner, bisect_step, bisect_init, run_wrapper, report, measure_inner,
    clear_base_dir, setup_mypy, exec, debug_results, debug_print, print, when.

Section CoroutineFacts.
Context {L : Library} {W : Type} {E : Environment W}.

(** *** No coroutine prints a traceback *)

Lemma bisect_step_no_traceback ARGS projects mypy_exe repo_dir old_results :
  silent is_traceback (bisect_step ARGS projects mypy_exe repo_dir old_results).
Proof. unfold_coroutines. silent_auto. Qed.
#[local] Hint Resolve bisect_step_no_traceback : silence.

Lemma bisect_loop_no_traceback fuel ARGS projects mypy_exe repo_dir old_results :
  silent is_traceback (bisect_loop fuel ARGS projects mypy_exe repo_dir old_results).
Proof.
  induction fuel as [|fuel IH]; simpl.
  - intros w. constructor.
  - apply silent_bind; [apply bisect_step_no_traceback|].
    intros [|]; [apply silent_ret | apply IH].
Qed.
#[local] Hint Resolve bisect_loop_no_traceback : silence.

Lemma bisect_init_no_traceback ARGS : silent is_traceback (bisect_init ARGS).
Proof. unfold_coroutines. silent_auto. Qed.
#[local] Hint Resolve bisect_init_no_traceback : silence.

Lemma bisect_no_traceback fuel ARGS : silent is_traceback (bisect fuel ARGS).
Proof.
  unfold bisect. apply silent_bind; [apply bisect_init_no_traceback|].
  intros [[[projects mypy_exe] repo_dir] old_results].
  silent_auto.
Qed.
#[local] Hint Resolve bisect_no_traceback : silence.

Lemma first_success_no_traceback ARGS project mypy_exes :
  silent is_traceback (first_success ARGS project mypy_exes).
Proof.
  induction mypy_exes as [|exe rest IH]; simpl; [apply silent_ret|].
  unfold_coroutines. silent_auto.
Qed.
#[local] Hint Resolve first_success_no_traceback : silence.

Lemma print_truthy_no_traceback results : silent is_traceback (print_truthy (W := W) results).
Proof.
  induction results as [|r rest IH]; simpl; [apply silent_ret|].
  unfold_coroutines. silent_auto.
Qed.
#[local] Hint Resolve print_truthy_no_traceback : silence.

Lemma validate_no_traceback ARGS : silent is_traceback (validate_expected_success ARGS).
Proof.
  unfold validate_expected_success. unfold_coroutines.
  silent_auto.
Qed.
#[local] Hint Resolve validate_no_traceback : silence.

Lemma primer_loop_no_traceback ARGS new_mypy old_mypy new_typeshed old_typeshed completed retcode :
  silent is_traceback
    (primer_loop ARGS new_mypy old_mypy new_typeshed old_typeshed completed retcode).
Proof.
  revert retcode. induction completed as [|project rest IH]; intros retcode; simpl;
    [apply silent_ret|].
  unfold_coroutines. silent_auto.
Qed.
#[local] Hint Resolve primer_loop_no_traceback : silence.

Lemma primer_no_traceback ARGS : silent is_traceback (primer ARGS).
Proof.
  unfold primer. unfold_coroutines. silent_auto.
Qed.
#[local] Hint Resolve primer_no_traceback : silence.

Lemma print_runtimes_no_traceback results :
  silent is_traceback (print_runtimes (W := W) results).
Proof.
  induction results as [|[time_taken project] rest IH]; simpl; [apply silent_ret|].
  unfold_coroutines. silent_auto.
Qed.
#[local] Hint Resolve print_runtimes_no_traceback : silence.

Lemma measure_no_traceback ARGS : silent is_traceback (measure_project_runtimes ARGS).
Proof. unfold measure_project_runtimes. unfold_coroutines. silent_auto. Qed.
#[local] Hint Resolve measure_no_traceback : silence.

Lemma count_lines_no_traceback paths : silent is_traceback (count_lines paths).
Proof.
  induction paths as [|path rest IH]; simpl; [apply silent_ret|]. silent_auto.
Qed.
#[local] Hint Resolve count_lines_no_traceback : silence.

Lemma coverage_counts_no_traceback pairs project_to_paths project_to_lines :
  silent is_traceback (coverage_counts pairs project_to_paths project_to_lines).
Proof.
  revert project_to_paths project_to_lines.
  induction pairs as [|[project paths] rest IH]; intros; simpl; [apply silent_ret|].
  silent_auto.
Qed.
#[local] Hint Resolve coverage_counts_no_traceback : silence.

Lemma print_coverage_no_traceback projects project_to_paths project_to_lines :
  silent is_traceback (print_coverage (W := W) projects project_to_paths project_to_lines).
Proof.
  induction projects as [|project rest IH]; simpl; [apply silent_ret|].
  unfold_coroutines. silent_auto.
Qed.
#[local] Hint Resolve print_coverage_no_traceback : silence.

Lemma coverage_no_traceback ARGS : silent is_traceback (coverage ARGS).
Proof. unfold coverage. unfold_coroutines. silent_auto. Qed.
#[local] Hint Resolve coverage_no_traceback : silence.

Lemma inner_no_traceback fuel argv : silent is_traceback (inner fuel argv).
Proof.
  unfold inner, run_coro. unfold_coroutines.
  silent_auto.
Qed.

(** *** The initialization of [bisect] does not start a turn of the loop *)

Lemma bisect_init_no_turn ARGS : silent is_turn (bisect_init ARGS).
Proof. unfold_coroutines. silent_auto. Qed.
End CoroutineFacts.

(** ** Running programs *)

Lemma bind_Ok_inv {W A B} (m : M W A) (f : A -> M W B) (w w' : W) (b : B) (evs : list Event) :
  bind m f w = (Ok b, evs, w') ->
  exists a evs1 w1 evs2,
    m w = (Ok a, evs1, w1) /\ f a w1 = (Ok b, evs2, w') /\ evs = evs1 ++ evs2.
Proof.
  unfold bind. destruct (m w) as [[[a|e|] evs1] w1]; try discriminate.
  destruct (f a w1) as [[r evs2] w2] eqn:Hf. intros [= -> <- <-].
  exists a, evs1, w1, evs2. auto.
Qed.

Lemma bind_Ok {W A B} (m : M W A) (f : A -> M W B) (w w1 : W) (a : A) (evs1 : list Event) :
  m w = (Ok a, evs1, w1) ->
  bind m f w = (outcome (f a w1), evs1 ++ events (f a w1), snd (f a w1)).
Proof.
  intros Hm. unfold bind, outcome, events. rewrite Hm.
  by destruct (f a w1) as [[r evs2] w2].
Qed.

(** The dictionary of a batch that ran to its end is the [batch_results]
    of what the checker answered in the world the batch started in. *)
Lemma batch_is_batch_results {L : Library} {W : Type} {E : Environment W}
    (mypy_exe : string) (projects : list Project.t) (w w' : W)
    (results_fut : list (string * MypyResult)) (evs : list Event) :
  gather (map (run_wrapper mypy_exe) projects) w = (Ok results_fut, evs, w') ->
  w' = w /\
  exists run,
    (forall p, p ∈ projects -> run_mypy_ext p mypy_exe w = Ok (run p)) /\
    dict results_fut = batch_results run projects.
Proof.
  set (run := fun p => match run_mypy_ext p mypy_exe w with
                       | Ok r => r
                       | _ => mkMypyResult false EmptyString PrimFloat.zero
                       end).
  intros Hrun.
  assert (Hgen : w' = w /\
                 (forall p, p ∈ projects -> run_mypy_ext p mypy_exe w = Ok (run p)) /\
                 results_fut = map (fun p => (Project.name p, run p)) projects).
  { revert results_fut evs Hrun.
    induction projects as [|p l IH]; intros results_fut evs Hrun; simpl in Hrun.
    - injection Hrun as <- _ <-. split; [done|]. split; [|done].
      intros p Hp. by apply elem_of_nil in Hp.
    - apply bind_Ok_inv in Hrun as ([name r] & evs1 & w1 & evs2 & Hp & Hrest & ->).
      unfold run_wrapper in Hp.
      apply bind_Ok_inv in Hp as (r' & evs3 & w3 & evs4 & Hask & Hret & ->).
      unfold ask in Hask. injection Hask as Hext <- <-.
      unfold ret in Hret. injection Hret as <- <- _ <-.
      apply bind_Ok_inv in Hrest as (rest & evs5 & w5 & evs6 & Hl & Hret & ->).
      unfold ret in Hret. injection Hret as <- _ <-.
      destruct (IH _ _ Hl) as (-> & Hall & ->).
      assert (Hr : run p = r') by (unfold run; by rewrite Hext).
      split; [done|]. split.
      + intros q Hq. apply elem_of_cons in Hq as [->|Hq]; [congruence | by apply Hall].
      + simpl. by rewrite Hr. }
  destruct Hgen as (-> & Hall & ->). split; [done|]. exists run. split; [exact Hall | done].
Qed.

Lemma count_events_silent (P : Event -> bool) (evs : list Event) :
  Forall (fun ev => P ev = false) evs -> count_events P evs = 0%nat.
Proof.
  unfold count_events. induction 1 as [|ev evs Hev _ IH]; simpl; [done|].
  by rewrite Hev.
Qed.

Lemma count_events_app (P : Event -> bool) (evs evs' : list Event) :
  count_events P (evs ++ evs') = (count_events P evs + count_events P evs')%nat.
Proof. unfold count_events. by rewrite List.filter_app, length_app. Qed.

Lemma events_bind {W A B} (m : M W A) (f : A -> M W B) (w : W) :
  exists rest, events (bind m f w) = events (m w) ++ rest.
Proof.
  unfold bind, events. destruct (m w) as [[[a|e|] evs] w1]; simpl.
  - destruct (f a w1) as [[r evs'] w2]. simpl. eauto.
  - exists []. by rewrite app_nil_r.
  - exists []. by rewrite app_nil_r.
Qed.

(** Whatever happens next, a turn of the loop starts by logging the update
    of the submodules. *)
Lemma bisect_loop_logs_turn {L : Library} {W : Type} {E : Environment W}
    (fuel : nat) (ARGS : Args.t) (projects : list Project.t) (mypy_exe repo_dir : string)
    (old_results : list (string * MypyResult)) (w : W) :
  exists rest,
    events (bisect_loop (S fuel) ARGS projects mypy_exe repo_dir old_results w)
    = EvRun SUBMODULE_UPDATE (Some repo_dir) :: rest.
Proof.
  simpl.
  destruct (events_bind (bisect_step ARGS projects mypy_exe repo_dir old_results)
              (fun returned : bool =>
                 if returned then ret tt
                 else bisect_loop fuel ARGS projects mypy_exe repo_dir old_results) w)
    as [rest1 ->].
  unfold bisect_step.
  match goal with
  | |- context [events (bind ?m ?f w)] => destruct (events_bind m f w) as [rest2 ->]
  end.
  unfold exec, call, events. destruct (run_ext SUBMODULE_UPDATE (Some repo_dir) w).
  simpl. eauto.
Qed.

(** ** Claims on the bisection *)

(** C6. When the initialization of [bisect] has run and the verdict on the
    old results is not good, [bisect] stops there: it does not return
    normally, it raises the assertion error when the verdict is bad, its
    log is that of the initialization and holds no turn of the loop, and
    the checkout is as the initialization left it.  Entering the loop
    would have logged a turn. *)
Theorem C6_assertion_guards_loop {L : Library} {W : Type} {E : Environment W}
    (fuel : nat) (ARGS : Args.t) (w w1 : W) (projects : list Project.t)
    (mypy_exe repo_dir : string) (old_results : list (string * MypyResult))
    (evs : list Event) :
  bisect_init ARGS w = (Ok (projects, mypy_exe, repo_dir, old_results), evs, w1) ->
  are_results_good ARGS projects old_results old_results <> Ok true ->
  exists r,
    bisect fuel ARGS w = (r, evs, w1) /\
    r <> Ok tt /\
    (are_results_good ARGS projects old_results old_results = Ok false ->
     r = Raise AssertionError) /\
    count_events is_turn evs = 0%nat /\
    (forall fuel' w2,
       count_events is_turn
         (events (bisect_loop (S fuel') ARGS projects mypy_exe repo_dir old_results w2))
       <> 0%nat).
Proof.
  intros Hinit Hbad.
  assert (Hturn : forall fuel' w2,
            count_events is_turn
              (events (bisect_loop (S fuel') ARGS projects mypy_exe repo_dir old_results w2))
            <> 0%nat).
  { intros fuel' w2.
    destruct (bisect_loop_logs_turn fuel' ARGS projects mypy_exe repo_dir old_results w2)
      as [rest ->].
    unfold count_events. simpl. lia. }
  assert (Hquiet : count_events is_turn evs = 0%nat).
  { apply count_events_silent. pose proof (bisect_init_no_turn ARGS w) as Hs.
    unfold events in Hs. by rewrite Hinit in Hs. }
  unfold bisect. rewrite (bind_Ok _ _ _ _ _ _ Hinit).
  unfold bind, lift, py_assert, outcome, events.
  destruct (are_results_good ARGS projects old_results old_results) as [[|]|e|]; simpl.
  - done.
  - exists (Raise AssertionError). by rewrite app_nil_r.
  - exists (Raise e). by rewrite app_nil_r.
  - exists Fuel. by rewrite app_nil_r.
Qed.

Lemma C6_witness :
  outcome (bisect (L := Scenario.library Example.args) (E := Scenario.environment) 5
             (Scenario.args_bisect "r0" "r4" (Some "Success")) Scenario.start)
  = Raise AssertionError.
Proof.
  edestruct (C6_assertion_guards_loop (L := Scenario.library Example.args)
               (E := Scenario.environment) 5
               (Scenario.args_bisect "r0" "r4" (Some "Success")) Scenario.start)
    as (r & Hrun & _ & Hassert & _).
  - vm_compute. reflexivity.
  - vm_compute. discriminate.
  - rewrite Hrun. apply Hassert. vm_compute. reflexivity.
Defined.

(** ** Claims on the exit code *)

Section ExitCode.
Context {L : Library} {W : Type} {E : Environment W}.

Lemma report_ok (ARGS : Args.t) (result : PrimerResult) (w : W) :
  exists evs, report ARGS result w = (Ok tt, evs, w).
Proof.
  unfold report, print, emit, bind, ret.
  repeat match goal with |- context [if ?b then _ else _] => destruct b end; eauto.
Qed.

Lemma primer_loop_code (ARGS : Args.t) (new_mypy old_mypy : string)
    (new_typeshed old_typeshed : option string) (completed : list Project.t)
    (retcode code : Z) (w w' : W) (evs : list Event) :
  primer_loop ARGS new_mypy old_mypy new_typeshed old_typeshed completed retcode w
  = (Ok code, evs, w') ->
  w' = w /\
  ((retcode <> 0 /\ code = retcode) \/
   (retcode = 0 /\ (code = 0 \/ code = 1) /\
    (code = 1 <->
     exists p result,
       p ∈ completed /\
       primer_result_ext p new_mypy old_mypy new_typeshed old_typeshed w = Ok result /\
       counted ARGS result = true /\ diff result <> EmptyString))).
Proof.
  revert retcode code evs. induction completed as [|p rest IH]; intros retcode code evs; simpl.
  - intros [= <- <- <-]. split; [done|].
    destruct (Z.eq_dec retcode 0) as [->|Hne]; [right | left; done].
    split; [done|]. split; [by left|]. split; [done|].
    intros (p & result & Hp & _). by apply elem_of_nil in Hp.
  - intros Hrun. apply bind_Ok_inv in Hrun as (result & evs1 & w1 & evs2 & Hask & Hrest & ->).
    unfold ask in Hask. injection Hask as Hext <- <-.
    assert (Hskip : forall code' evs',
      primer_loop ARGS new_mypy old_mypy new_typeshed old_typeshed rest
        (if counted ARGS result && (retcode =? 0) && negb (String.eqb (diff result) "")
         then 1 else retcode) w = (Ok code', evs', w') ->
      w' = w /\
      ((retcode <> 0 /\ code' = retcode) \/
       (retcode = 0 /\ (code' = 0 \/ code' = 1) /\
        (code' = 1 <->
         exists p0 result0,
           p0 ∈ p :: rest /\
           primer_result_ext p0 new_mypy old_mypy new_typeshed old_typeshed w = Ok result0 /\
           counted ARGS result0 = true /\ diff result0 <> EmptyString)))).
    { intros code' evs' Hloop. apply IH in Hloop as [-> Hcode]. split; [done|].
      destruct (Z.eq_dec retcode 0) as [->|Hne].
      - right. split; [done|]. simpl in Hcode.
        destruct (counted ARGS result) eqn:Hc; simpl in Hcode;
          [destruct (String.eqb_spec (diff result) "") as [Hd|Hd]; simpl in Hcode|].
        + destruct Hcode as [[? _]|(_ & Hor & Hiff)]; [done|]. split; [done|].
          rewrite Hiff. split.
          * intros (p0 & r0 & Hp0 & Hr0). exists p0, r0. split; [by right | done].
          * intros (p0 & r0 & Hp0 & Hr0 & Hc0 & Hd0).
            apply elem_of_cons in Hp0 as [->|Hp0]; [congruence | eauto 6].
        + destruct Hcode as [[_ ->]|[? _]]; [|done]. split; [by right|].
          split; [|done]. intros _. exists p, result. split; [by left | done].
        + destruct Hcode as [[? _]|(_ & Hor & Hiff)]; [done|]. split; [done|].
          rewrite Hiff. split.
          * intros (p0 & r0 & Hp0 & Hr0). exists p0, r0. split; [by right | done].
          * intros (p0 & r0 & Hp0 & Hr0 & Hc0 & Hd0).
            apply elem_of_cons in Hp0 as [->|Hp0]; [congruence | eauto 6].
      - left. split; [done|].
        destruct (Z.eqb_spec retcode 0); [done|].
        rewrite andb_false_r in Hcode. simpl in Hcode.
        destruct Hcode as [[_ ?]|[? _]]; done. }
    unfold counted in Hskip.
    destruct (Args.old_success ARGS && negb (success (old_result result))); simpl in *.
    + eapply Hskip. exact Hrest.
    + apply bind_Ok_inv in Hrest as ([] & evs3 & w3 & evs4 & Hreport & Hrest & ->).
      destruct (report_ok ARGS result w) as [evs5 Hr]. rewrite Hr in Hreport.
      injection Hreport as <- <-. eapply Hskip. exact Hrest.
Qed.
End ExitCode.

Lemma try_finally_Ok_inv {W A} (m : M W A) (cleanup : M W unit) (w w' : W) (a : A)
    (evs : list Event) :
  try_finally m cleanup w = (Ok a, evs, w') ->
  exists evs1 w1 evs2,
    m w = (Ok a, evs1, w1) /\ cleanup w1 = (Ok tt, evs2, w') /\ evs = evs1 ++ evs2.
Proof.
  unfold try_finally. intros Hrun.
  destruct (m w) as [[[a'|e|] evs1] w1]; try discriminate Hrun;
    destruct (cleanup w1) as [[[u|e'|] evs2] w2] eqn:Hclean; try discriminate Hrun.
  injection Hrun as -> <- <-. destruct u. by exists evs1, w1, evs2.
Qed.

Section Exit.
Context {L : Library} {W : Type} {E : Environment W}.

Lemma primer_code (ARGS : Args.t) (w w' : W) (code : Z) (evs : list Event) :
  primer ARGS w = (Ok code, evs, w') -> code = 0 \/ code = 1.
Proof.
  intros Hrun. unfold primer in Hrun.
  apply bind_Ok_inv in Hrun as (projects & evs1 & w1 & evs2 & _ & Hrun & ->).
  apply bind_Ok_inv in Hrun as (exes & evs3 & w3 & evs4 & _ & Hrun & ->).
  apply bind_Ok_inv in Hrun as (sheds & evs5 & w5 & evs6 & _ & Hrun & ->).
  apply bind_Ok_inv in Hrun as (completed & evs7 & w7 & evs8 & _ & Hrun & ->).
  apply primer_loop_code in Hrun as [_ [[? _]|(_ & Hor & _)]]; done.
Qed.

Lemma run_coro_code (fuel : nat) (ARGS : Args.t) (w w' : W) (code : Z) (evs : list Event) :
  run_coro fuel ARGS w = (Ok (Some code), evs, w') -> code = 0 \/ code = 1.
Proof.
  unfold run_coro. intros Hrun.
  repeat match type of Hrun with
         | (if ?b then _ else _) _ = _ => destruct b
         end;
    apply bind_Ok_inv in Hrun as (a & evs1 & w1 & evs2 & Hcoro & Hret & ->);
    unfold ret in Hret; try discriminate Hret.
  injection Hret as <- _ _. by apply primer_code in Hcoro.
Qed.

Lemma inner_Ok_inv (fuel : nat) (argv : list string) (w w' : W) (retcode : option Z)
    (evs : list Event) :
  inner fuel argv w = (Ok retcode, evs, w') ->
  exists ARGS0 evs0 w0 evs1 w1 evs2,
    parse_options_and_set_ctx argv = Ok ARGS0 /\
    let ARGS := set_base_dir ARGS0 (path_absolute (Args.base_dir ARGS0)) in
    run_coro fuel ARGS w0 = (Ok retcode, evs1, w1) /\
    clear_base_dir ARGS w1 = (Ok tt, evs2, w') /\
    evs = evs0 ++ evs1 ++ evs2.
Proof.
  intros Hrun. unfold inner in Hrun.
  apply bind_Ok_inv in Hrun as (ARGS0 & ? & ? & ? & Hparse & Hrun & ->).
  unfold lift in Hparse. injection Hparse as Hparse <- <-.
  apply bind_Ok_inv in Hrun as (? & evsa & wa & ? & _ & Hrun & ->).
  cbv zeta in Hrun.
  apply bind_Ok_inv in Hrun as (? & evsb & wb & ? & _ & Hrun & ->).
  apply bind_Ok_inv in Hrun as (? & evsc & wc & ? & _ & Hrun & ->).
  apply try_finally_Ok_inv in Hrun as (evs1 & w1 & evs2 & Hcoro & Hclean & ->).
  exists ARGS0, (evsa ++ evsb ++ evsc), wc, evs1, w1, evs2.
  split; [done|]. split; [done|]. split; [done|].
  simpl. by rewrite <- !app_assoc.
Qed.
End Exit.

Lemma primer_spec {L : Library} {W : Type} {E : Environment W} (ARGS : Args.t)
    (w0 w' : W) (code : Z) (evs : list Event) :
  primer ARGS w0 = (Ok code, evs, w') ->
  (code = 0 \/ code = 1) /\
  exists projects new_mypy old_mypy new_typeshed old_typeshed,
    select_projects ARGS = Ok projects /\
    (code = 1 <->
     exists p result,
       p ∈ projects /\
       primer_result_ext p new_mypy old_mypy new_typeshed old_typeshed w' = Ok result /\
       counted ARGS result = true /\ diff result <> EmptyString).
Proof.
  intros Hrun. unfold primer in Hrun.
  apply bind_Ok_inv in Hrun as (projects & evs1 & w1 & evs2 & Hsel & Hrun & ->).
  unfold lift in Hsel. injection Hsel as Hsel <- <-.
  apply bind_Ok_inv in Hrun as (exes & evs3 & w3 & evs4 & _ & Hrun & ->).
  apply bind_Ok_inv in Hrun as (sheds & evs5 & w5 & evs6 & _ & Hrun & ->).
  apply bind_Ok_inv in Hrun as (completed & evs7 & w7 & evs8 & Hread & Hrun & ->).
  unfold read in Hread. injection Hread as <- <- <-.
  apply primer_loop_code in Hrun as [-> [[? _]|(_ & Hor & Hiff)]]; [done|].
  split; [exact Hor|].
  exists projects, (fst exes), (snd exes), (fst sheds), (snd sheds).
  split; [exact Hsel|]. rewrite Hiff.
  split; intros (p & result & Hp & Hrest); exists p, result; split; try done.
  + by rewrite <- (completion_order_perm w5 projects).
  + by rewrite (completion_order_perm w5 projects).
Qed.

(** What [run_coro] answers: the code of [primer] when no other mode is
    asked for, and [None] otherwise. *)
Lemma run_coro_spec {L : Library} {W : Type} {E : Environment W} (fuel : nat)
    (ARGS : Args.t) (w0 w1 : W) (retcode : option Z) (evs : list Event) :
  run_coro fuel ARGS w0 = (Ok retcode, evs, w1) ->
  (primer_mode ARGS /\
   exists code, retcode = Some code /\ primer ARGS w0 = (Ok code, evs, w1)) \/
  (~ primer_mode ARGS /\ retcode = None).
Proof.
  unfold run_coro, primer_mode. intros Hrun.
  destruct (Args.coverage ARGS);
    [right; split; [intros (? & _); done|];
     apply bind_Ok_inv in Hrun as (? & ? & ? & ? & _ & Hret & _); by injection Hret as <- |].
  destruct (Args.bisect ARGS);
    [right; split; [intros (_ & ? & _); done|];
     apply bind_Ok_inv in Hrun as (? & ? & ? & ? & _ & Hret & _); by injection Hret as <- |].
  destruct (truthy_str (Args.bisect_output ARGS));
    [right; split; [intros (_ & _ & ? & _); done|];
     apply bind_Ok_inv in Hrun as (? & ? & ? & ? & _ & Hret & _); by injection Hret as <- |].
  simpl in Hrun.
  destruct (Args.validate_expected_success ARGS);
    [right; split; [intros (_ & _ & _ & ? & _); done|];
     apply bind_Ok_inv in Hrun as (? & ? & ? & ? & _ & Hret & _); by injection Hret as <- |].
  destruct (Args.measure_project_runtimes ARGS);
    [right; split; [intros (_ & _ & _ & _ & ?); done|];
     apply bind_Ok_inv in Hrun as (? & ? & ? & ? & _ & Hret & _); by injection Hret as <- |].
  left. split; [done|].
  apply bind_Ok_inv in Hrun as (code & evs1 & w2 & evs2 & Hprimer & Hret & ->).
  injection Hret as <- <- <-. exists code. by rewrite app_nil_r.
Qed.

(** [inner] when the options parse and the directories are prepared: it
    answers what the coroutine answers, after the cleanup. *)
Lemma inner_runs {L : Library} {W : Type} {E : Environment W} (fuel : nat)
    (argv : list string) (ARGS0 : Args.t) (w wa wb w0 w1 w2 : W) (r : Res (option Z))
    (evsa evs1 evs2 : list Event) :
  parse_options_and_set_ctx argv = Ok ARGS0 ->
  let ARGS := set_base_dir ARGS0 (path_absolute (Args.base_dir ARGS0)) in
  clear_base_dir ARGS0 w = (Ok tt, evsa, wa) ->
  fs_ext (Mkdir (Args.base_dir ARGS)) wa = (Ok tt, wb) ->
  fs_ext (Mkdir (path_join (Args.base_dir ARGS) "projects")) wb = (Ok tt, w0) ->
  run_coro fuel ARGS w0 = (r, evs1, w1) -> r <> Fuel ->
  clear_base_dir ARGS w1 = (Ok tt, evs2, w2) ->
  inner fuel argv w
  = (r,
     evsa ++ [EvFs (Mkdir (Args.base_dir ARGS))] ++
     [EvFs (Mkdir (path_join (Args.base_dir ARGS) "projects"))] ++ evs1 ++ evs2,
     w2).
Proof.
  intros Hparse ARGS Hclear Hbase Hprojects Hrun Hfuel Hclean. subst ARGS.
  unfold inner. unfold bind at 1, lift at 1. rewrite Hparse.
  unfold bind at 1. rewrite Hclear. cbv zeta.
  unfold bind at 1, call at 1. rewrite Hbase.
  unfold bind at 1, call at 1. rewrite Hprojects.
  unfold try_finally. rewrite Hrun.
  destruct r as [retcode|e|]; [| |done]; by rewrite Hclean.
Qed.

(** C5, as the code has it.  [main] hands to [sys.exit] the return code of
    the coroutine (0 when there is none) when no exception reaches it, and
    70, after printing the traceback once, when an exception of class
    [Exception] does; an exception outside that class leaves [main].
    [inner] answers what the coroutine that it runs answers: when the
    options parse and the directories are prepared, it ends as the
    coroutine ends, after the cleanup.  The coroutine answers a code in
    the mode of [primer] only.  The code of [primer] is 0 or 1, and is 1
    exactly when some selected project has a differential result with a
    diff that the [--old-success] filter lets through (the filter is off,
    or the old run of the project succeeded).  So in the mode of [primer]
    the status of the process is 70 with one traceback, or else the code
    of [primer] with none. *)
Theorem C5_exit_status {L : Library} {W : Type} {E : Environment W}
    (fuel : nat) (argv : list string) (w : W) :
  match inner fuel argv w with
  | (Ok retcode, evs, w') =>
      main fuel argv w = (Ok (match retcode with Some n => n | None => 0 end), evs, w') /\
      count_events is_traceback evs = 0%nat
  | (Raise e, evs, w') =>
      if is_Exception e
      then main fuel argv w = (Ok 70, evs ++ [EvTraceback e], w') /\
           count_events is_traceback (evs ++ [EvTraceback e]) = 1%nat
      else main fuel argv w = (Raise e, evs, w')
  | (Fuel, evs, w') => main fuel argv w = (Fuel, evs, w')
  end /\
  (forall retcode evs w',
     inner fuel argv w = (Ok retcode, evs, w') ->
     exists ARGS0 evs0 w0 evs1 w1 evs2,
       parse_options_and_set_ctx argv = Ok ARGS0 /\
       let ARGS := set_base_dir ARGS0 (path_absolute (Args.base_dir ARGS0)) in
       run_coro fuel ARGS w0 = (Ok retcode, evs1, w1) /\
       clear_base_dir ARGS w1 = (Ok tt, evs2, w') /\
       evs = evs0 ++ evs1 ++ evs2) /\
  (forall ARGS0 (wa wb w0 w1 w2 : W) r evsa evs1 evs2,
     parse_options_and_set_ctx argv = Ok ARGS0 ->
     let ARGS := set_base_dir ARGS0 (path_absolute (Args.base_dir ARGS0)) in
     clear_base_dir ARGS0 w = (Ok tt, evsa, wa) ->
     fs_ext (Mkdir (Args.base_dir ARGS)) wa = (Ok tt, wb) ->
     fs_ext (Mkdir (path_join (Args.base_dir ARGS) "projects")) wb = (Ok tt, w0) ->
     run_coro fuel ARGS w0 = (r, evs1, w1) -> r <> Fuel ->
     clear_base_dir ARGS w1 = (Ok tt, evs2, w2) ->
     inner fuel argv w
     = (r,
        evsa ++ [EvFs (Mkdir (Args.base_dir ARGS))] ++
        [EvFs (Mkdir (path_join (Args.base_dir ARGS) "projects"))] ++ evs1 ++ evs2,
        w2)) /\
  (forall ARGS w0 w1 retcode evs,
     run_coro fuel ARGS w0 = (Ok retcode, evs, w1) ->
     (primer_mode ARGS /\
      exists code, retcode = Some code /\ primer ARGS w0 = (Ok code, evs, w1)) \/
     (~ primer_mode ARGS /\ retcode = None)) /\
  (forall ARGS w0, primer_mode ARGS ->
     run_coro fuel ARGS w0 = bind (primer ARGS) (fun code => ret (Some code)) w0) /\
  (forall ARGS w0 code evs w',
     primer ARGS w0 = (Ok code, evs, w') ->
     (code = 0 \/ code = 1) /\
     exists projects new_mypy old_mypy new_typeshed old_typeshed,
       select_projects ARGS = Ok projects /\
       (code = 1 <->
        exists p result,
          p ∈ projects /\
          primer_result_ext p new_mypy old_mypy new_typeshed old_typeshed w' = Ok result /\
          counted ARGS result = true /\ diff result <> EmptyString)) /\
  (forall ARGS0 code evs w',
     parse_options_and_set_ctx argv = Ok ARGS0 -> primer_mode ARGS0 ->
     main fuel argv w = (Ok code, evs, w') ->
     let ARGS := set_base_dir ARGS0 (path_absolute (Args.base_dir ARGS0)) in
     (code = 70 /\ count_events is_traceback evs = 1%nat /\
      exists e evs0,
        inner fuel argv w = (Raise e, evs0, w') /\ is_Exception e = true /\
        evs = evs0 ++ [EvTraceback e]) \/
     ((code = 0 \/ code = 1) /\ count_events is_traceback evs = 0%nat /\
      exists projects new_mypy old_mypy new_typeshed old_typeshed w1,
        select_projects ARGS = Ok projects /\
        (code = 1 <->
         exists p result,
           p ∈ projects /\
           primer_result_ext p new_mypy old_mypy new_typeshed old_typeshed w1 = Ok result /\
           counted ARGS result = true /\ diff result <> EmptyString))).
Proof.
  assert (Hmain :
    match inner fuel argv w with
    | (Ok retcode, evs, w') =>
        main fuel argv w = (Ok (match retcode with Some n => n | None => 0 end), evs, w') /\
        count_events is_traceback evs = 0%nat
    | (Raise e, evs, w') =>
        if is_Exception e
        then main fuel argv w = (Ok 70, evs ++ [EvTraceback e], w') /\
             count_events is_traceback (evs ++ [EvTraceback e]) = 1%nat
        else main fuel argv w = (Raise e, evs, w')
    | (Fuel, evs, w') => main fuel argv w = (Fuel, evs, w')
    end).
  { pose proof (inner_no_traceback fuel argv w) as Hquiet.
    apply count_events_silent in Hquiet. unfold events in Hquiet.
    unfold main. destruct (inner fuel argv w) as [[[retcode|e|] evs] w']; simpl in *.
    + done.
    + destruct (is_Exception e); [|done]. split; [done|].
      rewrite count_events_app, Hquiet. reflexivity.
    + done. }
  split_and!.
  - exact Hmain.
  - intros retcode evs w' Hinner. by apply inner_Ok_inv in Hinner.
  - intros ARGS0 wa wb w0 w1 w2 r evsa evs1 evs2 Hparse ARGS. by apply inner_runs.
  - intros ARGS w0 w1 retcode evs. apply run_coro_spec.
  - intros ARGS w0 (Hcov & Hbis & Hpat & Hval & Hmeas).
    unfold run_coro. by rewrite Hcov, Hbis, Hpat, Hval, Hmeas.
  - intros ARGS w0 code evs w'. apply primer_spec.
  - intros ARGS0 code evs w' Hparse Hmode Hrun ARGS.
    destruct (inner fuel argv w) as [[[retcode|e|] evs0] w0] eqn:Hinner.
    + destruct Hmain as [Hmain Hquiet]. rewrite Hmain in Hrun. injection Hrun as <- <- <-.
      right.
      apply inner_Ok_inv in Hinner
        as (ARGS1 & evsa & wa & evs1 & w1 & evs2 & Hparse' & Hcoro & _).
      rewrite Hparse in Hparse'. injection Hparse' as <-.
      apply run_coro_spec in Hcoro as [(_ & code & -> & Hprimer)|[Hother _]];
        [|by destruct Hother].
      apply primer_spec in Hprimer
        as (Hcode & projects & new_mypy & old_mypy & new_typeshed & old_typeshed & Hsel & Hiff).
      split; [exact Hcode|]. split; [exact Hquiet|].
      by exists projects, new_mypy, old_mypy, new_typeshed, old_typeshed, w1.
    + destruct (is_Exception e) eqn:He.
      * destruct Hmain as [Hmain Hone]. rewrite Hmain in Hrun. injection Hrun as <- <- <-.
        left. split; [done|]. split; [exact Hone|]. by exists e, evs0.
      * rewrite Hmain in Hrun. discriminate Hrun.
    + rewrite Hmain in Hrun. discriminate Hrun.
Qed.

Lemma C5_witness :
  exists p result,
    p ∈ Scenario.corpus /\ Scenario.compare p = Ok result /\
    counted Example.args result = true /\ diff result <> EmptyString.
Proof.
  destruct (C5_exit_status (L := Scenario.library Example.args)
              (E := Scenario.environment) 0 [] Scenario.start)
    as (_ & _ & _ & _ & _ & _ & Hstatus).
  destruct (Hstatus Example.args 1
              (events (main (L := Scenario.library Example.args)
                         (E := Scenario.environment) 0 [] Scenario.start))
              Scenario.start)
    as [(Hcode & _)|(_ & _ & projects & new_mypy & old_mypy & new_typeshed & old_typeshed
                     & w1 & Hsel & Hiff)].
  - reflexivity.
  - repeat split.
  - vm_compute. reflexivity.
  - discriminate Hcode.
  - destruct (proj1 Hiff eq_refl) as (p & result & Hp & Hresult & Hcounted & Hdiff).
    vm_compute in Hsel. injection Hsel as <-.
    exists p, result. split; [exact Hp|]. split; [exact Hresult|]. by split.
Defined.

(** C5, as stated, fails: with [--old-success], a project whose
    differential result has a diff but whose old run failed is skipped, and
    the exit status is 0. *)
Lemma C5_counterexample :
  let ARGS := Args.mk None None false RevNone None None false None false false false true
                      "full" false false "base" RevNone RevNone RevNone RevNone in
  outcome (main (L := Scenario.library ARGS) (E := Scenario.environment) 0 [] Scenario.start)
  = Ok 0 /\
  select_projects (L := Scenario.library ARGS) ARGS = Ok Scenario.corpus /\
  exists result, Scenario.compare Example.a = Ok result /\ diff result <> EmptyString.
Proof.
  split; [vm_compute; reflexivity|]. split; [reflexivity|].
  eexists. split; [reflexivity | discriminate].
Qed.

(** ** Claims on the empty selection *)

Lemma stops_lift_raise {W A} (P : Event -> bool) (e : exn) :
  stops P (lift (W := W) (A := A) (Raise e)).
Proof. intros w. split; [done | constructor]. Qed.

Lemma stops_bind_l {W A B} (P : Event -> bool) (m : M W A) (f : A -> M W B) :
  stops P m -> stops P (bind m f).
Proof.
  intros Hm w. destruct (Hm w) as [Hout Hev]. unfold bind, outcome, events in *.
  destruct (m w) as [[[a|e|] evs] w1]; simpl in *; [by destruct (Hout a) | done | done].
Qed.

Lemma stops_bind_r {W A B} (P : Event -> bool) (m : M W A) (f : A -> M W B) :
  silent P m -> (forall a, stops P (f a)) -> stops P (bind m f).
Proof.
  intros Hm Hf w. specialize (Hm w). unfold bind, outcome, events in *.
  destruct (m w) as [[[a|e|] evs] w1]; simpl in *; [|done|done].
  destruct (Hf a w1) as [Hout Hev]. unfold outcome, events in *.
  destruct (f a w1) as [[r evs'] w2]; simpl in *. split; [done | by apply Forall_app].
Qed.

Lemma stops_run {W A} (P : Event -> bool) (m : M W A) (w w' : W) (r : Res A)
    (evs : list Event) :
  stops P m -> m w = (r, evs, w') ->
  (forall a, r <> Ok a) /\ count_events P evs = 0%nat.
Proof.
  intros Hm Hrun. destruct (Hm w) as [Hout Hev]. unfold outcome, events in *.
  rewrite Hrun in Hout, Hev. simpl in *. split; [done | by apply count_events_silent].
Qed.

Section EmptySelection.
Context {L : Library} {W : Type} {E : Environment W}.

Lemma primer_stops (ARGS : Args.t) (e : exn) (w : W) :
  select_projects ARGS = Raise e -> primer ARGS w = (Raise e, [], w).
Proof. intros Hsel. unfold primer, bind, lift. by rewrite Hsel. Qed.

Lemma bisect_stops (fuel : nat) (ARGS : Args.t) (e : exn) :
  select_projects ARGS = Raise e -> stops is_project_work (bisect fuel ARGS).
Proof.
  intros Hsel. unfold bisect. apply stops_bind_l. unfold bisect_init. rewrite Hsel.
  repeat first
    [ apply stops_bind_l; apply stops_lift_raise
    | apply stops_bind_r; [unfold_coroutines; silent_auto | intros ?] ].
Qed.

Lemma validate_stops (ARGS : Args.t) (e : exn) :
  select_projects ARGS = Raise e -> stops is_project_work (validate_expected_success ARGS).
Proof.
  intros Hsel. unfold validate_expected_success. rewrite Hsel.
  repeat first
    [ apply stops_bind_l; apply stops_lift_raise
    | apply stops_bind_r; [unfold_coroutines; silent_auto | intros ?] ].
Qed.

Lemma coverage_stops (ARGS : Args.t) (e : exn) :
  select_projects ARGS = Raise e -> stops is_project_work (coverage ARGS).
Proof.
  intros Hsel. unfold coverage. rewrite Hsel.
  apply stops_bind_r; [unfold_coroutines; silent_auto | intros ?].
  apply stops_bind_l, stops_lift_raise.
Qed.

Lemma measure_stops (ARGS : Args.t) (e : exn) :
  select_projects ARGS = Raise e -> stops is_project_work (measure_project_runtimes ARGS).
Proof.
  intros Hsel. unfold measure_project_runtimes. rewrite Hsel.
  apply stops_bind_r; [unfold_coroutines; silent_auto | intros ?].
  apply stops_bind_r; [unfold_coroutines; silent_auto | intros ?].
  apply stops_bind_l, stops_lift_raise.
Qed.

(** The setups of [validate_expected_success], when they succeed, log one
    event each. *)
Lemma gather_setups_events (ARGS : Args.t) (recent : list string) (w w1 : W)
    (exes : list string) (evs : list Event) :
  gather (map (fun recent_mypy =>
                 setup_mypy (path_join (Args.base_dir ARGS) (String.append "mypy_" recent_mypy))
                            (RevStr recent_mypy) false)
              recent) w = (Ok exes, evs, w1) ->
  evs = map (fun recent_mypy =>
               EvSetupMypy (path_join (Args.base_dir ARGS) (String.append "mypy_" recent_mypy))
                           (RevStr recent_mypy) false)
            recent.
Proof.
  revert w w1 exes evs.
  induction recent as [|recent_mypy rest IH]; intros w w1 exes evs; simpl.
  - by intros [= _ <- _].
  - intros Hrun. apply bind_Ok_inv in Hrun as (exe & evs1 & w2 & evs2 & Hsetup & Hrun & ->).
    apply bind_Ok_inv in Hrun as (l & evs3 & w3 & evs4 & Hrest & Hret & ->).
    injection Hret as _ <- _. apply IH in Hrest as ->.
    unfold setup_mypy, call in Hsetup.
    destruct (setup_mypy_ext _ _ _ w) as [r w']. injection Hsetup as _ <- _.
    by rewrite app_nil_r.
Qed.
End EmptySelection.

(** C8, as the code has it.  Selection raises the empty-selection error
    exactly when the criteria select no project (a local project always
    selects one), so a non-empty selection never raises it.  When it is
    raised, [primer] has made no external call at all; [bisect],
    [validate_expected_success], [coverage] and
    [measure_project_runtimes], which set the checker up before they
    select, have started no work on any project, however they end; and
    when the setup of the checker succeeds, all they have done is that
    setup (four setups for [validate_expected_success]) before the error
    ends them. *)
Theorem C8_empty_selection {L : Library} {W : Type} {E : Environment W} (ARGS : Args.t) :
  (select_projects ARGS = Raise (ValueError "No projects selected!") <-> matched ARGS = []) /\
  (matched ARGS = [] ->
   (forall w : W, primer ARGS w = (Raise (ValueError "No projects selected!"), [], w)) /\
   (forall fuel (w w' : W) r evs,
      bisect fuel ARGS w = (r, evs, w') ->
      r <> Ok tt /\ count_events is_project_work evs = 0%nat) /\
   (forall (w w' : W) r evs,
      validate_expected_success ARGS w = (r, evs, w') ->
      r <> Ok tt /\ count_events is_project_work evs = 0%nat) /\
   (forall (w w' : W) r evs,
      coverage ARGS w = (r, evs, w') ->
      r <> Ok tt /\ count_events is_project_work evs = 0%nat) /\
   (forall (w w' : W) r evs,
      measure_project_runtimes ARGS w = (r, evs, w') ->
      r <> Ok tt /\ count_events is_project_work evs = 0%nat) /\
   (forall fuel (w w1 : W) mypy_exe,
      rev_truthy (Args.new_typeshed ARGS) = false ->
      rev_truthy (Args.old_typeshed ARGS) = false ->
      setup_mypy_ext (path_join (Args.base_dir ARGS) "bisect_mypy")
        (revision_or_recent_tag_fn (Args.old_mypy ARGS)) true w = (Ok mypy_exe, w1) ->
      path_is_dir (path_join (path_join (Args.base_dir ARGS) "bisect_mypy") "mypy") w1 = true ->
      bisect fuel ARGS w
      = (Raise (ValueError "No projects selected!"),
         [EvSetupMypy (path_join (Args.base_dir ARGS) "bisect_mypy")
            (revision_or_recent_tag_fn (Args.old_mypy ARGS)) true],
         w1)) /\
   (forall (w w1 : W) recent_mypy_exes evs,
      gather (map (fun recent_mypy =>
                     setup_mypy
                       (path_join (Args.base_dir ARGS) (String.append "mypy_" recent_mypy))
                       (RevStr recent_mypy) false)
                  RECENT_MYPYS) w = (Ok recent_mypy_exes, evs, w1) ->
      validate_expected_success ARGS w
      = (Raise (ValueError "No projects selected!"),
         map (fun recent_mypy =>
                EvSetupMypy (path_join (Args.base_dir ARGS) (String.append "mypy_" recent_mypy))
                            (RevStr recent_mypy) false)
             RECENT_MYPYS,
         w1)) /\
   (forall (w w1 : W) mypy_exe,
      setup_mypy_ext (path_join (Args.base_dir ARGS) "new_mypy") (Args.new_mypy ARGS) false w
      = (Ok mypy_exe, w1) ->
      coverage ARGS w
      = (Raise (ValueError "No projects selected!"),
         [EvSetupMypy (path_join (Args.base_dir ARGS) "new_mypy") (Args.new_mypy ARGS) false],
         w1)) /\
   (forall (w w1 : W) mypy_exe,
      let revision := if rev_truthy (Args.new_mypy ARGS) then Args.new_mypy ARGS
                      else RevStr "0.991" in
      setup_mypy_ext (path_join (Args.base_dir ARGS) "timer_mypy") revision false w
      = (Ok mypy_exe, w1) ->
      measure_project_runtimes ARGS w
      = (Raise (ValueError "No projects selected!"),
         [EvSetupMypy (path_join (Args.base_dir ARGS) "timer_mypy") revision false],
         w1))).
Proof.
  split; [apply select_projects_empty_iff|].
  intros Hempty. apply select_projects_empty_iff in Hempty.
  split_and!.
  - intros w. by apply primer_stops.
  - intros fuel w w' r evs Hrun.
    eapply stops_run in Hrun as [Hout Hev]; [|by eapply bisect_stops]. eauto.
  - intros w w' r evs Hrun.
    eapply stops_run in Hrun as [Hout Hev]; [|by eapply validate_stops]. eauto.
  - intros w w' r evs Hrun.
    eapply stops_run in Hrun as [Hout Hev]; [|by eapply coverage_stops]. eauto.
  - intros w w' r evs Hrun.
    eapply stops_run in Hrun as [Hout Hev]; [|by eapply measure_stops]. eauto.
  - intros fuel w w1 mypy_exe Hnew Hold Hsetup Hdir.
    unfold bisect, bisect_init, setup_mypy, bind, call, read, lift, py_assert, ret, raise.
    rewrite Hnew, Hold. simpl. by rewrite Hsetup, Hdir, Hempty.
  - intros w w1 exes evs Hsetups.
    pose proof (gather_setups_events _ _ _ _ _ _ Hsetups) as Hevs.
    unfold validate_expected_success, bind at 1. rewrite Hsetups.
    unfold bind, lift. rewrite Hempty, <- Hevs. by rewrite app_nil_r.
  - intros w w1 mypy_exe Hsetup.
    unfold coverage, setup_mypy, bind, call, lift. by rewrite Hsetup, Hempty.
  - intros w w1 mypy_exe revision Hsetup. subst revision.
    unfold measure_project_runtimes, setup_mypy, bind, call, lift, ret.
    destruct (rev_truthy (Args.new_mypy ARGS)); simpl; by rewrite Hsetup, Hempty.
Qed.

Lemma C8_witness :
  primer (L := literal_library [] Example.args) (E := Scenario.environment)
    Example.args Scenario.start
  = (Raise (ValueError "No projects selected!"), [], Scenario.start).
Proof.
  apply (proj2 (C8_empty_selection (L := literal_library [] Example.args)
                  (E := Scenario.environment) Example.args)).
  reflexivity.
Defined.

(** C8, as stated, fails: with nothing to select,
    [validate_expected_success] raises the error only after the four
    concurrent setups of the checker have run. *)
Lemma C8_counterexample :
  let ARGS := Args.mk None None false RevNone None None false None false true false false
                      "full" false false "base" RevNone RevNone RevNone RevNone in
  matched (L := literal_library [] ARGS) ARGS = [] /\
  validate_expected_success (L := literal_library [] ARGS) (E := Scenario.environment)
    ARGS Scenario.start
  = (Raise (ValueError "No projects selected!"),
     [EvSetupMypy "base/mypy_0.991" (RevStr "0.991") false;
      EvSetupMypy "base/mypy_0.982" (RevStr "0.982") false;
      EvSetupMypy "base/mypy_0.971" (RevStr "0.971") false;
      EvSetupMypy "base/mypy_0.961" (RevStr "0.961") false],
     Scenario.start).
Proof. split; reflexivity. Qed.

(** ** Bisection over a linear history *)

Lemma runs_bind {W A B} (m : M W A) (f : A -> M W B) (w w1 w2 : W) (a : A) (b : B)
    (evs1 evs2 : list Event) :
  runs m w a evs1 w1 -> runs (f a) w1 b evs2 w2 -> runs (bind m f) w b (evs1 ++ evs2) w2.
Proof. unfold runs, bind. intros -> ->. reflexivity. Qed.

Lemma runs_lift {W A} (r : Res A) (a : A) (w : W) : r = Ok a -> runs (lift r) w a [] w.
Proof. intros ->. reflexivity. Qed.

Lemma half_spec (n : nat) : (2 * (n / 2) <= n <= 2 * (n / 2) + 1)%nat.
Proof.
  pose proof (Nat.div_mod_eq n 2). pose proof (Nat.mod_upper_bound n 2). lia.
Qed.

Lemma str_contains_app (needle s t : string) :
  str_contains needle t = true -> str_contains needle (String.append s t) = true.
Proof.
  intros Ht. induction s as [|c s IH]; simpl; [exact Ht|].
  rewrite IH. apply orb_true_r.
Qed.

Lemma count_turn_run_mypy (mypy_exe : string) (projects : list Project.t) :
  count_events is_turn (map (fun p => EvRunMypy p mypy_exe) projects) = 0%nat.
Proof. induction projects as [|p l IH]; [reflexivity | exact IH]. Qed.

Section LinearFacts.
Context {L : Library} (checker : nat -> Project.t -> MypyResult)
        (compare : Project.t -> Res PrimerResult).

Abbreviation env := (Linear.env checker compare).

Lemma gather_run_wrapper (mypy_exe : string) (projects : list Project.t) (w : Linear.Checkout) :
  runs (gather (map (run_wrapper (E := env) mypy_exe) projects)) w
       (map (fun p => (Project.name p, checker (Linear.head w) p)) projects)
       (map (fun p => EvRunMypy p mypy_exe) projects) w.
Proof.
  unfold runs. induction projects as [|p l IH]; simpl; [reflexivity|].
  unfold bind at 1. unfold run_wrapper at 1. unfold bind at 1, ask, ret. simpl.
  unfold bind at 1. rewrite IH. by rewrite app_nil_r.
Qed.

Lemma verdict_total (ARGS : Args.t) (projects : list Project.t)
    (old new : Project.t -> MypyResult) :
  exists good,
    are_results_good ARGS projects (batch_results old projects) (batch_results new projects)
    = Ok good.
Proof.
  destruct (truthy_str (Args.bisect_output ARGS)) as [pattern|] eqn:Hpat.
  - destruct (pattern_verdict ARGS pattern projects (batch_results old projects)
                (batch_results new projects) Hpat) as (good & Hgood & _).
    { intros p Hp. by apply recorded_is_Some. }
    eauto.
  - destruct (equivalence_verdict ARGS projects (batch_results old projects)
                (batch_results new projects) Hpat) as (good & Hgood & _).
    { intros p Hp. by apply recorded_is_Some. }
    { intros p Hp. by apply recorded_is_Some. }
    eauto.
Qed.

Lemma next_spec (cmd : list string) (w : Linear.Checkout) (g b : nat) :
  Linear.good w = Some g -> Linear.bad w = Some b -> (g < b)%nat ->
  Linear.next cmd w =
  if (Linear.interval_size w =? 1)%nat
  then (Ok (String.append (nth b (Linear.revs w) "") " is the first bad commit"), w)
  else (Ok "Bisecting: revisions left to test", advance w).
Proof.
  intros Hg Hb Hlt. unfold Linear.next, advance, Linear.interval_size. rewrite Hg, Hb.
  destruct (Nat.leb_spec b g); [lia|].
  by destruct (b - g =? 1)%nat.
Qed.

Lemma exec_runs (cmd : list string) (cwd : option string) (w w' : Linear.Checkout)
    (stdout : string) :
  Linear.git cmd cwd w = (Ok stdout, w') ->
  runs (exec (E := env) cmd cwd) w stdout [EvRun cmd cwd] w'.
Proof. intros Hgit. unfold runs, exec, call. simpl. by rewrite Hgit. Qed.

(** One turn of the loop on the linear history. *)
Lemma linear_turn (ARGS : Args.t) (projects : list Project.t) (mypy_exe repo_dir : string)
    (g0 g b : nat) (v : bool) (w : Linear.Checkout) :
  Linear.good w = Some g -> Linear.bad w = Some b ->
  verdict_at checker ARGS projects g0 (Linear.head w) = Ok v ->
  (g <= Linear.head w < b)%nat -> (v = false -> (g < Linear.head w)%nat) ->
  exists evs,
    runs (bisect_step (E := env) ARGS projects mypy_exe repo_dir
            (batch_results (checker g0) projects))
         w (Linear.interval_size (mark v w) =? 1)%nat evs
         (if (Linear.interval_size (mark v w) =? 1)%nat then mark v w else advance (mark v w)) /\
    count_events is_turn evs = 1%nat.
Proof.
  intros Hg Hb Hv Hh Hbad.
  assert (Hnext : forall cmd,
            Linear.next cmd (mark v w) =
            if (Linear.interval_size (mark v w) =? 1)%nat
            then (Ok (String.append (nth (if v then b else Linear.head w) (Linear.revs w) "")
                        " is the first bad commit"), mark v w)
            else (Ok "Bisecting: revisions left to test", advance (mark v w))).
  { intros cmd. destruct v.
    - rewrite (next_spec cmd _ (Linear.head w) b); [done..|lia].
    - rewrite (next_spec cmd _ g (Linear.head w)); [done..|]. by apply Hbad. }
  assert (Hgit : Linear.git ["git"; "bisect"; if v then "good" else "bad"] (Some repo_dir) w
                 = Linear.next ["git"; "bisect"; if v then "good" else "bad"] (mark v w)).
  { by destruct v. }
  rewrite Hnext in Hgit.
  unfold bisect_step.
  destruct (Linear.interval_size (mark v w) =? 1)%nat eqn:Hsize.
  - eexists. split.
    + eapply runs_bind; [by apply exec_runs|].
      eapply runs_bind; [apply gather_run_wrapper|].
      eapply runs_bind; [apply runs_lift; exact Hv|].
      eapply runs_bind; [apply exec_runs; exact Hgit|].
      rewrite str_contains_app by reflexivity.
      eapply runs_bind; reflexivity.
    + rewrite !count_events_app, count_turn_run_mypy. by destruct v.
  - unfold when, debug_results, debug_print. destruct (Args.debug ARGS).
    + eexists. split.
      * eapply runs_bind; [by apply exec_runs|].
        eapply runs_bind; [apply gather_run_wrapper|].
        eapply runs_bind; [apply runs_lift; exact Hv|].
        eapply runs_bind; [apply exec_runs; exact Hgit|].
        change (str_contains "first bad commit" "Bisecting: revisions left to test") with false.
        cbv iota. eapply runs_bind; [|reflexivity].
        eapply runs_bind; [reflexivity|]. eapply runs_bind; reflexivity.
      * rewrite !count_events_app, count_turn_run_mypy. by destruct v.
    + eexists. split.
      * eapply runs_bind; [by apply exec_runs|].
        eapply runs_bind; [apply gather_run_wrapper|].
        eapply runs_bind; [apply runs_lift; exact Hv|].
        eapply runs_bind; [apply exec_runs; exact Hgit|].
        change (str_contains "first bad commit" "Bisecting: revisions left to test") with false.
        cbv iota. eapply runs_bind; reflexivity.
      * rewrite !count_events_app, count_turn_run_mypy. by destruct v.
Qed.

Lemma mark_facts (v : bool) (w : Linear.Checkout) (g b : nat) :
  Linear.good w = Some g -> Linear.bad w = Some b ->
  Linear.good (mark v w) = Some (if v then Linear.head w else g) /\
  Linear.bad (mark v w) = Some (if v then b else Linear.head w) /\
  Linear.interval_size (mark v w)
  = (if v then b - Linear.head w else Linear.head w - g)%nat.
Proof.
  intros Hg Hb. unfold mark, Linear.interval_size.
  destruct v; simpl; rewrite ?Hg, ?Hb; done.
Qed.

Lemma advance_facts (w : Linear.Checkout) (g b : nat) :
  Linear.good w = Some g -> Linear.bad w = Some b -> (b - g)%nat <> 1%nat ->
  Linear.good (advance w) = Some g /\ Linear.bad (advance w) = Some b /\
  Linear.head (advance w) = (g + (b - g) / 2)%nat.
Proof.
  intros Hg Hb Hne. unfold advance, Linear.interval_size. rewrite Hg, Hb.
  destruct (Nat.eqb_spec (b - g) 1); [done|]. simpl. done.
Qed.

(** The loop from a checkout in which the midpoint of an interval of at
    least two candidates is checked out: it returns within [j] turns when
    the interval has at most [2 ^ j] candidates. *)
Lemma linear_loop (ARGS : Args.t) (projects : list Project.t) (mypy_exe repo_dir : string)
    (g0 j : nat) (w : Linear.Checkout) (g b : nat) :
  Linear.good w = Some g -> Linear.bad w = Some b ->
  (g < Linear.head w < b)%nat -> Linear.head w = (g + (b - g) / 2)%nat ->
  (b - g <= 2 ^ j)%nat ->
  exists k evs w',
    (1 <= k <= j)%nat /\
    (forall fuel, (k <= fuel)%nat ->
       runs (bisect_loop (E := env) fuel ARGS projects mypy_exe repo_dir
               (batch_results (checker g0) projects)) w tt evs w') /\
    count_events is_turn evs = k /\
    Linear.interval_size w' = 1%nat.
Proof.
  revert w g b. induction j as [|j IH]; intros w g b Hg Hb Hh Hmid Hpow.
  { simpl in Hpow. lia. }
  destruct (verdict_total ARGS projects (checker g0) (checker (Linear.head w))) as [v Hv].
  destruct (linear_turn ARGS projects mypy_exe repo_dir g0 g b v w Hg Hb Hv)
    as (evs1 & Hturn & Hcount1); [lia | lia |].
  destruct (mark_facts v w g b Hg Hb) as (Hg1 & Hb1 & Hsize).
  rewrite Nat.pow_succ_r' in Hpow.
  destruct (Linear.interval_size (mark v w) =? 1)%nat eqn:Hone.
  - apply Nat.eqb_eq in Hone.
    exists 1%nat, (evs1 ++ []), (mark v w). split; [lia|]. split; [|split].
    + intros [|fuel] Hfuel; [lia|]. simpl.
      eapply runs_bind; [exact Hturn | reflexivity].
    + by rewrite app_nil_r.
    + exact Hone.
  - apply Nat.eqb_neq in Hone. rewrite Hsize in Hone.
    destruct (advance_facts (mark v w) _ _ Hg1 Hb1) as (Hg2 & Hb2 & Hh2).
    { destruct v; exact Hone. }
    destruct (IH (advance (mark v w)) _ _ Hg2 Hb2)
      as (k & evs2 & w' & Hk & Hloop & Hcount2 & Hfinal).
    + rewrite Hh2. pose proof (half_spec (b - Linear.head w)).
      pose proof (half_spec (Linear.head w - g)).
      destruct v; cbv iota in *; lia.
    + exact Hh2.
    + pose proof (half_spec (b - g)). destruct v; cbv iota in *; lia.
    + exists (S k), (evs1 ++ evs2), w'. split; [lia|]. split; [|split].
      * intros [|fuel] Hfuel; [lia|]. simpl.
        eapply runs_bind; [exact Hturn|]. apply Hloop. lia.
      * rewrite count_events_app, Hcount1, Hcount2. reflexivity.
      * exact Hfinal.
Qed.

Lemma project_setups_run (projects : list Project.t) (w : Linear.Checkout) :
  runs (run_detached
          (map (fun project => call (EvProjectSetup project)
                                    (project_setup_ext (Environment := env) project))
               projects))
       w tt (map EvProjectSetup projects) w.
Proof.
  unfold runs. induction projects as [|p l IH]; [reflexivity|].
  cbn [map run_detached]. unfold call at 1.
  cbn [project_setup_ext Linear.env] in IH |- *. by rewrite IH.
Qed.

Lemma resolve_revs (revision : RevisionLike) (w w' : Linear.Checkout) :
  Linear.revs w' = Linear.revs w -> Linear.resolve revision w' = Linear.resolve revision w.
Proof. intros Hrevs. unfold Linear.resolve. by rewrite Hrevs. Qed.

(** The initialization of [bisect] on the linear history, between the
    revisions numbered [g0] and [b0]. *)
Lemma linear_init (ARGS : Args.t) (projects : list Project.t) (old_rev new_rev : string)
    (g0 b0 : nat) (w : Linear.Checkout) :
  rev_truthy (Args.new_typeshed ARGS) = false ->
  rev_truthy (Args.old_typeshed ARGS) = false ->
  revision_or_recent_tag_fn (Args.old_mypy ARGS) = RevStr old_rev ->
  Linear.index_of old_rev (Linear.revs w) = Some g0 ->
  Linear.resolve (if rev_truthy (Args.new_mypy ARGS) then Args.new_mypy ARGS
                  else RevStr "origin/HEAD") w = Ok new_rev ->
  Linear.index_of new_rev (Linear.revs w) = Some b0 ->
  select_projects ARGS = Ok projects -> projects <> [] ->
  (g0 < b0)%nat ->
  exists evs mypy_exe repo_dir,
    runs (bisect_init (E := env) ARGS) w
         (projects, mypy_exe, repo_dir, batch_results (checker g0) projects) evs
         (if (b0 - g0 =? 1)%nat
          then Linear.mk (Linear.revs w) g0 (Some g0) (Some b0)
          else advance (Linear.mk (Linear.revs w) g0 (Some g0) (Some b0))).
Proof.
  intros Hnt Hot Hold Hg0 Hnew Hb0 Hsel Hne Hlt.
  assert (Hsetup : forall dir,
            runs (setup_mypy (E := env) dir (RevStr old_rev) true) w
                 (path_join dir "venv/bin/mypy") [EvSetupMypy dir (RevStr old_rev) true]
                 (Linear.set_head w g0)).
  { intros dir. unfold runs, setup_mypy, call. simpl. by rewrite Hg0. }
  assert (Hbad : Linear.git ["git"; "bisect"; "bad"; new_rev]
                   (Some (path_join (path_join (Args.base_dir ARGS) "bisect_mypy") "mypy"))
                   (Linear.mk (Linear.revs w) g0 (Some g0) None)
                 = if (b0 - g0 =? 1)%nat
                   then (Ok (String.append (nth b0 (Linear.revs w) "") " is the first bad commit"),
                         Linear.mk (Linear.revs w) g0 (Some g0) (Some b0))
                   else (Ok "Bisecting: revisions left to test",
                         advance (Linear.mk (Linear.revs w) g0 (Some g0) (Some b0)))).
  { simpl. rewrite Hb0.
    by rewrite (next_spec _ (Linear.mk (Linear.revs w) g0 (Some g0) (Some b0)) g0 b0). }
  unfold bisect_init. rewrite Hnt, Hot, Hold, Hsel. simpl negb.
  unfold when, debug_results, debug_print.
  destruct projects as [|p l]; [done|].
  destruct (Args.debug ARGS), (b0 - g0 =? 1)%nat; do 3 eexists.
  all: eapply runs_bind; [reflexivity|].
  all: eapply runs_bind; [reflexivity|].
  all: eapply runs_bind; [apply Hsetup|].
  all: eapply runs_bind; [reflexivity|].
  all: eapply runs_bind; [reflexivity|].
  all: eapply runs_bind; [reflexivity|].
  all: eapply runs_bind; [apply (project_setups_run (p :: l))|].
  all: eapply runs_bind; [apply gather_run_wrapper|].
  all: eapply runs_bind;
    [first [reflexivity | eapply runs_bind; reflexivity]|].
  all: eapply runs_bind; [by apply exec_runs|].
  all: eapply runs_bind; [by apply exec_runs|].
  all: eapply runs_bind;
    [unfold runs, ask; cbn [get_revision_ext Linear.env];
     rewrite (resolve_revs _ w) by reflexivity; rewrite Hnew; reflexivity|].
  all: eapply runs_bind; [apply exec_runs; exact Hbad|].
  all: reflexivity.
Qed.
End LinearFacts.

(** A turn of the loop ends in [return] exactly when the report of its
    [git bisect] command contains the signal. *)
Lemma bisect_step_returns {L : Library} {W : Type} {E : Environment W}
    (ARGS : Args.t) (projects : list Project.t) (mypy_exe repo_dir : string)
    (old_results : list (string * MypyResult)) (w w' : W) (returned : bool)
    (evs : list Event) :
  bisect_step ARGS projects mypy_exe repo_dir old_results w = (Ok returned, evs, w') ->
  exists state stdout w1,
    (state = "good" \/ state = "bad") /\
    In (EvRun ["git"; "bisect"; state] (Some repo_dir)) evs /\
    run_ext ["git"; "bisect"; state] (Some repo_dir) w1 = (Ok stdout, w') /\
    returned = str_contains "first bad commit" stdout.
Proof.
  intros Hrun. unfold bisect_step in Hrun.
  apply bind_Ok_inv in Hrun as (? & evs1 & w1 & ? & _ & Hrun & ->).
  apply bind_Ok_inv in Hrun as (results & evs2 & w2 & ? & _ & Hrun & ->).
  apply bind_Ok_inv in Hrun as (good & evs3 & w3 & ? & _ & Hrun & ->).
  apply bind_Ok_inv in Hrun as (stdout & evs4 & w4 & evs5 & Hgit & Hrun & ->).
  unfold exec, call in Hgit.
  destruct (run_ext _ _ w3) as [r w5] eqn:Hext. injection Hgit as -> <- <-.
  exists (if good then "good" else "bad"), stdout, w3.
  split; [destruct good; auto|]. split.
  { rewrite !in_app_iff. right. right. right. left. by left. }
  destruct (str_contains "first bad commit" stdout).
  - unfold print, emit, bind, ret in Hrun. injection Hrun as <- _ <-. by rewrite Hext.
  - unfold when, debug_results, debug_print, emit, bind, ret in Hrun.
    destruct (Args.debug ARGS); injection Hrun as <- _ <-; by rewrite Hext.
Qed.

Section LinearBisect.
Context {L : Library} (checker : nat -> Project.t -> MypyResult)
        (compare : Project.t -> Res PrimerResult).

Abbreviation lenv := (Linear.env checker compare).

(** A turn taken with the midpoint of the interval checked out narrows the
    interval, and ends the loop exactly when one candidate is left. *)
Lemma linear_turn_narrows (ARGS : Args.t) (projects : list Project.t)
    (mypy_exe repo_dir : string) (g0 g b : nat) (w : Linear.Checkout) :
  Linear.good w = Some g -> Linear.bad w = Some b -> (g < Linear.head w < b)%nat ->
  exists returned evs w',
    runs (bisect_step (E := lenv) ARGS projects mypy_exe repo_dir
            (batch_results (checker g0) projects)) w returned evs w' /\
    (Linear.interval_size w' < Linear.interval_size w)%nat /\
    (returned = true <-> Linear.interval_size w' = 1%nat).
Proof.
  intros Hg Hb Hh.
  destruct (verdict_total ARGS projects (checker g0) (checker (Linear.head w))) as [v Hv].
  destruct (linear_turn checker compare ARGS projects mypy_exe repo_dir g0 g b v w Hg Hb Hv)
    as (evs & Hturn & _); [lia | lia |].
  destruct (mark_facts v w g b Hg Hb) as (Hg1 & Hb1 & Hsize).
  do 3 eexists. split; [exact Hturn|].
  assert (Hw : Linear.interval_size w = (b - g)%nat).
  { unfold Linear.interval_size. by rewrite Hg, Hb. }
  destruct (Nat.eqb_spec (Linear.interval_size (mark v w)) 1) as [Hone|Hone].
  - split; [|done]. rewrite Hw, Hone. lia.
  - rewrite Hsize in Hone.
    destruct (advance_facts (mark v w) _ _ Hg1 Hb1) as (Hg2 & Hb2 & _).
    { destruct v; exact Hone. }
    assert (Hw' : Linear.interval_size (advance (mark v w))
                  = (if v then b - Linear.head w else Linear.head w - g)%nat).
    { unfold Linear.interval_size. rewrite Hg2, Hb2. by destruct v. }
    rewrite Hw', Hw. split; [destruct v; lia|]. split; [done|].
    intros Heq. destruct v; by rewrite Heq in Hone.
Qed.

(** The whole of [bisect] between the revisions numbered [g0] and [b0]. *)
Lemma linear_bisect (ARGS : Args.t) (projects : list Project.t) (old_rev new_rev : string)
    (g0 b0 : nat) (w : Linear.Checkout) :
  rev_truthy (Args.new_typeshed ARGS) = false ->
  rev_truthy (Args.old_typeshed ARGS) = false ->
  revision_or_recent_tag_fn (Args.old_mypy ARGS) = RevStr old_rev ->
  Linear.index_of old_rev (Linear.revs w) = Some g0 ->
  Linear.resolve (if rev_truthy (Args.new_mypy ARGS) then Args.new_mypy ARGS
                  else RevStr "origin/HEAD") w = Ok new_rev ->
  Linear.index_of new_rev (Linear.revs w) = Some b0 ->
  select_projects ARGS = Ok projects -> projects <> [] ->
  (g0 < b0)%nat ->
  verdict_at checker ARGS projects g0 g0 = Ok true ->
  exists k evs w',
    (forall fuel, (k <= fuel)%nat -> runs (bisect (E := lenv) fuel ARGS) w tt evs w') /\
    count_events is_turn evs = k /\
    (1 <= k)%nat /\
    Z.of_nat k <= Z.max 1 (Z.log2_up (Z.of_nat (b0 - g0))) /\
    Linear.interval_size w' = 1%nat.
Proof.
  intros Hnt Hot Hold Hg0 Hnew Hb0 Hsel Hne Hlt Hgood.
  destruct (linear_init checker compare ARGS projects old_rev new_rev g0 b0 w)
    as (evs0 & mypy_exe & repo_dir & Hinit); try done.
  assert (Hquiet : count_events is_turn evs0 = 0%nat).
  { apply count_events_silent. pose proof (bisect_init_no_turn (E := lenv) ARGS w) as Hs.
    unfold events in Hs. unfold runs in Hinit. by rewrite Hinit in Hs. }
  set (w0 := Linear.mk (Linear.revs w) g0 (Some g0) (Some b0)) in *.
  assert (Hloop : exists k evs w',
            (1 <= k)%nat /\ Z.of_nat k <= Z.max 1 (Z.log2_up (Z.of_nat (b0 - g0))) /\
            (forall fuel, (k <= fuel)%nat ->
               runs (bisect_loop (E := lenv) fuel ARGS projects mypy_exe repo_dir
                       (batch_results (checker g0) projects))
                    (if (b0 - g0 =? 1)%nat then w0 else advance w0) tt evs w') /\
            count_events is_turn evs = k /\ Linear.interval_size w' = 1%nat).
  { destruct (Nat.eqb_spec (b0 - g0) 1) as [Hone|Hone].
    - destruct (linear_turn checker compare ARGS projects mypy_exe repo_dir g0 g0 b0 true w0
                  eq_refl eq_refl Hgood) as (evs1 & Hturn & Hcount);
        [simpl; lia | done |].
      assert (Hsize : Linear.interval_size (mark true w0) = 1%nat) by exact Hone.
      rewrite Hsize in Hturn. simpl in Hturn.
      exists 1%nat, (evs1 ++ []), (mark true w0).
      split; [lia|]. split; [lia|]. split; [|split].
      + intros [|fuel] Hfuel; [lia|]. simpl.
        eapply runs_bind; [exact Hturn | reflexivity].
      + by rewrite app_nil_r.
      + exact Hsize.
    - destruct (advance_facts w0 g0 b0) as (Hg1 & Hb1 & Hh1); try done.
      pose proof (half_spec (b0 - g0)) as Hhalf.
      destruct (linear_loop checker compare ARGS projects mypy_exe repo_dir g0
                  (Z.to_nat (Z.log2_up (Z.of_nat (b0 - g0)))) (advance w0) g0 b0)
        as (k & evs1 & w' & Hk & Hrun & Hcount & Hfinal); try done.
      + rewrite Hh1. lia.
      + apply Nat2Z.inj_le. rewrite Nat2Z.inj_pow, Z2Nat.id by apply Z.log2_up_nonneg.
        apply Z.log2_up_spec. lia.
      + exists k, evs1, w'. split; [lia|]. split; [|done].
        pose proof (Z.log2_up_nonneg (Z.of_nat (b0 - g0))). lia. }
  destruct Hloop as (k & evs1 & w' & Hk1 & Hk2 & Hrun & Hcount & Hfinal).
  exists k, (evs0 ++ [] ++ [] ++ evs1), w'. split; [|split; [|done]].
  - intros fuel Hfuel. unfold bisect.
    eapply runs_bind; [exact Hinit|].
    eapply runs_bind; [apply runs_lift; exact Hgood|].
    eapply runs_bind; [reflexivity|]. by apply Hrun.
  - rewrite count_events_app, Hquiet. simpl. exact Hcount.
Qed.
End LinearBisect.

(** C4, as the code has it, over the bisection primitive modelled as a
    binary search on a linear history.  A turn of the loop ends in
    [return] exactly when the report of its [git bisect] command contains
    "first bad commit".  A turn taken while at least two candidates are
    left narrows the interval strictly, and ends the loop exactly when one
    candidate is left.  When no external call fails, [bisect] between a
    good revision and a later revision returns after at least one turn and
    at most [max 1 (ceil (log2 n))] turns, [n] being the number of
    candidates: the loop tests its exit at the end of a turn, so one turn
    is also taken when the interval has a single candidate from the
    start. *)
Theorem C4_bisection_turns {L : Library} (checker : nat -> Project.t -> MypyResult)
    (compare : Project.t -> Res PrimerResult) (ARGS : Args.t) (projects : list Project.t)
    (mypy_exe repo_dir : string) :
  (forall old_results (w w' : Linear.Checkout) returned evs,
     bisect_step (E := Linear.env checker compare) ARGS projects mypy_exe repo_dir
       old_results w = (Ok returned, evs, w') ->
     exists state stdout w1,
       (state = "good" \/ state = "bad") /\
       In (EvRun ["git"; "bisect"; state] (Some repo_dir)) evs /\
       Linear.git ["git"; "bisect"; state] (Some repo_dir) w1 = (Ok stdout, w') /\
       returned = str_contains "first bad commit" stdout) /\
  (forall g0 g b (w : Linear.Checkout),
     Linear.good w = Some g -> Linear.bad w = Some b -> (g < Linear.head w < b)%nat ->
     exists returned evs w',
       runs (bisect_step (E := Linear.env checker compare) ARGS projects mypy_exe repo_dir
               (batch_results (checker g0) projects)) w returned evs w' /\
       (Linear.interval_size w' < Linear.interval_size w)%nat /\
       (returned = true <-> Linear.interval_size w' = 1%nat)) /\
  (forall old_rev new_rev g0 b0 (w : Linear.Checkout),
     rev_truthy (Args.new_typeshed ARGS) = false ->
     rev_truthy (Args.old_typeshed ARGS) = false ->
     revision_or_recent_tag_fn (Args.old_mypy ARGS) = RevStr old_rev ->
     Linear.index_of old_rev (Linear.revs w) = Some g0 ->
     Linear.resolve (if rev_truthy (Args.new_mypy ARGS) then Args.new_mypy ARGS
                     else RevStr "origin/HEAD") w = Ok new_rev ->
     Linear.index_of new_rev (Linear.revs w) = Some b0 ->
     select_projects ARGS = Ok projects -> projects <> [] ->
     (g0 < b0)%nat ->
     verdict_at checker ARGS projects g0 g0 = Ok true ->
     exists k evs w',
       (forall fuel, (k <= fuel)%nat ->
          runs (bisect (E := Linear.env checker compare) fuel ARGS) w tt evs w') /\
       count_events is_turn evs = k /\
       (1 <= k)%nat /\
       Z.of_nat k <= Z.max 1 (Z.log2_up (Z.of_nat (b0 - g0))) /\
       Linear.interval_size w' = 1%nat).
Proof.
  split; [|split].
  - intros old_results w w' returned evs Hrun.
    exact (bisect_step_returns (E := Linear.env checker compare) _ _ _ _ _ _ _ _ _ Hrun).
  - intros g0 g b w. apply linear_turn_narrows.
  - intros old_rev new_rev g0 b0 w. by apply linear_bisect.
Qed.

(** Scenario 4 of the specification: four candidates, of which the third
    is the first bad one, are bisected in two turns. *)
Lemma C4_witness :
  exists evs w',
    runs (bisect (L := Scenario.library Example.args) (E := Scenario.environment) 2
            (Scenario.args_bisect "r0" "r4" None)) Scenario.start tt evs w' /\
    count_events is_turn evs = 2%nat /\
    Linear.interval_size w' = 1%nat /\ Linear.bad w' = Some 3%nat.
Proof.
  destruct (C4_bisection_turns (L := Scenario.library Example.args)
              Scenario.checker Scenario.compare (Scenario.args_bisect "r0" "r4" None)
              Scenario.corpus "" "") as (_ & _ & Hrun).
  destruct (Hrun "r0" "r4" 0%nat 4%nat Scenario.start)
    as (k & evs & w' & Hfuel & Hcount & Hk1 & Hk2 & Hsize);
    [reflexivity | reflexivity | reflexivity | reflexivity | reflexivity | reflexivity
    | reflexivity | discriminate | lia | vm_compute; reflexivity |].
  change (Z.log2_up (Z.of_nat (4 - 0))) with 2 in Hk2.
  assert (Hfuel2 := Hfuel 2%nat ltac:(lia)).
  exists evs, w'. split; [exact Hfuel2|].
  unfold runs in Hfuel2. vm_compute in Hfuel2.
  injection Hfuel2 as <- <-. vm_compute. auto.
Defined.

(** C4, as stated, fails: bisecting between a revision and the next one
    starts with one candidate, which is the first bad revision, and the
    loop still takes a turn, more than [ceil (log2 1) = 0] turns, after
    which the interval is as large as before. *)
Lemma C4_counterexample :
  let ARGS := Scenario.args_bisect "r2" "r3" None in
  let init := bisect_init (L := Scenario.library Example.args) (E := Scenario.environment)
                ARGS Scenario.start in
  let run := bisect (L := Scenario.library Example.args) (E := Scenario.environment)
               5 ARGS Scenario.start in
  Linear.interval_size (snd init) = 1%nat /\
  outcome run = Ok tt /\
  count_events is_turn (events run) = 1%nat /\
  ~ (Z.of_nat (count_events is_turn (events run))
     <= Z.log2_up (Z.of_nat (Linear.interval_size (snd init)))) /\
  ~ (Linear.interval_size (snd run) < Linear.interval_size (snd init))%nat.
Proof.
  intros ARGS init run.
  assert (Hinit : Linear.interval_size (snd init) = 1%nat) by (vm_compute; reflexivity).
  assert (Hout : outcome run = Ok tt) by (vm_compute; reflexivity).
  assert (Hturns : count_events is_turn (events run) = 1%nat) by (vm_compute; reflexivity).
  assert (Hafter : Linear.interval_size (snd run) = 1%nat) by (vm_compute; reflexivity).
  rewrite Hinit, Hturns, Hafter. change (Z.of_nat 1) with 1. rewrite Z.log2_up_1.
  repeat split; try done; lia.
Qed.

(** * Further properties *)

(** ** Selection *)

Lemma filter_sublist {A} (f : A -> bool) (l : list A) : sublist (List.filter f l) l.
Proof.
  induction l as [|x l IH]; simpl; [constructor|].
  destruct (f x); by constructor.
Qed.

(** X1. Without a local project and without sharding, a selection that is
    not empty is answered as it is: the projects of the corpus that pass
    the selector (matched on the location, case ignored) and the
    expected-success filter, in the order of the corpus, each with its
    revision replaced by the project date when one is given. *)
Theorem X1_selection_is_filtered_corpus {L : Library} (ARGS : Args.t) :
  truthy_str (Args.local_project ARGS) = None ->
  truthy_int (Args.num_shards ARGS) = None ->
  filtered_projects ARGS <> [] ->
  select_projects ARGS = Ok (filtered_projects ARGS) /\
  (exists kept,
     sublist kept get_projects /\
     filtered_projects ARGS =
     map (fun q => if rev_truthy (Args.project_date ARGS)
                   then Project.replace_revision q (Args.project_date ARGS) else q) kept /\
     forall q, q ∈ kept <->
       q ∈ get_projects /\
       (forall sel, truthy_str (Args.project_selector ARGS) = Some sel ->
                    re_search sel (Project.location q) true = true) /\
       (Args.expected_success ARGS = true -> Project.expected_success q = true)).
Proof.
  intros Hlocal Hshards Hne. split.
  - unfold select_projects. rewrite Hlocal, Hshards.
    by destruct (filtered_projects ARGS).
  - unfold filtered_projects.
    set (by_selector := match truthy_str (Args.project_selector ARGS) with
                        | Some sel =>
                            List.filter (fun p => re_search sel (Project.location p) true)
                                        get_projects
                        | None => get_projects
                        end).
    set (kept := if Args.expected_success ARGS
                 then List.filter (fun p => Project.expected_success p) by_selector
                 else by_selector).
    exists kept. split; [|split].
    + transitivity by_selector.
      * unfold kept. destruct (Args.expected_success ARGS); [apply filter_sublist | done].
      * unfold by_selector.
        destruct (truthy_str (Args.project_selector ARGS)); [apply filter_sublist | done].
    + destruct (rev_truthy (Args.project_date ARGS)); [done|]. by rewrite map_id.
    + intros q. unfold kept, by_selector.
      destruct (truthy_str (Args.project_selector ARGS)) as [sel|],
               (Args.expected_success ARGS);
        rewrite ?list_elem_of_In, ?filter_In, <- ?list_elem_of_In.
      * split.
        -- intros [[Hq Hs] He]. split; [done|]. split; [by intros ? [= <-] | done].
        -- intros (Hq & Hs & He). split; [split; [done | by apply Hs] | by apply He].
      * split.
        -- intros [Hq Hs]. split; [done|]. split; [by intros ? [= <-] | done].
        -- intros (Hq & Hs & _). split; [done | by apply Hs].
      * split.
        -- intros [Hq He]. split; [done|]. split; [done | done].
        -- intros (Hq & _ & He). split; [done | by apply He].
      * split; [intros Hq; split; [done|]; split; done | by intros (Hq & _)].
Qed.

Lemma X1_witness :
  select_projects (L := literal_library Scenario.corpus Example.args)
    (Args.mk None (Some "A") false (RevStr "2020-01-01") None None false None false false false
             false "full" false false "base" RevNone RevNone RevNone RevNone)
  = Ok [Project.mk "a" "a" (RevStr "2020-01-01") false 5].
Proof.
  match goal with
  | |- select_projects ?A = _ =>
      rewrite (proj1 (X1_selection_is_filtered_corpus
                        (L := literal_library Scenario.corpus Example.args) A
                        eq_refl eq_refl ltac:(discriminate)))
  end.
  reflexivity.
Defined.

(** ** Sharding *)

Lemma partition_shards_ok (projects : list Project.t) (num_shards : Z) :
  1 <= num_shards ->
  exists shards,
    partition_shards num_shards projects = Ok (map total_cost shards, shards) /\
    length shards = Z.to_nat num_shards /\
    Permutation (concat shards) projects.
Proof.
  intros HN. unfold partition_shards.
  destruct (assign_shards_spec (sorted_reverse projects)
              (replicate (Z.to_nat num_shards) [])) as (shards & Hrun & _ & Hlen & Hperm).
  { destruct (Z.to_nat num_shards) eqn:En; [lia | done]. }
  rewrite map_total_cost_replicate in Hrun.
  rewrite concat_replicate_nil in Hperm. simpl in Hperm.
  rewrite sorted_reverse_perm in Hperm.
  exists shards. by rewrite Hlen, length_replicate in *.
Qed.

Lemma py_getitem_negative {A} (l : list A) (i : Z) (x : A) :
  - Z.of_nat (length l) <= i < 0 ->
  l !! Z.to_nat (i + Z.of_nat (length l)) = Some x -> py_getitem l i = Ok x.
Proof.
  intros Hi Hx. unfold py_getitem.
  destruct (Z.ltb_spec i 0); [|lia].
  destruct (Z.leb_spec 0 (i + Z.of_nat (length l))); [|lia].
  destruct (Z.ltb_spec (i + Z.of_nat (length l)) (Z.of_nat (length l))); [|lia].
  simpl. by rewrite Hx.
Qed.

Lemma py_getitem_out_of_range {A} (l : list A) (i : Z) :
  i < - Z.of_nat (length l) \/ Z.of_nat (length l) <= i -> py_getitem l i = Raise IndexError.
Proof.
  intros Hi. unfold py_getitem.
  destruct (Z.ltb_spec i 0).
  - destruct (Z.leb_spec 0 (i + Z.of_nat (length l))); [lia | done].
  - destruct (Z.leb_spec 0 i); [|lia].
    destruct (Z.ltb_spec i (Z.of_nat (length l))); [lia | done].
Qed.

(** X2. With sharding on, the shard index is a Python list index into the
    [N] shards: an index from [0] to [N - 1] names that shard, an index
    from [-N] to [-1] counts from the last shard, and any other index
    raises [IndexError]. *)
Theorem X2_shard_index {L : Library} (ARGS : Args.t) (num_shards shard_index : Z)
    (projects : list Project.t) :
  truthy_str (Args.local_project ARGS) = None ->
  filtered_projects ARGS = projects -> projects <> [] ->
  Args.num_shards ARGS = Some num_shards -> 1 <= num_shards ->
  Args.shard_index ARGS = Some shard_index ->
  exists shards,
    partition_shards num_shards projects = Ok (map total_cost shards, shards) /\
    length shards = Z.to_nat num_shards /\
    (0 <= shard_index < num_shards ->
     exists shard, shards !! Z.to_nat shard_index = Some shard /\
                   select_projects ARGS = Ok shard) /\
    (- num_shards <= shard_index < 0 ->
     exists shard, shards !! Z.to_nat (shard_index + num_shards) = Some shard /\
                   select_projects ARGS = Ok shard) /\
    (shard_index < - num_shards \/ num_shards <= shard_index ->
     select_projects ARGS = Raise IndexError).
Proof.
  intros Hlocal Hfiltered Hne Hnum HN Hidx.
  destruct (partition_shards_ok projects num_shards HN) as (shards & Hrun & Hlen & _).
  exists shards. split; [exact Hrun|]. split; [exact Hlen|].
  rewrite (select_projects_shard ARGS num_shards shard_index projects) by (done || lia).
  rewrite Hrun. simpl.
  split; [|split].
  - intros Hrange.
    destruct (lookup_lt_is_Some_2 shards (Z.to_nat shard_index)) as [shard Hshard]; [lia|].
    exists shard. split; [done|]. by apply py_getitem_lookup; [lia|].
  - intros Hrange.
    destruct (lookup_lt_is_Some_2 shards (Z.to_nat (shard_index + num_shards)))
      as [shard Hshard]; [lia|].
    exists shard. split; [done|].
    apply py_getitem_negative; [lia|].
    replace (Z.of_nat (length shards)) with num_shards by lia. done.
  - intros Hrange. apply py_getitem_out_of_range. lia.
Qed.

Lemma X2_witness :
  select_projects (L := literal_library Scenario.corpus Example.args)
    (Args.mk None None false RevNone (Some 2) (Some (-1)) false None false false false
             false "full" false false "base" RevNone RevNone RevNone RevNone)
  = Ok [Example.b; Example.c] /\
  select_projects (L := literal_library Scenario.corpus Example.args)
    (Args.mk None None false RevNone (Some 2) (Some 2) false None false false false
             false "full" false false "base" RevNone RevNone RevNone RevNone)
  = Raise IndexError.
Proof.
  split.
  - match goal with
    | |- select_projects ?A = _ =>
        destruct (X2_shard_index (L := literal_library Scenario.corpus Example.args) A
                    2 (-1) Scenario.corpus eq_refl eq_refl ltac:(discriminate) eq_refl
                    ltac:(lia) eq_refl) as (shards & Hrun & _ & _ & Hneg & _)
    end.
    destruct (Hneg ltac:(lia)) as (shard & Hshard & ->).
    assert (Hp : partition_shards 2 Scenario.corpus
                 = Ok ([5; 5], [[Example.a]; [Example.b; Example.c]])) by reflexivity.
    rewrite Hp in Hrun. injection Hrun as _ <-.
    simpl in Hshard. by injection Hshard as <-.
  - match goal with
    | |- select_projects ?A = _ =>
        destruct (X2_shard_index (L := literal_library Scenario.corpus Example.args) A
                    2 2 Scenario.corpus eq_refl eq_refl ltac:(discriminate) eq_refl
                    ltac:(lia) eq_refl) as (shards & _ & _ & _ & _ & Hout)
    end.
    apply Hout. lia.
Defined.

(** X3. With sharding on and a selection that is not empty, a missing
    shard index is an [AssertionError], and a negative number of shards
    is the [ValueError] of [min] on an empty range; a number of shards of
    zero turns sharding off, whatever the shard index is. *)
Theorem X3_sharding_errors {L : Library} (ARGS : Args.t) (num_shards : Z)
    (projects : list Project.t) :
  truthy_str (Args.local_project ARGS) = None ->
  filtered_projects ARGS = projects -> projects <> [] ->
  Args.num_shards ARGS = Some num_shards ->
  (num_shards <> 0 -> Args.shard_index ARGS = None ->
   select_projects ARGS = Raise AssertionError) /\
  (num_shards < 0 -> Args.shard_index ARGS <> None ->
   exists msg, select_projects ARGS = Raise (ValueError msg)) /\
  (num_shards = 0 -> select_projects ARGS = Ok projects).
Proof.
  intros Hlocal Hfiltered Hne Hnum. unfold select_projects.
  rewrite Hlocal, Hfiltered, Hnum. destruct projects as [|p l]; [done|]. simpl.
  split; [|split].
  - intros Hnz Hidx. destruct (Z.eqb_spec num_shards 0); [done|]. by rewrite Hidx.
  - intros Hneg Hidx. destruct (Z.eqb_spec num_shards 0); [lia|].
    destruct (Args.shard_index ARGS); [|done].
    unfold partition_shards. replace (Z.to_nat num_shards) with 0%nat by lia.
    simpl. eexists. by destruct (insert_desc p (sorted_reverse l)) eqn:Hs;
      [apply (f_equal length) in Hs; rewrite (Permutation_length (insert_desc_perm _ _)) in Hs|].
  - intros ->. done.
Qed.

Lemma X3_witness :
  exists msg,
    select_projects (L := literal_library Scenario.corpus Example.args)
      (Args.mk None None false RevNone (Some (-2)) (Some 0) false None false false false
               false "full" false false "base" RevNone RevNone RevNone RevNone)
    = Raise (ValueError msg).
Proof.
  match goal with
  | |- exists _, select_projects ?A = _ =>
      apply (X3_sharding_errors (L := literal_library Scenario.corpus Example.args) A
               (-2) Scenario.corpus eq_refl eq_refl ltac:(discriminate) eq_refl)
  end; [lia | discriminate].
Defined.

Lemma shard_ok_append (p : Project.t) (ps shard : list Project.t) :
  StronglySorted lpt_order (p :: ps) -> shard_ok (p :: ps) shard -> shard_ok ps (shard ++ [p]).
Proof.
  intros Hps [Hs Hbefore]. apply StronglySorted_inv in Hps as [_ Hp]. split.
  - induction shard as [|x shard IH]; simpl; [repeat constructor|].
    apply StronglySorted_inv in Hs as [Hs Hx]. apply Forall_cons in Hbefore as [Hxp Hbefore].
    constructor; [by apply IH|].
    apply Forall_app. split; [done|]. constructor; [|done]. by apply Forall_cons in Hxp as [? _].
  - apply Forall_app. split.
    + eapply Forall_impl; [exact Hbefore|]. intros x Hx. by apply Forall_cons in Hx as [_ ?].
    + by constructor.
Qed.

Lemma shard_ok_skip (p : Project.t) (ps shard : list Project.t) :
  shard_ok (p :: ps) shard -> shard_ok ps shard.
Proof.
  intros [Hs Hbefore]. split; [done|].
  eapply Forall_impl; [exact Hbefore|]. intros x Hx. by apply Forall_cons in Hx as [_ ?].
Qed.

Lemma assign_shards_sorted (ps : list Project.t) (costs costs' : list Z)
    (shards shards' : list (list Project.t)) :
  StronglySorted lpt_order ps -> Forall (shard_ok ps) shards ->
  assign_shards ps costs shards = Ok (costs', shards') ->
  Forall (StronglySorted lpt_order) shards'.
Proof.
  revert costs shards. induction ps as [|p ps IH]; intros costs shards Hps Hok; simpl.
  - intros [= <- <-]. eapply Forall_impl; [exact Hok|]. by intros s [? _].
  - destruct (min_index costs) as [i|]; [|done].
    apply IH; [by apply StronglySorted_inv in Hps as [? _]|].
    apply Forall_forall. intros s Hs.
    apply list_elem_of_lookup in Hs as [j Hj]. rewrite list_lookup_alter in Hj.
    destruct (decide (i = j)) as [->|Hne].
    + destruct (shards !! j) as [s0|] eqn:Hs0; [|done]. injection Hj as <-.
      apply shard_ok_append; [done|].
      eapply Forall_forall in Hok; [exact Hok|]. by eapply list_elem_of_lookup_2.
    + apply shard_ok_skip with p.
      eapply Forall_forall in Hok; [exact Hok|]. by eapply list_elem_of_lookup_2.
Qed.

(** X4. For every list of projects and every number of shards, each shard
    lists its projects in the order of the sort: by cost descending, ties
    by location. *)
Theorem X4_shards_sorted (projects : list Project.t) (num_shards : Z)
    (costs : list Z) (shards : list (list Project.t)) :
  partition_shards num_shards projects = Ok (costs, shards) ->
  Forall (StronglySorted lpt_order) shards.
Proof.
  unfold partition_shards. apply assign_shards_sorted; [apply sorted_reverse_sorted|].
  apply Forall_forall. intros s Hs. apply elem_of_replicate in Hs as [-> _].
  split; constructor.
Qed.

Lemma X4_witness :
  Forall (StronglySorted lpt_order) [[Example.a]; [Example.b; Example.c]].
Proof.
  apply (X4_shards_sorted [Example.c; Example.b; Example.a] 2 [5; 5]). reflexivity.
Defined.

Lemma min_index_Some (costs : list Z) (i : nat) :
  min_index costs = Some i ->
  exists c, costs !! i = Some c /\ forall j cj, costs !! j = Some cj -> c <= cj.
Proof.
  intros Hi. destruct (min_index_spec costs) as (i' & c & Hi' & Hc & Hmin).
  { intros ->. discriminate. }
  rewrite Hi in Hi'. injection Hi' as <-. eauto.
Qed.

Lemma assign_shards_balanced (bound : Z) (ps : list Project.t) (costs costs' : list Z)
    (shards shards' : list (list Project.t)) :
  Forall (fun p => 0 <= Project.cost p <= bound) ps -> balanced bound costs ->
  assign_shards ps costs shards = Ok (costs', shards') -> balanced bound costs'.
Proof.
  revert costs shards. induction ps as [|p ps IH]; intros costs shards Hps Hbal; simpl.
  - by intros [= <- <-].
  - apply Forall_cons in Hps as [Hp Hps].
    destruct (min_index costs) as [m|] eqn:Hm; [|done].
    apply min_index_Some in Hm as (c & Hc & Hmin).
    apply IH; [done|].
    intros i j ci cj Hi Hj. rewrite list_lookup_alter in Hi, Hj.
    destruct (decide (m = i)) as [<-|Hmi], (decide (m = j)) as [<-|Hmj].
    + rewrite Hc in Hi, Hj. simpl in *. injection Hi as <-. injection Hj as <-. lia.
    + rewrite Hc in Hi. simpl in Hi. injection Hi as <-.
      specialize (Hmin j cj Hj). lia.
    + rewrite Hc in Hj. simpl in Hj. injection Hj as <-.
      specialize (Hbal i m ci c Hi Hc). lia.
    + by eapply Hbal.
Qed.

(** X5. When every cost is between [0] and [bound], the accumulated costs
    of any two shards differ by at most [bound]: the greedy assignment
    keeps the shards within one project of each other. *)
Theorem X5_shards_balanced (bound : Z) (projects : list Project.t) (num_shards : Z)
    (costs : list Z) (shards : list (list Project.t)) :
  Forall (fun p => 0 <= Project.cost p <= bound) projects -> 0 <= bound ->
  partition_shards num_shards projects = Ok (costs, shards) ->
  costs = map total_cost shards /\
  forall i j si sj, shards !! i = Some si -> shards !! j = Some sj ->
                    total_cost si - total_cost sj <= bound.
Proof.
  intros Hcosts Hbound Hrun.
  assert (Hbal : balanced bound costs).
  { unfold partition_shards in Hrun.
    eapply assign_shards_balanced; [| |exact Hrun].
    - eapply Permutation_Forall; [symmetry; apply sorted_reverse_perm | exact Hcosts].
    - intros i j ci cj Hi Hj.
      apply lookup_replicate in Hi as [-> _]. apply lookup_replicate in Hj as [-> _]. lia. }
  assert (Hmap : costs = map total_cost shards).
  { destruct (Z.le_gt_cases 1 num_shards) as [HN|HN].
    - destruct (partition_shards_ok projects num_shards HN) as (shards0 & Hrun0 & _).
      rewrite Hrun in Hrun0. by injection Hrun0 as -> ->.
    - unfold partition_shards in Hrun. replace (Z.to_nat num_shards) with 0%nat in Hrun by lia.
      destruct (sorted_reverse projects); simpl in Hrun; [|done]. by injection Hrun as <- <-. }
  split; [exact Hmap|].
  intros i j si sj Hi Hj. apply (Hbal i j); rewrite Hmap, list_lookup_fmap; by rewrite ?Hi, ?Hj.
Qed.

Lemma X5_witness :
  total_cost [Example.a] - total_cost [Example.b; Example.c] <= 5.
Proof.
  apply (X5_shards_balanced 5 Scenario.corpus 2 [5; 5] [[Example.a]; [Example.b; Example.c]])
    with (i := 0%nat) (j := 1%nat); [|lia|reflexivity..].
  repeat constructor; vm_compute; discriminate.
Defined.

Lemma concat_short (shards : list (list Project.t)) :
  (length (concat shards) < length shards)%nat -> exists i, shards !! i = Some [].
Proof.
  induction shards as [|s shards IH]; simpl; [lia|].
  rewrite length_app. intros Hlen. destruct s as [|x s].
  - by exists 0%nat.
  - destruct IH as [i Hi]; [simpl in Hlen; lia|]. by exists (S i).
Qed.

(** X6. With more shards than selected projects some shard is empty, and
    selecting it answers the empty list without an error: the
    empty-selection error guards the selection before it is sharded
    only. *)
Theorem X6_empty_shard {L : Library} (num_shards : Z) (projects : list Project.t) :
  projects <> [] -> Z.of_nat (length projects) < num_shards ->
  exists shard_index,
    0 <= shard_index < num_shards /\
    forall ARGS,
      truthy_str (Args.local_project ARGS) = None ->
      filtered_projects ARGS = projects ->
      Args.num_shards ARGS = Some num_shards ->
      Args.shard_index ARGS = Some shard_index ->
      select_projects ARGS = Ok [].
Proof.
  intros Hne Hlen.
  destruct (partition_shards_ok projects num_shards) as (shards & Hrun & Hshards & Hperm);
    [lia|].
  destruct (concat_short shards) as [i Hi].
  { rewrite (Permutation_length Hperm). lia. }
  apply lookup_lt_Some in Hi as Hlt.
  exists (Z.of_nat i). split; [lia|].
  intros ARGS Hlocal Hfiltered Hnum Hidx.
  rewrite (select_projects_shard ARGS num_shards (Z.of_nat i) projects) by (done || lia).
  rewrite Hrun. simpl. apply py_getitem_lookup; [lia|]. by rewrite Nat2Z.id.
Qed.

Lemma X6_witness :
  exists shard_index,
    0 <= shard_index < 4 /\
    forall ARGS,
      truthy_str (Args.local_project ARGS) = None ->
      filtered_projects (L := literal_library Scenario.corpus Example.args) ARGS
      = Scenario.corpus ->
      Args.num_shards ARGS = Some 4 ->
      Args.shard_index ARGS = Some shard_index ->
      select_projects (L := literal_library Scenario.corpus Example.args) ARGS = Ok [].
Proof.
  apply (X6_empty_shard (L := literal_library Scenario.corpus Example.args) 4 Scenario.corpus);
    [discriminate | simpl; lia].
Defined.

Lemma lpt_order_antisym (a b : Project.t) :
  lpt_order a b -> lpt_order b a -> sort_key a = sort_key b.
Proof.
  unfold lpt_order, sort_key. intros [Hab | [Hc Hab]] [Hba | [Hc' Hba]]; try lia.
  f_equal; [done|].
  rewrite String.compare_antisym in Hab.
  destruct (String.compare (Project.location a) (Project.location b)) eqn:Hcmp;
    simpl in *; try congruence.
  by apply String.compare_eq_iff.
Qed.

Lemma NoDup_map_eq {A B} (f : A -> B) (l : list A) (x y : A) :
  NoDup (map f l) -> x ∈ l -> y ∈ l -> f x = f y -> x = y.
Proof.
  induction l as [|z l IH]; simpl; intros Hnd Hx Hy Hf; [by apply elem_of_nil in Hx|].
  apply NoDup_cons in Hnd as [Hz Hnd].
  apply elem_of_cons in Hx as [->|Hx]; apply elem_of_cons in Hy as [->|Hy]; try done.
  - exfalso. apply Hz. rewrite Hf. apply list_elem_of_In, in_map. by apply list_elem_of_In.
  - exfalso. apply Hz. rewrite <- Hf. apply list_elem_of_In, in_map. by apply list_elem_of_In.
  - by apply IH.
Qed.

Lemma sorted_unique (l1 l2 : list Project.t) :
  StronglySorted lpt_order l1 -> StronglySorted lpt_order l2 ->
  Permutation l1 l2 -> NoDup (map sort_key l1) -> l1 = l2.
Proof.
  revert l2. induction l1 as [|x t1 IH]; intros l2 Hs1 Hs2 Hperm Hnd.
  - by apply Permutation_nil in Hperm.
  - destruct l2 as [|y t2]; [by apply Permutation_sym, Permutation_nil in Hperm|].
    assert (x = y) as <-.
    { assert (Hx : x ∈ y :: t2) by (rewrite <- Hperm; by left).
      assert (Hy : y ∈ x :: t1) by (rewrite Hperm; by left).
      apply elem_of_cons in Hx as [Hx|Hx]; [done|].
      apply elem_of_cons in Hy as [Hy|Hy]; [done|].
      apply StronglySorted_inv in Hs1 as [_ Hx1]. apply StronglySorted_inv in Hs2 as [_ Hy2].
      rewrite Forall_forall in Hx1, Hy2.
      apply (NoDup_map_eq sort_key (x :: t1)); [done | by left | by right|].
      apply lpt_order_antisym; [by apply Hx1 | by apply Hy2]. }
    f_equal. apply IH.
    + by apply StronglySorted_inv in Hs1 as [? _].
    + by apply StronglySorted_inv in Hs2 as [? _].
    + by apply Permutation_cons_inv in Hperm.
    + simpl in Hnd. by apply NoDup_cons in Hnd as [_ ?].
Qed.

(** X7. When no two projects have the same cost and location, the shards
    do not depend on the order in which the projects are given. *)
Theorem X7_shards_order_free (projects projects' : list Project.t) (num_shards : Z) :
  NoDup (map sort_key projects) -> Permutation projects projects' ->
  partition_shards num_shards projects = partition_shards num_shards projects'.
Proof.
  intros Hnd Hperm. unfold partition_shards.
  rewrite (sorted_unique (sorted_reverse projects) (sorted_reverse projects')); [done|..].
  - apply sorted_reverse_sorted.
  - apply sorted_reverse_sorted.
  - by rewrite !sorted_reverse_perm.
  - by rewrite (Permutation_map sort_key (sorted_reverse_perm projects)).
Qed.

Lemma X7_witness :
  partition_shards 2 [Example.a; Example.b; Example.c]
  = partition_shards 2 [Example.c; Example.a; Example.b].
Proof.
  apply X7_shards_order_free.
  - apply NoDup_ListNoDup. repeat constructor; simpl; intuition discriminate.
  - symmetry. apply (Permutation_cons_append [Example.a; Example.b] Example.c).
Defined.

(** ** The oracle and its dictionaries *)

Lemma dict_lookup_rev_batch (run : Project.t -> MypyResult) (name : string)
    (projects : list Project.t) :
  dict_lookup name (rev (map (fun p => (Project.name p, run p)) projects))
  = run <$> last_named name projects.
Proof.
  induction projects as [|q rest IH]; simpl; [done|].
  rewrite dict_lookup_app, IH. destruct (last_named name rest); simpl; [done|].
  by destruct (String.eqb name (Project.name q)).
Qed.

(** X9. The dictionary of a batch is keyed by the names of the projects:
    what it holds for a project is the result of the last project of the
    batch with that name, so when two projects share a name the verdict
    reads the result of the later one for both. *)
Theorem X9_later_namesake_wins {L : Library} (ARGS : Args.t) (projects : list Project.t)
    (old new : Project.t -> MypyResult) :
  (forall p, recorded (batch_results new projects) p
             = new <$> last_named (Project.name p) projects) /\
  (truthy_str (Args.bisect_output ARGS) = None ->
   (forall p q, p ∈ projects -> last_named (Project.name p) projects = Some q ->
                output (new q) = output (old q)) ->
   are_results_good ARGS projects (batch_results old projects) (batch_results new projects)
   = Ok true).
Proof.
  assert (Hrec : forall run p, recorded (batch_results run projects) p
                               = run <$> last_named (Project.name p) projects).
  { intros run p. unfold recorded, batch_results.
    by rewrite dict_lookup_dict, dict_lookup_rev_batch. }
  split; [apply Hrec|].
  intros Hpat Hsame.
  destruct (equivalence_verdict ARGS projects (batch_results old projects)
              (batch_results new projects) Hpat) as (good & Hgood & Ht & _).
  { intros p Hp. by apply recorded_is_Some. }
  { intros p Hp. by apply recorded_is_Some. }
  rewrite Hgood. f_equal. apply Ht. intros p Hp. rewrite !Hrec.
  destruct (last_named (Project.name p) projects) as [q|] eqn:Hq; simpl; [|done].
  f_equal. by eapply Hsame.
Qed.

Lemma X9_witness :
  are_results_good (L := literal_library [] Example.args) Example.args
    [Example.project "a" 1; Example.project "a" 2]
    (batch_results (fun _ => Example.success_result)
       [Example.project "a" 1; Example.project "a" 2])
    (batch_results (fun p => if Project.cost p =? 1 then Example.error_result
                             else Example.success_result)
       [Example.project "a" 1; Example.project "a" 2])
  = Ok true.
Proof.
  apply (X9_later_namesake_wins (L := literal_library [] Example.args)); [reflexivity|].
  intros p q Hp Hq.
  apply elem_of_cons in Hp as [->|Hp]; [|apply elem_of_cons in Hp as [->|Hp]];
    [| |by apply elem_of_nil in Hp]; vm_compute in Hq; by injection Hq as <-.
Defined.

(** X8. Under the equivalence policy the results of the old revision,
    compared with themselves, are good: once the initialization of
    [bisect] has succeeded, the assertion on the old results holds, so it
    can fail under the pattern policy only. *)
Theorem X8_baseline_is_good {L : Library} {W : Type} {E : Environment W}
    (ARGS : Args.t) (w w1 : W) (projects : list Project.t) (mypy_exe repo_dir : string)
    (old_results : list (string * MypyResult)) (evs : list Event) :
  truthy_str (Args.bisect_output ARGS) = None ->
  bisect_init ARGS w = (Ok (projects, mypy_exe, repo_dir, old_results), evs, w1) ->
  are_results_good ARGS projects old_results old_results = Ok true.
Proof.
  intros Hpat Hinit. unfold bisect_init in Hinit.
  apply bind_Ok_inv in Hinit as (? & ? & ? & ? & _ & Hinit & _).
  apply bind_Ok_inv in Hinit as (? & ? & ? & ? & _ & Hinit & _).
  apply bind_Ok_inv in Hinit as (exe & ? & ? & ? & _ & Hinit & _).
  apply bind_Ok_inv in Hinit as (? & ? & ? & ? & _ & Hinit & _).
  apply bind_Ok_inv in Hinit as (? & ? & ? & ? & _ & Hinit & _).
  apply bind_Ok_inv in Hinit as (selected & ? & ? & ? & _ & Hinit & _).
  apply bind_Ok_inv in Hinit as (? & ? & ? & ? & _ & Hinit & _).
  apply bind_Ok_inv in Hinit as (results_fut & ? & w2 & ? & Hbatch & Hinit & _).
  apply bind_Ok_inv in Hinit as (? & ? & ? & ? & _ & Hinit & _).
  apply bind_Ok_inv in Hinit as (? & ? & ? & ? & _ & Hinit & _).
  apply bind_Ok_inv in Hinit as (? & ? & ? & ? & _ & Hinit & _).
  apply bind_Ok_inv in Hinit as (? & ? & ? & ? & _ & Hinit & _).
  apply bind_Ok_inv in Hinit as (? & ? & ? & ? & _ & Hinit & _).
  unfold ret in Hinit. injection Hinit as <- <- <- <- _ _.
  apply batch_is_batch_results in Hbatch as (_ & run & _ & ->).
  destruct (equivalence_verdict ARGS selected (batch_results run selected)
              (batch_results run selected) Hpat) as (good & Hgood & Ht & _).
  { intros p Hp. by apply recorded_is_Some. }
  { intros p Hp. by apply recorded_is_Some. }
  rewrite Hgood. f_equal. by apply Ht.
Qed.

Lemma X8_witness :
  are_results_good (L := Scenario.library Example.args) (Scenario.args_bisect "r0" "r4" None)
    Scenario.corpus
    (batch_results (Scenario.checker 0) Scenario.corpus)
    (batch_results (Scenario.checker 0) Scenario.corpus)
  = Ok true.
Proof.
  eapply (X8_baseline_is_good (L := Scenario.library Example.args)
            (E := Scenario.environment) (Scenario.args_bisect "r0" "r4" None) Scenario.start);
    [reflexivity|].
  vm_compute. reflexivity.
Defined.

Lemma py_all_prefix {A} (f : A -> Res bool) (before after : list A) (x : A) :
  (forall y, y ∈ before -> f y = Ok true) ->
  py_all f (before ++ x :: after)
  = match f x with
    | Ok true => py_all f after
    | Ok false => Ok false
    | Raise e => Raise e
    | Fuel => Fuel
    end.
Proof.
  induction before as [|y before IH]; intros Hbefore; simpl; [done|].
  rewrite (Hbefore y) by (by left). apply IH. intros z Hz. apply Hbefore. by right.
Qed.

(** X10. Under the equivalence policy the projects are compared in
    order, up to the first that decides.  When the projects before one are
    all equivalent and that one has no result, or a result and no
    baseline, the verdict raises [KeyError] with its name; when it has
    both and they differ the verdict is bad, whatever is recorded or
    missing for the projects after it. *)
Theorem X10_first_project_decides {L : Library} (ARGS : Args.t)
    (before after : list Project.t) (p : Project.t)
    (old_results results : list (string * MypyResult)) :
  truthy_str (Args.bisect_output ARGS) = None ->
  (forall q, q ∈ before ->
     exists r o, recorded results q = Some r /\ recorded old_results q = Some o /\
                 output r = output o) ->
  (recorded results p = None ->
   are_results_good ARGS (before ++ p :: after) old_results results
   = Raise (KeyError (Project.name p))) /\
  (forall r, recorded results p = Some r -> recorded old_results p = None ->
   are_results_good ARGS (before ++ p :: after) old_results results
   = Raise (KeyError (Project.name p))) /\
  (forall r o, recorded results p = Some r -> recorded old_results p = Some o ->
   output r <> output o ->
   are_results_good ARGS (before ++ p :: after) old_results results = Ok false).
Proof.
  intros Hpat Hbefore. unfold are_results_good. rewrite Hpat.
  rewrite py_all_prefix.
  2:{ intros q Hq. destruct (Hbefore q Hq) as (r & o & Hr & Ho & Hsame).
      unfold recorded in Hr, Ho. unfold dict_get. rewrite Hr, Ho. simpl.
      f_equal. by apply same_output_true. }
  unfold recorded, dict_get. split; [|split].
  - by intros ->.
  - by intros r -> ->.
  - intros r o -> -> Hne. simpl.
    destruct (same_output r o) eqn:Hs; [|done]. by apply same_output_true in Hs.
Qed.

Lemma X10_witness :
  are_results_good (L := literal_library [] Example.args) Example.args
    [Example.a; Example.b; Example.c]
    [("a", Example.success_result); ("b", Example.success_result)]
    [("a", Example.success_result)]
  = Raise (KeyError "b").
Proof.
  apply (X10_first_project_decides (L := literal_library [] Example.args) Example.args
           [Example.a] [Example.c] Example.b); [reflexivity | | reflexivity].
  intros q Hq. apply elem_of_cons in Hq as [->|Hq]; [|by apply elem_of_nil in Hq].
  by exists Example.success_result, Example.success_result.
Defined.

(** ** The bisection *)

(** X11. When a typeshed revision is given, old or new, [bisect] raises
    [AssertionError] at once: it makes no external call and leaves the
    world as it was. *)
Theorem X11_no_typeshed_bisection {L : Library} {W : Type} {E : Environment W}
    (fuel : nat) (ARGS : Args.t) (w : W) :
  rev_truthy (Args.new_typeshed ARGS) = true \/ rev_truthy (Args.old_typeshed ARGS) = true ->
  bisect fuel ARGS w = (Raise AssertionError, [], w).
Proof.
  intros Hshed. unfold bisect, bisect_init, bind, py_assert, ret, raise.
  destruct (rev_truthy (Args.new_typeshed ARGS)); [done|].
  destruct Hshed as [?| ->]; done.
Qed.

Lemma X11_witness :
  bisect (L := Scenario.library Example.args) (E := Scenario.environment) 3
    (Args.mk None None false RevNone None None true None false false false false
             "full" false false "base" (RevStr "r4") (RevStr "r0") RevNone (RevStr "main"))
    Scenario.start
  = (Raise AssertionError, [], Scenario.start).
Proof.
  apply (X11_no_typeshed_bisection (L := Scenario.library Example.args)
           (E := Scenario.environment)).
  right. reflexivity.
Defined.

(** X12. When the selection is an empty shard, [bisect] sets the checker
    up and then stops with the [ValueError] of [asyncio.wait] on an empty
    collection: no project is set up, the checker is not run and no
    [git bisect] command is issued. *)
Theorem X12_bisect_empty_shard {L : Library} {W : Type} {E : Environment W}
    (fuel : nat) (ARGS : Args.t) (w w1 : W) (mypy_exe : string) :
  rev_truthy (Args.new_typeshed ARGS) = false ->
  rev_truthy (Args.old_typeshed ARGS) = false ->
  setup_mypy_ext (path_join (Args.base_dir ARGS) "bisect_mypy")
    (revision_or_recent_tag_fn (Args.old_mypy ARGS)) true w = (Ok mypy_exe, w1) ->
  path_is_dir (path_join (path_join (Args.base_dir ARGS) "bisect_mypy") "mypy") w1 = true ->
  select_projects ARGS = Ok [] ->
  exists msg,
    bisect fuel ARGS w
    = (Raise (ValueError msg),
       [EvSetupMypy (path_join (Args.base_dir ARGS) "bisect_mypy")
          (revision_or_recent_tag_fn (Args.old_mypy ARGS)) true],
       w1).
Proof.
  intros Hnew Hold Hsetup Hdir Hsel. eexists.
  unfold bisect, bisect_init, setup_mypy, bind, call, read, lift, py_assert, ret, raise.
  rewrite Hnew, Hold. simpl. rewrite Hsetup, Hdir, Hsel. reflexivity.
Qed.

Lemma X12_witness :
  exists msg,
    outcome (bisect (L := Scenario.library Example.args) (E := Scenario.environment) 3
               (Args.mk None None false RevNone (Some 4) (Some 3) true None false false false
                        false "full" false false "base" (RevStr "r4") (RevStr "r0")
                        RevNone RevNone)
               Scenario.start)
    = Raise (ValueError msg).
Proof.
  edestruct (X12_bisect_empty_shard (L := Scenario.library Example.args)
               (E := Scenario.environment) 3
               (Args.mk None None false RevNone (Some 4) (Some 3) true None false false false
                        false "full" false false "base" (RevStr "r4") (RevStr "r0")
                        RevNone RevNone)
               Scenario.start) as [msg Hrun]; [reflexivity..|].
  exists msg. by rewrite Hrun.
Defined.

Lemma silent_count {W A} (P : Event -> bool) (m : M W A) (w w' : W) (r : Res A)
    (evs : list Event) :
  silent P m -> m w = (r, evs, w') -> count_events P evs = 0%nat.
Proof.
  intros Hm Hrun. apply count_events_silent. specialize (Hm w).
  unfold events in Hm. by rewrite Hrun in Hm.
Qed.

Lemma run_count {W A} (P : Event -> bool) (m : M W A) (w w' : W) (r : Res A)
    (evs : list Event) :
  m w = (r, evs, w') -> silent P m -> count_events P evs = 0%nat.
Proof. intros Hrun Hm. by eapply silent_count. Qed.

Section Reports.
Context {L : Library} {W : Type} {E : Environment W}.

Lemma batch_silent (P : Event -> bool) (mypy_exe : string) (projects : list Project.t) :
  (forall p, P (EvRunMypy p mypy_exe) = false) ->
  silent P (gather (map (run_wrapper mypy_exe) projects)).
Proof.
  intros HP. apply silent_gather_map. intros p. unfold run_wrapper.
  apply silent_bind; [by apply silent_ask | intros r; apply silent_ret].
Qed.

(** A turn that ends hands one verdict over; it prints the report, once and
    last, exactly when it returns. *)
Lemma bisect_step_report (ARGS : Args.t) (projects : list Project.t)
    (mypy_exe repo_dir : string) (old_results : list (string * MypyResult))
    (w w' : W) (returned : bool) (evs : list Event) :
  bisect_step ARGS projects mypy_exe repo_dir old_results w = (Ok returned, evs, w') ->
  count_events is_verdict evs = 1%nat /\
  count_events is_turn evs = 1%nat /\
  if returned
  then exists pre stdout,
         evs = pre ++ [EvPrint stdout] /\ str_contains "first bad commit" stdout = true /\
         count_events is_print pre = 0%nat
  else count_events is_print evs = 0%nat.
Proof.
  intros Hrun. unfold bisect_step in Hrun.
  apply bind_Ok_inv in Hrun as (? & evs1 & w1 & ? & Hsub & Hrun & ->).
  apply bind_Ok_inv in Hrun as (results & evs2 & w2 & ? & Hbatch & Hrun & ->).
  apply bind_Ok_inv in Hrun as (good & evs3 & w3 & ? & Hgood & Hrun & ->).
  apply bind_Ok_inv in Hrun as (stdout & evs4 & w4 & evs5 & Hgit & Hrun & ->).
  unfold exec, call in Hsub, Hgit.
  destruct (run_ext SUBMODULE_UPDATE _ w) as [? ?]. injection Hsub as _ <- _.
  destruct (run_ext _ _ w3) as [? ?]. injection Hgit as _ <- _.
  unfold lift in Hgood. injection Hgood as _ <- _.
  pose proof (silent_count is_verdict _ _ _ _ _ (batch_silent _ _ _ (fun _ => eq_refl)) Hbatch)
    as Hv.
  pose proof (silent_count is_turn _ _ _ _ _ (batch_silent _ _ _ (fun _ => eq_refl)) Hbatch)
    as Ht.
  pose proof (silent_count is_print _ _ _ _ _ (batch_silent _ _ _ (fun _ => eq_refl)) Hbatch)
    as Hp.
  destruct (str_contains "first bad commit" stdout) eqn:Hsignal.
  - unfold print, emit, bind, ret in Hrun. injection Hrun as <- <- _.
    rewrite !count_events_app, Hv, Ht. split; [by destruct good|]. split; [by destruct good|].
    exists ([EvRun SUBMODULE_UPDATE (Some repo_dir)] ++ evs2 ++ [] ++
            [EvRun ["git"; "bisect"; if good then "good" else "bad"] (Some repo_dir)]), stdout.
    split; [by rewrite <- !app_assoc|]. split; [done|].
    rewrite !count_events_app, Hp. done.
  - unfold when, debug_results, debug_print, emit, bind, ret in Hrun.
    destruct (Args.debug ARGS); injection Hrun as <- <- _;
      rewrite !count_events_app, Hv, Ht, Hp; by destruct good.
Qed.

Lemma bisect_loop_report (fuel : nat) (ARGS : Args.t) (projects : list Project.t)
    (mypy_exe repo_dir : string) (old_results : list (string * MypyResult))
    (w w' : W) (evs : list Event) :
  bisect_loop fuel ARGS projects mypy_exe repo_dir old_results w = (Ok tt, evs, w') ->
  count_events is_verdict evs = count_events is_turn evs /\
  (1 <= count_events is_turn evs)%nat /\
  exists pre stdout,
    evs = pre ++ [EvPrint stdout] /\ str_contains "first bad commit" stdout = true /\
    count_events is_print pre = 0%nat.
Proof.
  revert w evs. induction fuel as [|fuel IH]; intros w evs Hrun; simpl in Hrun; [done|].
  apply bind_Ok_inv in Hrun as (returned & evs1 & w1 & evs2 & Hstep & Hrun & ->).
  apply bisect_step_report in Hstep as (Hv & Ht & Hret).
  rewrite !count_events_app, Hv, Ht. destruct returned.
  - unfold ret in Hrun. injection Hrun as <- _.
    destruct Hret as (pre & stdout & -> & Hsignal & Hpre).
    split; [done|]. split; [simpl; lia|]. exists pre, stdout. by rewrite app_nil_r.
  - apply IH in Hrun as (Hcount & _ & pre & stdout & -> & Hsignal & Hpre).
    split; [by rewrite Hcount|]. split; [lia|].
    exists (evs1 ++ pre), stdout. split; [by rewrite app_assoc|]. split; [done|].
    by rewrite count_events_app, Hret, Hpre.
Qed.
End Reports.

Section FinalReport.
Context {L : Library} {W : Type} {E : Environment W}.

Lemma bisect_init_no_print (ARGS : Args.t) : silent is_print (bisect_init ARGS).
Proof. unfold_coroutines. silent_auto. Qed.

(** The initialization marks the old revision good, and hands no other
    verdict over. *)
Lemma bisect_init_one_verdict (ARGS : Args.t) (w w' : W) (evs : list Event)
    (st : list Project.t * string * string * list (string * MypyResult)) :
  bisect_init ARGS w = (Ok st, evs, w') -> count_events is_verdict evs = 1%nat.
Proof.
  intros Hinit. unfold bisect_init in Hinit.
  repeat match type of Hinit with
         | bind ?m _ _ = _ =>
             let H := fresh "Hpart" in
             apply bind_Ok_inv in Hinit as (? & ? & ? & ? & H & Hinit & ->);
             rewrite count_events_app;
             first
               [ rewrite (run_count is_verdict _ _ _ _ _ H)
                   by solve [apply batch_silent; by intros | unfold_coroutines; silent_auto]
               | unfold exec, call in H;
                 match type of H with
                 | (let (_, _) := ?x in _) = _ => destruct x
                 end;
                 injection H as _ <- _ ]
         end.
  unfold ret in Hinit. injection Hinit as _ <- _. reflexivity.
Qed.
End FinalReport.

(** X13. When [bisect] returns, the last thing it has logged is the print
    of a report of [git bisect] that contains "first bad commit", and it
    has printed nothing else; it has taken at least one turn of the loop
    and has handed the primitive one verdict per turn, after marking the
    old revision good once. *)
Theorem X13_final_report {L : Library} {W : Type} {E : Environment W}
    (fuel : nat) (ARGS : Args.t) (w w' : W) (evs : list Event) :
  bisect fuel ARGS w = (Ok tt, evs, w') ->
  (exists pre stdout,
     evs = pre ++ [EvPrint stdout] /\ str_contains "first bad commit" stdout = true /\
     count_events is_print pre = 0%nat) /\
  count_events is_verdict evs = S (count_events is_turn evs) /\
  (1 <= count_events is_turn evs)%nat.
Proof.
  intros Hrun. unfold bisect in Hrun.
  apply bind_Ok_inv in Hrun as ([[[projects mypy_exe] repo_dir] old_results]
                                & evs0 & w0 & ? & Hinit & Hrun & ->).
  apply bind_Ok_inv in Hrun as (good & evs1 & w1 & ? & Hgood & Hrun & ->).
  apply bind_Ok_inv in Hrun as (? & evs2 & w2 & evs3 & Hassert & Hrun & ->).
  unfold lift in Hgood. injection Hgood as _ <- _.
  assert (evs2 = []) as ->.
  { unfold py_assert, ret, raise in Hassert.
    destruct good; [by injection Hassert as _ <- _ | discriminate Hassert]. }
  apply bisect_loop_report in Hrun as (Hcount & Hturns & pre & stdout & -> & Hsignal & Hpre).
  pose proof (bisect_init_one_verdict _ _ _ _ _ Hinit) as Hv0.
  pose proof (run_count is_turn _ _ _ _ _ Hinit (bisect_init_no_turn ARGS)) as Ht0.
  pose proof (run_count is_print _ _ _ _ _ Hinit (bisect_init_no_print ARGS)) as Hp0.
  simpl. rewrite !count_events_app in *. split; [|split].
  - exists (evs0 ++ pre), stdout. split; [by rewrite app_assoc|]. split; [done|].
    by rewrite count_events_app, Hp0, Hpre.
  - rewrite Hv0, Ht0, Hcount. done.
  - rewrite Ht0. exact Hturns.
Qed.

Lemma X13_witness :
  count_events is_verdict
    (events (bisect (L := Scenario.library Example.args) (E := Scenario.environment) 2
               (Scenario.args_bisect "r0" "r4" None) Scenario.start))
  = 3%nat.
Proof.
  edestruct (X13_final_report (L := Scenario.library Example.args)
               (E := Scenario.environment) 2 (Scenario.args_bisect "r0" "r4" None)
               Scenario.start) as (_ & Hverdicts & _).
  - vm_compute. reflexivity.
  - etransitivity; [exact Hverdicts|]. vm_compute. reflexivity.
Defined.

(** ** The stream of results of [primer] *)

Lemma awaited_app (evs evs' : list Event) :
  awaited (evs ++ evs') = awaited evs ++ awaited evs'.
Proof. apply omap_app. Qed.

Lemma prints_app (evs evs' : list Event) :
  prints (evs ++ evs') = prints evs ++ prints evs'.
Proof. apply omap_app. Qed.

Section StreamFacts.
Context {L : Library} {W : Type} {E : Environment W}.
Context (ARGS : Args.t) (new_mypy old_mypy : string) (new_typeshed old_typeshed : option string).

Lemma report_awaits_nothing (result : PrimerResult) (w : W) :
  exists evs, report ARGS result w = (Ok tt, evs, w) /\ awaited evs = [].
Proof.
  unfold report, print, emit, bind, ret.
  repeat match goal with |- context [if ?b then _ else _] => destruct b end; eauto.
Qed.

Lemma primer_loop_returns (completed : list Project.t) (retcode : Z) (w : W) :
  (forall p, p ∈ completed ->
     exists result,
       primer_result_ext p new_mypy old_mypy new_typeshed old_typeshed w = Ok result) ->
  exists code evs,
    primer_loop ARGS new_mypy old_mypy new_typeshed old_typeshed completed retcode w
    = (Ok code, evs, w).
Proof.
  revert retcode. induction completed as [|p rest IH]; intros retcode Hall; simpl.
  - by eexists _, _.
  - destruct (Hall p) as [result Hp]; [by left|].
    unfold bind at 1, ask. rewrite Hp.
    destruct (Args.old_success ARGS && negb (success (old_result result))).
    + destruct (IH retcode) as (code & evs & ->); [intros; apply Hall; by right|].
      by eexists _, _.
    + destruct (report_ok ARGS result w) as [evs0 Hreport].
      unfold bind. rewrite Hreport.
      edestruct IH as (code & evs & ->); [intros; apply Hall; by right|].
      by eexists _, _.
Qed.

Lemma primer_loop_awaited_all (completed : list Project.t) (retcode code : Z)
    (w w' : W) (evs : list Event) :
  primer_loop ARGS new_mypy old_mypy new_typeshed old_typeshed completed retcode w
  = (Ok code, evs, w') ->
  forall p, p ∈ completed ->
    exists result,
      primer_result_ext p new_mypy old_mypy new_typeshed old_typeshed w = Ok result.
Proof.
  revert retcode code evs. induction completed as [|p rest IH]; intros retcode code evs; simpl.
  - intros _ p Hp. by apply elem_of_nil in Hp.
  - intros Hrun. apply bind_Ok_inv in Hrun as (result & evs1 & w1 & evs2 & Hask & Hrest & ->).
    unfold ask in Hask. injection Hask as Hext <- <-.
    assert (exists rc c es, primer_loop ARGS new_mypy old_mypy new_typeshed old_typeshed
                              rest rc w = (Ok c, es, w')) as (rc & c & es & Hloop).
    { destruct (Args.old_success ARGS && negb (success (old_result result))); [eauto|].
      apply bind_Ok_inv in Hrest as (? & evs3 & w3 & evs4 & Hreport & Hrest & ->).
      destruct (report_ok ARGS result w) as [evs0 Hreport'].
      rewrite Hreport' in Hreport. injection Hreport as _ _ <-. eauto. }
    intros q Hq. apply elem_of_cons in Hq as [->|Hq]; [eauto|].
    by apply (IH _ _ _ Hloop).
Qed.
End StreamFacts.

(** X14.  [primer] (lines 350-366) awaits the results in the order in which
    they complete, and the first one that raises ends the loop with that
    exception: the results that complete later are never awaited, whatever
    they are. *)
Theorem X14_first_failure_ends_stream {L : Library} {W : Type} {E : Environment W}
    (ARGS : Args.t) (new_mypy old_mypy : string) (new_typeshed old_typeshed : option string)
    (before after : list Project.t) (p : Project.t) (e : exn) (retcode : Z) (w : W) :
  (forall q, q ∈ before ->
     exists result,
       primer_result_ext q new_mypy old_mypy new_typeshed old_typeshed w = Ok result) ->
  primer_result_ext p new_mypy old_mypy new_typeshed old_typeshed w = Raise e ->
  exists evs,
    primer_loop ARGS new_mypy old_mypy new_typeshed old_typeshed
      (before ++ p :: after) retcode w = (Raise e, evs, w) /\
    awaited evs = before ++ [p].
Proof.
  intros Hbefore Hp. revert retcode.
  induction before as [|q before IH]; intros retcode; simpl.
  - unfold bind, ask. rewrite Hp. by eexists.
  - destruct (Hbefore q) as [result Hq]; [by left|].
    assert (Hrest : forall rc, exists evs,
      primer_loop ARGS new_mypy old_mypy new_typeshed old_typeshed
        (before ++ p :: after) rc w = (Raise e, evs, w) /\
      awaited evs = before ++ [p]).
    { apply IH. intros; apply Hbefore; by right. }
    unfold bind at 1, ask. rewrite Hq.
    destruct (Args.old_success ARGS && negb (success (old_result result))).
    + destruct (Hrest retcode) as (evs & -> & Hevs). eexists. split; [done|].
      simpl. by rewrite Hevs.
    + destruct (report_awaits_nothing ARGS result w) as (evs0 & Hreport & Hquiet).
      unfold bind. rewrite Hreport.
      match goal with |- context [primer_loop _ _ _ _ _ _ ?rc w] =>
        destruct (Hrest rc) as (evs & -> & Hevs) end.
      eexists. split; [done|]. simpl. by rewrite awaited_app, Hquiet, Hevs.
Qed.

(** X15.  The return code of [primer] (lines 350-367) does not depend on
    the order in which the results complete: if the loop returns a code on
    one order, it returns the same code on any other. *)
Theorem X15_code_free_of_completion_order {L : Library} {W : Type} {E : Environment W}
    (ARGS : Args.t) (new_mypy old_mypy : string) (new_typeshed old_typeshed : option string)
    (completed completed' : list Project.t) (code : Z) (evs : list Event) (w w' : W) :
  Permutation completed completed' ->
  primer_loop ARGS new_mypy old_mypy new_typeshed old_typeshed completed 0 w
  = (Ok code, evs, w') ->
  exists evs',
    primer_loop ARGS new_mypy old_mypy new_typeshed old_typeshed completed' 0 w
    = (Ok code, evs', w').
Proof.
  intros Hperm Hrun.
  pose proof (primer_loop_awaited_all _ _ _ _ _ _ _ _ _ _ _ Hrun) as Hall.
  destruct (primer_loop_returns ARGS new_mypy old_mypy new_typeshed old_typeshed
              completed' 0 w) as (code' & evs' & Hrun').
  { intros p Hp. apply Hall. by rewrite Hperm. }
  apply primer_loop_code in Hrun as [-> [[? _]|(_ & Hor & Hiff)]]; [done|].
  pose proof Hrun' as Hcode.
  apply primer_loop_code in Hcode as [_ [[? _]|(_ & Hor' & Hiff')]]; [done|].
  assert (code = 1 <-> code' = 1) as Hsame.
  { rewrite Hiff, Hiff'.
    split; intros (p & result & Hp & Hrest); exists p, result; split; try done.
    - by rewrite <- Hperm.
    - by rewrite Hperm. }
  exists evs'. rewrite Hrun'. repeat f_equal. lia.
Qed.

(** X16.  With [--old-success] (lines 352-353) a project whose old run
    failed leaves no trace: the loop prints the same texts and returns the
    same code as on the stream from which these projects are removed. *)
Theorem X16_skipped_projects_leave_no_trace {L : Library} {W : Type} {E : Environment W}
    (ARGS : Args.t) (new_mypy old_mypy : string) (new_typeshed old_typeshed : option string)
    (completed : list Project.t) (retcode code : Z) (evs : list Event) (w w' : W) :
  primer_loop ARGS new_mypy old_mypy new_typeshed old_typeshed completed retcode w
  = (Ok code, evs, w') ->
  exists evs',
    primer_loop ARGS new_mypy old_mypy new_typeshed old_typeshed
      (List.filter (passes ARGS new_mypy old_mypy new_typeshed old_typeshed w) completed)
      retcode w
    = (Ok code, evs', w') /\
    prints evs' = prints evs.
Proof.
  revert retcode code evs. induction completed as [|p rest IH]; intros retcode code evs; simpl.
  - intros [= <- <- <-]. by eexists.
  - intros Hrun. apply bind_Ok_inv in Hrun as (result & evs1 & w1 & evs2 & Hask & Hrest & ->).
    unfold ask in Hask. injection Hask as Hext <- <-.
    unfold passes at 1, counted. rewrite Hext.
    destruct (Args.old_success ARGS && negb (success (old_result result))) eqn:Hskip; simpl.
    + apply IH in Hrest as (evs' & Hrun' & Hprints). eauto.
    + apply bind_Ok_inv in Hrest as (? & evs3 & w3 & evs4 & Hreport & Hrest & ->).
      destruct (report_ok ARGS result w) as [evs0 Hreport'].
      rewrite Hreport' in Hreport. injection Hreport as _ <- <-.
      apply IH in Hrest as (evs' & Hrun' & Hprints).
      exists (EvPrimerResult p :: evs0 ++ evs').
      unfold bind at 1, ask. rewrite Hext, Hskip.
      unfold bind. rewrite Hreport', Hrun'. split; [done|].
      change (EvPrimerResult p :: evs0 ++ evs') with ([EvPrimerResult p] ++ evs0 ++ evs').
      by rewrite !prints_app, Hprints.
Qed.

Lemma X14_witness :
  outcome (primer_loop (L := Scenario.library Example.args)
             (E := Linear.env Scenario.checker Stream.faulty)
             Example.args "new" "old" None None Scenario.corpus 0 Scenario.start)
  = Raise (Other "boom").
Proof.
  edestruct (X14_first_failure_ends_stream (L := Scenario.library Example.args)
               (E := Linear.env Scenario.checker Stream.faulty)
               Example.args "new" "old" None None [Example.a] [Example.c] Example.b
               (Other "boom") 0 Scenario.start) as (evs & Hrun & _).
  - intros q Hq. apply list_elem_of_singleton in Hq as ->. eexists. reflexivity.
  - reflexivity.
  - change ([Example.a] ++ Example.b :: [Example.c]) with Scenario.corpus in Hrun.
    by rewrite Hrun.
Defined.

Lemma X15_witness :
  outcome (primer_loop (L := Scenario.library Stream.args_old_success)
             (E := Linear.env Scenario.checker Stream.mixed)
             Stream.args_old_success "new" "old" None None
             [Example.c; Example.b; Example.a] 0 Scenario.start)
  = Ok 1.
Proof.
  edestruct (X15_code_free_of_completion_order (L := Scenario.library Stream.args_old_success)
               (E := Linear.env Scenario.checker Stream.mixed)
               Stream.args_old_success "new" "old" None None
               Scenario.corpus [Example.c; Example.b; Example.a] 1) as (evs' & Hrun).
  - apply (Permutation_rev Scenario.corpus).
  - vm_compute. reflexivity.
  - by rewrite Hrun.
Defined.

Lemma X16_witness :
  exists evs,
    primer_loop (L := Scenario.library Stream.args_old_success)
      (E := Linear.env Scenario.checker Stream.mixed)
      Stream.args_old_success "new" "old" None None [Example.a] 0 Scenario.start
    = (Ok 1, evs, Scenario.start) /\
    prints evs = ["+ error: a"].
Proof.
  edestruct (X16_skipped_projects_leave_no_trace (L := Scenario.library Stream.args_old_success)
               (E := Linear.env Scenario.checker Stream.mixed)
               Stream.args_old_success "new" "old" None None Scenario.corpus 0)
    as (evs' & Hrun & Hprints).
  - vm_compute. reflexivity.
  - exists evs'. split; [exact Hrun | by rewrite Hprints].
Defined.

(** ** The exit of [main] *)


(** X17.  The statuses that [main] (lines 370-409) hands to [sys.exit] are
    0, 1 and 70, and no exception of class [Exception] leaves it. *)
Theorem X17_exit_statuses {L : Library} {W : Type} {E : Environment W}
    (fuel : nat) (argv : list string) (w : W) :
  match outcome (main fuel argv w) with
  | Ok code => code = 0 \/ code = 1 \/ code = 70
  | Raise e => is_Exception e = false
  | Fuel => True
  end.
Proof.
  unfold main, outcome.
  destruct (inner fuel argv w) as [[[[code|]|e|] evs] w'] eqn:Hinner; simpl.
  - apply inner_Ok_inv in Hinner as (ARGS0 & evs0 & w0 & evs1 & w1 & evs2 & _ & Hcoro & _).
    apply run_coro_code in Hcoro. tauto.
  - tauto.
  - destruct (is_Exception e) eqn:He; simpl; tauto.
  - done.
Qed.

(** X18.  With [--clear] (lines 399-401), when the removal of a directory
    leaves no such directory and [main] exits with a status other than 70,
    the base directory (made absolute) does not exist afterwards. *)
Theorem X18_clear_removes_base_dir {L : Library} {W : Type} {E : Environment W}
    (fuel : nat) (argv : list string) (ARGS : Args.t) (w w' : W) (code : Z)
    (evs : list Event) :
  (forall path w0 w1, fs_ext (Rmtree path) w0 = (Ok tt, w1) -> path_exists path w1 = false) ->
  parse_options_and_set_ctx argv = Ok ARGS ->
  Args.clear ARGS = true ->
  main fuel argv w = (Ok code, evs, w') ->
  code <> 70 ->
  path_exists (path_absolute (Args.base_dir ARGS)) w' = false.
Proof.
  intros Hrm Hparse Hclear Hmain Hcode. unfold main in Hmain.
  destruct (inner fuel argv w) as [[[retcode|e|] evs'] w''] eqn:Hinner.
  - injection Hmain as _ _ ->.
    apply inner_Ok_inv in Hinner
      as (ARGS0 & evs0 & w0 & evs1 & w1 & evs2 & Hparse' & _ & Hclean & _).
    rewrite Hparse in Hparse'. injection Hparse' as <-.
    unfold clear_base_dir, bind, read, when, call, ret in Hclean. simpl in Hclean.
    rewrite Hclear, andb_true_r in Hclean.
    destruct (path_exists (path_absolute (Args.base_dir ARGS)) w1) eqn:Hthere.
    + destruct (fs_ext (Rmtree (path_absolute (Args.base_dir ARGS))) w1)
        as [[[]|e|] w2] eqn:Hfs; try discriminate Hclean.
      injection Hclean as _ <-. by apply Hrm in Hfs.
    + by injection Hclean as _ <-.
  - destruct (is_Exception e); [|discriminate Hmain]. injection Hmain as <- _ _. done.
  - discriminate Hmain.
Qed.

Lemma Disk_remove_spec (path : string) (w : list string) :
  existsb (String.eqb path) (Disk.remove path w) = false.
Proof.
  induction w as [|q w IH]; simpl; [done|].
  destruct (String.eqb path q) eqn:Hq; simpl; [done|]. by rewrite Hq.
Qed.

Lemma X18_witness :
  path_exists (Environment := Disk.env Scenario.compare) "base"
    (snd (main (L := Scenario.library Disk.args_clear) (E := Disk.env Scenario.compare)
            0 [] ["base"]))
  = false.
Proof.
  apply (X18_clear_removes_base_dir (L := Scenario.library Disk.args_clear)
           (E := Disk.env Scenario.compare) 0 [] Disk.args_clear ["base"] _ 1
           (events (main (L := Scenario.library Disk.args_clear)
                      (E := Disk.env Scenario.compare) 0 [] ["base"]))).
  - intros path w0 w1 [= <-]. apply Disk_remove_spec.
  - reflexivity.
  - reflexivity.
  - vm_compute. reflexivity.
  - lia.
Defined.

(** ** The validation of the expected successes *)

Lemma checked_app (evs evs' : list Event) :
  checked (evs ++ evs') = checked evs ++ checked evs'.
Proof. apply omap_app. Qed.

Lemma prints_silent (evs : list Event) :
  Forall (fun ev => is_print ev = false) evs -> prints evs = [].
Proof.
  induction 1 as [|ev evs Hev _ IH]; [done|].
  destruct ev; try discriminate Hev; exact IH.
Qed.

Lemma bind_assoc {W A B C} (m : M W A) (f : A -> M W B) (g : B -> M W C) (w : W) :
  bind (bind m f) g w = bind m (fun a => bind (f a) g) w.
Proof.
  unfold bind. destruct (m w) as [[[a|e|] evs] w1]; try done.
  destruct (f a w1) as [[[b|e|] evs'] w2]; try done.
  destruct (g b w2) as [[r evs''] w3]. by rewrite app_assoc.
Qed.

Section Validation.
Context {L : Library} {W : Type} {E : Environment W}.

Lemma first_success_spec (ARGS : Args.t) (p : Project.t) (exes : list string)
    (w w' : W) (found : option string) (evs : list Event) :
  first_success ARGS p exes w = (Ok found, evs, w') ->
  w' = w /\
  exists before,
    checked evs = before ++ option_list found /\
    (forall x, x ∈ before ->
       exists r, run_mypy_ext p x w = Ok r /\ success r = false) /\
    match found with
    | Some exe =>
        exists after r,
          exes = before ++ exe :: after /\ run_mypy_ext p exe w = Ok r /\ success r = true
    | None => exes = before
    end.
Proof.
  revert evs. induction exes as [|exe rest IH]; intros evs; simpl.
  - intros [= <- <- <-]. split; [done|]. exists []. split; [done|]. split; [|done].
    intros x Hx. by apply elem_of_nil in Hx.
  - intros Hrun. apply bind_Ok_inv in Hrun as (r & evs1 & w1 & evs2 & Hask & Hrun & ->).
    unfold ask in Hask. injection Hask as Hr <- <-.
    apply bind_Ok_inv in Hrun as (? & evs3 & w3 & evs4 & Hdebug & Hrun & ->).
    assert (w3 = w /\ checked evs3 = []) as [-> Hquiet].
    { unfold when, debug_print, emit, bind, ret in Hdebug.
      destruct (Args.debug ARGS); by injection Hdebug as _ <- <-. }
    change (EvRunMypy p exe :: evs3 ++ evs4) with ([EvRunMypy p exe] ++ evs3 ++ evs4).
    rewrite !checked_app, Hquiet. simpl.
    destruct (success r) eqn:Hsuccess.
    + unfold ret in Hrun. injection Hrun as <- <- <-. split; [done|].
      exists []. split; [done|]. split.
      * intros y Hy. by apply elem_of_nil in Hy.
      * by exists rest, r.
    + apply IH in Hrun as (-> & before & Hchecked & Hbefore & Hfound). split; [done|].
      exists (exe :: before). split; [by rewrite Hchecked|]. split.
      * intros y Hy. apply elem_of_cons in Hy as [->|Hy]; [by exists r | by apply Hbefore].
      * destruct found as [exe'|]; [|by rewrite Hfound].
        destruct Hfound as (after & r' & -> & Hr' & Hs'). by exists after, r'.
Qed.

Lemma print_truthy_prints (results : list (option string)) (w : W) :
  exists out,
    print_truthy results w = (Ok tt, out, w) /\ Forall (fun ev => is_print ev = true) out.
Proof.
  induction results as [|result rest IH]; simpl; [by exists []|].
  destruct IH as (out & Hrest & Hout).
  unfold bind, print, emit, ret.
  destruct (truthy_str result) as [text|]; rewrite Hrest; eexists; split; try done.
  by constructor.
Qed.
End Validation.

(** X19.  What [inner] of [validate_expected_success] (lines 187-206)
    answers for a project: no message exactly when the mark of the project
    agrees with the checkers, that is, when the project expects success if
    and only if one of the recent checkers succeeds on it.  The checkers
    are tried in the order of the list and none is run after one has
    succeeded. *)
Theorem X19_validation_verdict {L : Library} {W : Type} {E : Environment W}
    (ARGS : Args.t) (recent : list string) (p : Project.t) (w w' : W)
    (msg : option string) (evs : list Event) :
  validate_inner ARGS recent p w = (Ok msg, evs, w') ->
  (msg = None <->
   (Project.expected_success p = true <->
    exists exe r, exe ∈ recent /\ run_mypy_ext p exe w' = Ok r /\ success r = true)) /\
  exists before,
    (forall x, x ∈ before -> exists r, run_mypy_ext p x w' = Ok r /\ success r = false) /\
    ((recent = before /\ checked evs = before) \/
     exists exe after r,
       recent = before ++ exe :: after /\ checked evs = before ++ [exe] /\
       run_mypy_ext p exe w' = Ok r /\ success r = true).
Proof.
  intros Hrun. unfold validate_inner in Hrun.
  apply bind_Ok_inv in Hrun as (? & evs1 & w1 & evs2 & Hsetup & Hrun & ->).
  unfold call in Hsetup. destruct (project_setup_ext p w) as [r0 w0].
  injection Hsetup as _ <- <-.
  apply bind_Ok_inv in Hrun as (found & evs3 & w3 & evs4 & Hfound & Hmsg & ->).
  apply first_success_spec in Hfound as (-> & before & Hchecked & Hbefore & Hfound).
  assert (w' = w0 /\ evs4 = []) as [-> ->].
  { unfold ret in Hmsg.
    repeat match type of Hmsg with
           | (if ?b then _ else _) _ = _ => destruct b
           end; by injection Hmsg as _ <- <-. }
  change (EvProjectSetup p :: evs3 ++ []) with ([EvProjectSetup p] ++ evs3 ++ []).
  rewrite !checked_app, Hchecked, app_nil_r. simpl.
  split.
  - destruct found as [exe|]; simpl in Hmsg.
    + destruct Hfound as (after & r & -> & Hr & Hs).
      assert (exists exe0 r1, exe0 ∈ before ++ exe :: after /\
                run_mypy_ext p exe0 w0 = Ok r1 /\ success r1 = true) as Hsome.
      { exists exe, r. split; [|done]. apply elem_of_app. right. by left. }
      unfold ret in Hmsg.
      destruct (Project.expected_success p); simpl in Hmsg; injection Hmsg as <-.
      * split; [done|]. done.
      * split; [done|]. intros [_ Hback]. exfalso. by apply Hback in Hsome.
    + subst recent.
      assert (~ exists exe0 r1, exe0 ∈ before /\
                run_mypy_ext p exe0 w0 = Ok r1 /\ success r1 = true) as Hnone.
      { intros (exe0 & r1 & Hin & Hr1 & Hs1).
        apply Hbefore in Hin as (r2 & Hr2 & Hs2). congruence. }
      unfold ret in Hmsg.
      destruct (Project.expected_success p); simpl in Hmsg; injection Hmsg as <-.
      * split; [done|]. intros [Hforth _]. exfalso. by apply Hnone, Hforth.
      * split; [|done]. intros _. split; [done|]. intros Hsome. by apply Hnone in Hsome.
  - exists before. split; [done|].
    destruct found as [exe|]; simpl.
    + right. destruct Hfound as (after & r & -> & Hr & Hs). by exists exe, after, r.
    + left. by rewrite app_nil_r.
Qed.

(** X20.  [validate_expected_success] (lines 178-211) prints its messages
    only once every project has been checked: all it prints comes after all
    the work, and when the validation raises nothing has been printed. *)
Theorem X20_validation_prints_last {L : Library} {W : Type} {E : Environment W}
    (ARGS : Args.t) (w w' : W) (r : Res unit) (evs : list Event) :
  validate_expected_success ARGS w = (r, evs, w') ->
  exists work out,
    evs = work ++ out /\ prints work = [] /\
    Forall (fun ev => is_print ev = true) out /\
    (r <> Ok tt -> out = []).
Proof.
  set (checks :=
    do recent_mypy_exes <- gather
      (map (fun recent_mypy =>
              setup_mypy (path_join (Args.base_dir ARGS) (String.append "mypy_" recent_mypy))
                         (RevStr recent_mypy) false)
           RECENT_MYPYS);
    do projects <- lift (select_projects ARGS);
    gather (map (validate_inner ARGS recent_mypy_exes) projects)).
  assert (Hquiet : silent is_print checks).
  { unfold checks. apply silent_bind; [apply silent_gather_map; intros ?|intros exes].
    - unfold_coroutines. silent_auto.
    - apply silent_bind; [apply silent_lift|intros projects].
      apply silent_gather_map. intros p. unfold validate_inner.
      apply silent_bind; [apply silent_call; reflexivity|intros _].
      apply silent_bind; [|intros found; silent_auto].
      induction exes as [|exe rest IH]; simpl; [apply silent_ret|].
      unfold_coroutines. silent_auto. }
  assert (Hsplit : validate_expected_success ARGS w = bind checks print_truthy w).
  { unfold validate_expected_success, checks.
    rewrite bind_assoc. unfold bind at 1 4.
    destruct (gather _ w) as [[[exes|e|] evs0] w0]; try done.
    by rewrite bind_assoc. }
  rewrite Hsplit. specialize (Hquiet w). unfold events in Hquiet. unfold bind.
  destruct (checks w) as [[[results|e|] work] w1]; simpl in Hquiet.
  - destruct (print_truthy_prints results w1) as (out & -> & Hout).
    intros [= <- <- <-]. exists work, out. by split; [|split; [apply prints_silent|]].
  - intros [= <- <- <-]. exists work, []. rewrite app_nil_r.
    by split; [|split; [apply prints_silent|]].
  - intros [= <- <- <-]. exists work, []. rewrite app_nil_r.
    by split; [|split; [apply prints_silent|]].
Qed.

Lemma X19_witness :
  ~ (Project.expected_success Example.a = true <->
     exists exe r,
       exe ∈ ["m1"; "m2"] /\
       run_mypy_ext (Environment := Scenario.environment) Example.a exe Scenario.start = Ok r /\
       success r = true).
Proof.
  edestruct (X19_validation_verdict (L := Scenario.library Example.args)
               (E := Scenario.environment) Example.args ["m1"; "m2"] Example.a
               Scenario.start) as [Hiff _].
  - vm_compute. reflexivity.
  - intros Hagree. apply Hiff in Hagree. discriminate Hagree.
Defined.

Lemma X20_witness :
  exists work out,
    events (validate_expected_success (L := Scenario.library Example.args)
              (E := Scenario.environment) Example.args Scenario.start)
    = work ++ out /\
    prints work = [] /\ Forall (fun ev => is_print ev = true) out.
Proof.
  edestruct (X20_validation_prints_last (L := Scenario.library Example.args)
               (E := Scenario.environment) Example.args Scenario.start)
    as (work & out & Hevs & Hwork & Hout & _).
  - vm_compute. reflexivity.
  - exists work, out. split; [exact Hevs|]. by split.
Defined.

(** ** The steps of [setup_mypy] *)

Lemma and_then_Ok_inv {S A B} (m : Setup.P S A) (f : A -> Setup.P S B) (s s' : S) (b : B)
    (steps : list Setup.Step) :
  Setup.and_then m f s = (Ok b, steps, s') ->
  exists a steps1 s1 steps2,
    m s = (Ok a, steps1, s1) /\ f a s1 = (Ok b, steps2, s') /\ steps = steps1 ++ steps2.
Proof.
  unfold Setup.and_then. destruct (m s) as [[[a|e|] steps1] s1]; try discriminate.
  destruct (f a s1) as [[r steps2] s2] eqn:Hf. intros [= -> <- <-].
  exists a, steps1, s1, steps2. auto.
Qed.

Lemma step_inv {S A} (st : Setup.Step) (tool : S -> Res A * S) (s s' : S) (r : Res A)
    (steps : list Setup.Step) :
  Setup.step st tool s = (r, steps, s') -> tool s = (r, s') /\ steps = [st].
Proof. unfold Setup.step. destruct (tool s) as [r0 s0]. by intros [= <- <- <-]. Qed.

Section SetupFacts.
Context {S : Type} {T : Setup.Tools S}.

Lemma warm_up_inv (c : Setup.Ctx) (mypy_dir : string) (s s' : S) (exe : string)
    (steps : list Setup.Step) :
  Setup.and_then
    (if Setup.darwin c
     then Setup.step (Setup.Run [Setup.mypy_exe c mypy_dir; "--version"] None None)
            (Setup.run [Setup.mypy_exe c mypy_dir; "--version"] None None)
     else Setup.pure tt)
    (fun _ s0 => if Setup.path_exists (Setup.mypy_exe c mypy_dir) s0
                 then (Ok (Setup.mypy_exe c mypy_dir), [], s0)
                 else (Raise AssertionError, [], s0)) s
  = (Ok exe, steps, s') ->
  exe = Setup.mypy_exe c mypy_dir /\ Setup.path_exists exe s' = true /\
  steps = Setup.warm_up c mypy_dir.
Proof.
  intros Hrun. apply and_then_Ok_inv in Hrun as (? & steps1 & s1 & steps2 & Hwarm & Hexe & ->).
  destruct (Setup.path_exists (Setup.mypy_exe c mypy_dir) s1) eqn:Hthere; [|discriminate Hexe].
  injection Hexe as <- <- <-. split; [done|]. split; [done|].
  unfold Setup.warm_up. destruct (Setup.darwin c).
  - apply step_inv in Hwarm as [_ ->]. done.
  - by injection Hwarm as _ <- _.
Qed.

Lemma install_from_repository_inv (c : Setup.Ctx) (mypy_dir : string)
    (revision_like : RevisionLike) (editable : bool) (s s' : S) (u : unit)
    (steps : list Setup.Step) :
  Setup.install_from_repository c mypy_dir (path_join mypy_dir "venv")
    (Setup.pip_exe c mypy_dir) revision_like editable s = (Ok u, steps, s') ->
  exists repo_dir,
    steps
    = [Setup.EnsureRepo (Setup.repo c) mypy_dir revision_like] ++
      match Setup.mypyc_compile_level c with
      | Some level =>
          [Setup.Run [Setup.pip_exe c mypy_dir; "install"; "typing_extensions";
                      "mypy_extensions"] None None;
           Setup.Run (Setup.build_cmd (Setup.python_exe c mypy_dir)) (Some repo_dir)
             (Some level)]
      | None => []
      end ++
      [Setup.Run (Setup.install_cmd (Setup.pip_exe c mypy_dir) editable repo_dir) None None].
Proof.
  intros Hrun. unfold Setup.install_from_repository in Hrun.
  apply and_then_Ok_inv in Hrun as (repo_dir & steps1 & s1 & steps2 & Hclone & Hrun & ->).
  apply step_inv in Hclone as [_ ->].
  apply and_then_Ok_inv in Hrun as (? & steps3 & s3 & steps4 & Hbuild & Hrun & ->).
  apply step_inv in Hrun as [_ ->]. exists repo_dir. do 2 f_equal.
  destruct (Setup.mypyc_compile_level c) as [level|].
  - apply and_then_Ok_inv in Hbuild as (? & steps5 & s5 & steps6 & Hdeps & Hbuild & ->).
    apply step_inv in Hdeps as [_ ->]. apply step_inv in Hbuild as [_ ->]. done.
  - by injection Hbuild as _ <- _.
Qed.
End SetupFacts.

Section SetupRoutes.
Context {S : Type} {T : Setup.Tools S}.

(** What a successful [setup_mypy] has done, route by route. *)
Lemma setup_mypy_Ok_inv (c : Setup.Ctx) (mypy_dir : string) (revision_like : RevisionLike)
    (editable : bool) (s s' : S) (exe : string) (steps : list Setup.Step) :
  Setup.setup_mypy c mypy_dir revision_like editable s = (Ok exe, steps, s') ->
  exe = Setup.mypy_exe c mypy_dir /\ Setup.path_exists exe s' = true /\
  exists install,
    steps = [Setup.Mkdir mypy_dir; Setup.VenvCreate (path_join mypy_dir "venv")] ++
            install ++ Setup.warm_up c mypy_dir /\
    let editable' :=
      match Setup.mypyc_compile_level c with Some _ => true | None => editable end in
    let from_repository repo_dir :=
      [Setup.EnsureRepo (Setup.repo c) mypy_dir revision_like] ++
      match Setup.mypyc_compile_level c with
      | Some level =>
          [Setup.Run [Setup.pip_exe c mypy_dir; "install"; "typing_extensions";
                      "mypy_extensions"] None None;
           Setup.Run (Setup.build_cmd (Setup.python_exe c mypy_dir)) (Some repo_dir)
             (Some level)]
      | None => []
      end ++
      [Setup.Run (Setup.install_cmd (Setup.pip_exe c mypy_dir) editable' repo_dir)
         None None] in
    match revision_like with
    | RevStr revision =>
        if negb editable' && String.eqb (Setup.repo c) Setup.UPSTREAM then
          install = [Setup.Run (Setup.pypi_cmd (Setup.pip_exe c mypy_dir) revision) None None]
          \/ exists repo_dir,
               install
               = Setup.Run (Setup.pypi_cmd (Setup.pip_exe c mypy_dir) revision) None None
                 :: from_repository repo_dir
        else exists repo_dir, install = from_repository repo_dir
    | _ => exists repo_dir, install = from_repository repo_dir
    end.
Proof.
  intros Hrun. unfold Setup.setup_mypy in Hrun.
  apply and_then_Ok_inv in Hrun as (? & steps1 & s1 & ? & Hmkdir & Hrun & ->).
  apply step_inv in Hmkdir as [_ ->]. cbv zeta in Hrun.
  apply and_then_Ok_inv in Hrun as (? & steps2 & s2 & ? & Hvenv & Hrun & ->).
  apply step_inv in Hvenv as [_ ->].
  apply and_then_Ok_inv in Hrun as (from_repo & steps3 & s3 & ? & Hpypi & Hrun & ->).
  apply and_then_Ok_inv in Hrun as (? & steps4 & s4 & steps5 & Hrepo & Hrun & ->).
  apply warm_up_inv in Hrun as (-> & Hthere & ->).
  split; [done|]. split; [done|].
  exists (steps3 ++ steps4). split; [by rewrite <- !app_assoc|]. cbv zeta.
  assert (Hclone : from_repo = true ->
    exists repo_dir,
      steps4
      = [Setup.EnsureRepo (Setup.repo c) mypy_dir revision_like] ++
        match Setup.mypyc_compile_level c with
        | Some level =>
            [Setup.Run [Setup.pip_exe c mypy_dir; "install"; "typing_extensions";
                        "mypy_extensions"] None None;
             Setup.Run (Setup.build_cmd (Setup.python_exe c mypy_dir)) (Some repo_dir)
               (Some level)]
        | None => []
        end ++
        [Setup.Run (Setup.install_cmd (Setup.pip_exe c mypy_dir)
                      match Setup.mypyc_compile_level c with
                      | Some _ => true
                      | None => editable
                      end repo_dir) None None]).
  { intros ->. by apply install_from_repository_inv in Hrepo. }
  assert (Hdirect : steps3 = [] -> from_repo = true ->
                    exists repo_dir, steps3 ++ steps4 = _) by (intros -> ?; by apply Hclone).
  destruct revision_like as [|revision|descr];
    try (injection Hpypi as <- <- _; by apply Hdirect).
  destruct (negb _ && String.eqb (Setup.repo c) Setup.UPSTREAM);
    [|injection Hpypi as <- <- _; by apply Hdirect].
  unfold Setup.install_from_pypi in Hpypi.
  destruct (Setup.run _ None None s2) as [[[]|[]|] s2'];
    try discriminate Hpypi; injection Hpypi as <- <- _.
  - left. injection Hrepo as _ <- _. done.
  - right. destruct Hclone as [repo_dir ->]; [done|]. by exists repo_dir.
Qed.
End SetupRoutes.

Section Quiet.
Context {S : Type} (Q : Setup.Step -> bool).

Lemma quiet_pure {A} (a : A) : quiet Q (Setup.pure (S := S) a).
Proof. intros s. constructor. Qed.

Lemma quiet_step {A} (st : Setup.Step) (tool : S -> Res A * S) :
  Q st = false -> quiet Q (Setup.step st tool).
Proof. intros Hst s. unfold Setup.step. destruct (tool s). by repeat constructor. Qed.

Lemma quiet_and_then {A B} (m : Setup.P S A) (f : A -> Setup.P S B) :
  quiet Q m -> (forall a, quiet Q (f a)) -> quiet Q (Setup.and_then m f).
Proof.
  intros Hm Hf s. specialize (Hm s). unfold Setup.and_then.
  destruct (m s) as [[[a|e|] steps] s1]; simpl in *; try done.
  specialize (Hf a s1). destruct (f a s1) as [[r steps'] s2]; simpl in *.
  by apply Forall_app.
Qed.
End Quiet.

Lemma is_pypi_install_cmd (pip_exe repo_dir : string) (editable : bool) :
  Setup.is_pypi (Setup.Run (Setup.install_cmd pip_exe editable repo_dir) None None) = false.
Proof. by destruct editable. Qed.

Lemma is_pypi_pypi_cmd (pip_exe revision : string) :
  Setup.is_pypi (Setup.Run (Setup.pypi_cmd pip_exe revision) None None) = true.
Proof. destruct revision; vm_compute; reflexivity. Qed.

(** X21.  When [setup_mypy] (lines 41-87) returns, its answer is the
    executable of the checker in the virtual environment of the
    directory, and that file exists; the setup has taken at least one of
    the two routes, an installation from PyPI and a clone of the
    repository, and each of them at most once. *)
Theorem X21_setup_answers_installed_checker {S : Type} {T : Setup.Tools S}
    (c : Setup.Ctx) (mypy_dir : string) (revision_like : RevisionLike) (editable : bool)
    (s s' : S) (exe : string) (steps : list Setup.Step) :
  Setup.setup_mypy c mypy_dir revision_like editable s = (Ok exe, steps, s') ->
  exe = Setup.mypy_exe c mypy_dir /\ Setup.path_exists exe s' = true /\
  (length (List.filter Setup.is_clone steps) <= 1)%nat /\
  (length (List.filter Setup.is_pypi steps) <= 1)%nat /\
  (1 <= length (List.filter Setup.is_clone steps)
        + length (List.filter Setup.is_pypi steps))%nat.
Proof.
  intros Hrun.
  apply setup_mypy_Ok_inv in Hrun as (-> & Hthere & install & -> & Hroute).
  split; [done|]. split; [done|]. cbv zeta in Hroute. unfold Setup.warm_up.
  destruct revision_like as [|revision|descr], (Setup.mypyc_compile_level c) as [level|],
    editable, (Setup.darwin c);
    try destruct (String.eqb (Setup.repo c) Setup.UPSTREAM);
    simpl in Hroute;
    repeat match type of Hroute with
           | _ \/ _ => destruct Hroute as [Hroute|Hroute]
           | exists _, _ => destruct Hroute as [repo_dir Hroute]
           end;
    subst install; try destruct revision; vm_compute; lia.
Qed.

(** X22.  [setup_mypy] (lines 50-61) tries PyPI only for a released
    revision of the upstream repository that is not to be compiled or
    edited: with [editable], with a mypyc compile level, with another
    repository or with a revision that is not a string, no step of the
    setup, however it ends, installs the checker from PyPI. *)
Theorem X22_no_pypi_install {S : Type} {T : Setup.Tools S}
    (c : Setup.Ctx) (mypy_dir : string) (revision_like : RevisionLike) (editable : bool)
    (s : S) :
  editable = true \/ Setup.mypyc_compile_level c <> None \/
  Setup.repo c <> Setup.UPSTREAM \/ (forall revision, revision_like <> RevStr revision) ->
  Forall (fun st => Setup.is_pypi st = false)
    (snd (fst (Setup.setup_mypy c mypy_dir revision_like editable s))).
Proof.
  intros Hwhy. revert s. fold (quiet Setup.is_pypi (Setup.setup_mypy c mypy_dir revision_like editable)).
  unfold Setup.setup_mypy.
  apply quiet_and_then; [by apply quiet_step|intros _]. cbv zeta.
  apply quiet_and_then; [by apply quiet_step|intros _].
  apply quiet_and_then; [|intros from_repo].
  - destruct revision_like as [|revision|descr]; try apply quiet_pure.
    destruct (negb _ && String.eqb (Setup.repo c) Setup.UPSTREAM) eqn:Hpypi;
      [|apply quiet_pure].
    exfalso. apply andb_prop in Hpypi as [Hedit Hrepo].
    apply String.eqb_eq in Hrepo.
    destruct Hwhy as [->|[Hlevel|[Hother|Hrev]]].
    + by destruct (Setup.mypyc_compile_level c).
    + by destruct (Setup.mypyc_compile_level c).
    + done.
    + by apply (Hrev revision).
  - apply quiet_and_then; [|intros _].
    + destruct from_repo; [|apply quiet_pure].
      unfold Setup.install_from_repository.
      apply quiet_and_then; [by apply quiet_step|intros repo_dir].
      apply quiet_and_then; [|intros _].
      * destruct (Setup.mypyc_compile_level c); [|apply quiet_pure].
        apply quiet_and_then; [by apply quiet_step|intros _]. by apply quiet_step.
      * apply quiet_step, is_pypi_install_cmd.
    + apply quiet_and_then; [|intros _].
      * destruct (Setup.darwin c); [by apply quiet_step | apply quiet_pure].
      * intros s. by destruct (Setup.path_exists _ s).
Qed.

(** X23.  With a mypyc compile level (lines 47-48, 63-80), whatever the
    revision and whatever [editable] was asked for, a setup that returns
    has cloned the repository, installed the build requirements, compiled
    in the clone with [MYPYC_OPT_LEVEL] set to the level, and installed the
    clone with [--editable]; these are all its steps before the warm-up. *)
Theorem X23_mypyc_builds_editable_clone {S : Type} {T : Setup.Tools S}
    (c : Setup.Ctx) (mypy_dir : string) (revision_like : RevisionLike) (editable : bool)
    (level : Z) (s s' : S) (exe : string) (steps : list Setup.Step) :
  Setup.mypyc_compile_level c = Some level ->
  Setup.setup_mypy c mypy_dir revision_like editable s = (Ok exe, steps, s') ->
  exists repo_dir,
    steps
    = [Setup.Mkdir mypy_dir;
       Setup.VenvCreate (path_join mypy_dir "venv");
       Setup.EnsureRepo (Setup.repo c) mypy_dir revision_like;
       Setup.Run [Setup.pip_exe c mypy_dir; "install"; "typing_extensions"; "mypy_extensions"]
         None None;
       Setup.Run [Setup.python_exe c mypy_dir; "setup.py"; "--use-mypyc"; "build_ext";
                  "--inplace"] (Some repo_dir) (Some level);
       Setup.Run [Setup.pip_exe c mypy_dir; "install"; "--editable"; repo_dir; "tomli"]
         None None]
      ++ Setup.warm_up c mypy_dir.
Proof.
  intros Hlevel Hrun.
  apply setup_mypy_Ok_inv in Hrun as (_ & _ & install & -> & Hroute).
  rewrite Hlevel in Hroute. cbv zeta in Hroute.
  assert (exists repo_dir,
    install
    = [Setup.EnsureRepo (Setup.repo c) mypy_dir revision_like;
       Setup.Run [Setup.pip_exe c mypy_dir; "install"; "typing_extensions"; "mypy_extensions"]
         None None;
       Setup.Run (Setup.build_cmd (Setup.python_exe c mypy_dir)) (Some repo_dir) (Some level);
       Setup.Run (Setup.install_cmd (Setup.pip_exe c mypy_dir) true repo_dir) None None])
    as [repo_dir ->].
  { by destruct revision_like. }
  by exists repo_dir.
Qed.

(** X24.  The optimistic installation from PyPI (lines 57-61) forgives a
    failure of [pip] only: after a [CalledProcessError] the next step of
    [setup_mypy] is the clone of the repository, and any other exception
    ends the setup at once, with that exception. *)
Theorem X24_pypi_failure {S : Type} {T : Setup.Tools S}
    (c : Setup.Ctx) (mypy_dir revision : string) (e : exn) (s s1 s2 s3 : S) :
  Setup.mypyc_compile_level c = None ->
  Setup.repo c = Setup.UPSTREAM ->
  Setup.mkdir mypy_dir s = (Ok tt, s1) ->
  Setup.venv_create (path_join mypy_dir "venv") s1 = (Ok tt, s2) ->
  Setup.run (Setup.pypi_cmd (Setup.pip_exe c mypy_dir) revision) None None s2
  = (Raise e, s3) ->
  let attempt :=
    [Setup.Mkdir mypy_dir; Setup.VenvCreate (path_join mypy_dir "venv");
     Setup.Run (Setup.pypi_cmd (Setup.pip_exe c mypy_dir) revision) None None] in
  match e with
  | CalledProcessError _ =>
      exists r rest s',
        Setup.setup_mypy c mypy_dir (RevStr revision) false s
        = (r, attempt ++ Setup.EnsureRepo (Setup.repo c) mypy_dir (RevStr revision) :: rest, s')
  | _ => Setup.setup_mypy c mypy_dir (RevStr revision) false s = (Raise e, attempt, s3)
  end.
Proof.
  intros Hlevel Hrepo Hmkdir Hvenv Hpip attempt. subst attempt.
  assert (Hstart : forall k : bool -> Setup.P S string,
    Setup.and_then (Setup.step (Setup.Mkdir mypy_dir) (Setup.mkdir mypy_dir)) (fun _ =>
      Setup.and_then (Setup.step (Setup.VenvCreate (path_join mypy_dir "venv"))
                        (Setup.venv_create (path_join mypy_dir "venv"))) (fun _ =>
        Setup.and_then (Setup.install_from_pypi (Setup.pip_exe c mypy_dir) revision) k)) s
    = match e with
      | CalledProcessError _ =>
          match k true s3 with
          | (r, steps, s') =>
              (r, [Setup.Mkdir mypy_dir; Setup.VenvCreate (path_join mypy_dir "venv");
                   Setup.Run (Setup.pypi_cmd (Setup.pip_exe c mypy_dir) revision) None None]
                  ++ steps, s')
          end
      | _ =>
          (Raise e,
           [Setup.Mkdir mypy_dir; Setup.VenvCreate (path_join mypy_dir "venv");
            Setup.Run (Setup.pypi_cmd (Setup.pip_exe c mypy_dir) revision) None None], s3)
      end).
  { intros k. unfold Setup.and_then, Setup.step, Setup.install_from_pypi.
    rewrite Hmkdir, Hvenv, Hpip. destruct e; try reflexivity.
    by destruct (k true s3) as [[r steps] s']. }
  assert (Hsetup : Setup.setup_mypy c mypy_dir (RevStr revision) false s = _)
    by (unfold Setup.setup_mypy; rewrite Hlevel, Hrepo; apply Hstart).
  rewrite Hsetup. destruct e; try reflexivity.
  unfold Setup.install_from_repository, Setup.and_then at 1 2, Setup.step at 1.
  destruct (Setup.ensure_repo_at_revision _ mypy_dir (RevStr revision) s3)
    as [[repo_dir|e|] s4].
  - destruct (Setup.and_then _ _ s4) as [[[u|e|] steps] s0].
    + destruct (Setup.and_then _ _ s0) as [[r steps'] s5]. by eexists _, _, _.
    + by eexists _, _, _.
    + by eexists _, _, _.
  - by eexists _, _, _.
  - by eexists _, _, _.
Qed.

Lemma X21_witness :
  (length (List.filter Setup.is_pypi
             (snd (fst (Setup.setup_mypy (T := Setup.tools ["0.991"])
                          (Setup.ctx None Setup.UPSTREAM) "m" (RevStr "0.991") false []))))
   <= 1)%nat.
Proof.
  edestruct (X21_setup_answers_installed_checker (T := Setup.tools ["0.991"])
               (Setup.ctx None Setup.UPSTREAM) "m" (RevStr "0.991") false [])
    as (_ & _ & _ & Hpypi & _).
  - vm_compute. reflexivity.
  - exact Hpypi.
Defined.

Lemma X22_witness :
  Forall (fun st => Setup.is_pypi st = false)
    (snd (fst (Setup.setup_mypy (T := Setup.tools ["0.991"])
                 (Setup.ctx None Setup.UPSTREAM) "m" (RevStr "0.991") true []))).
Proof.
  apply (X22_no_pypi_install (T := Setup.tools ["0.991"])
           (Setup.ctx None Setup.UPSTREAM) "m" (RevStr "0.991") true []).
  left. reflexivity.
Defined.

Lemma X23_witness :
  exists repo_dir,
    snd (fst (Setup.setup_mypy (T := Setup.tools ["0.991"])
                (Setup.ctx (Some 3) Setup.UPSTREAM) "m" (RevStr "0.991") false []))
    = [Setup.Mkdir "m"; Setup.VenvCreate "m/venv";
       Setup.EnsureRepo Setup.UPSTREAM "m" (RevStr "0.991");
       Setup.Run ["m/venv/bin/pip"; "install"; "typing_extensions"; "mypy_extensions"]
         None None;
       Setup.Run ["m/venv/bin/python"; "setup.py"; "--use-mypyc"; "build_ext"; "--inplace"]
         (Some repo_dir) (Some 3);
       Setup.Run ["m/venv/bin/pip"; "install"; "--editable"; repo_dir; "tomli"] None None].
Proof.
  edestruct (X23_mypyc_builds_editable_clone (T := Setup.tools ["0.991"])
               (Setup.ctx (Some 3) Setup.UPSTREAM) "m" (RevStr "0.991") false 3 [])
    as [repo_dir Hsteps].
  - reflexivity.
  - vm_compute. reflexivity.
  - exists repo_dir. vm_compute in Hsteps. vm_compute. exact Hsteps.
Defined.

Lemma X24_witness :
  exists r rest s',
    Setup.setup_mypy (T := Setup.tools []) (Setup.ctx None Setup.UPSTREAM) "m"
      (RevStr "0.991") false []
    = (r,
       [Setup.Mkdir "m"; Setup.VenvCreate "m/venv";
        Setup.Run ["m/venv/bin/pip"; "install"; "mypy==0.991"] None None;
        Setup.EnsureRepo Setup.UPSTREAM "m" (RevStr "0.991")] ++ rest,
       s').
Proof.
  apply (X24_pypi_failure (T := Setup.tools []) (Setup.ctx None Setup.UPSTREAM) "m" "0.991"
           (CalledProcessError ["m/venv/bin/pip"; "install"; "mypy==0.991"])
           [] ["m"] ["m/venv"; "m"] ["m/venv"; "m"]);
    reflexivity.
Defined.

(** ** What the bisection finds on a linear history *)

Section LinearSound.
Context {L : Library} (checker : nat -> Project.t -> MypyResult)
        (compare : Project.t -> Res PrimerResult).

Abbreviation senv := (Linear.env checker compare).

Lemma bisect_loop_sound (ARGS : Args.t) (projects : list Project.t)
    (mypy_exe repo_dir : string) (g0 b0 fuel : nat) (w w' : Linear.Checkout)
    (evs : list Event) :
  bounded checker ARGS projects g0 b0 w ->
  bisect_loop (E := senv) fuel ARGS projects mypy_exe repo_dir
    (batch_results (checker g0) projects) w = (Ok tt, evs, w') ->
  located checker ARGS projects g0 b0 w'.
Proof.
  revert w evs. induction fuel as [|fuel IH]; intros w evs Hinv Hrun; [discriminate Hrun|].
  destruct Hinv as (g & b & Hg & Hb & Hg0 & Hgb & Hb0 & Hvg & Hvb & Hhead).
  destruct (verdict_total ARGS projects (checker g0) (checker (Linear.head w))) as [v Hv].
  fold (verdict_at checker ARGS projects g0 (Linear.head w)) in Hv.
  assert (Hv' : v = false -> (g < Linear.head w)%nat).
  { intros ->. destruct Hhead as [?|[Hh _]]; [lia|]. rewrite Hh in Hv. congruence. }
  destruct (linear_turn checker compare ARGS projects mypy_exe repo_dir g0 g b v w Hg Hb Hv)
    as (evs1 & Hturn & _); [lia | exact Hv' |].
  destruct (mark_facts v w g b Hg Hb) as (Hg1 & Hb1 & Hsize).
  simpl in Hrun. unfold runs in Hturn. unfold bind in Hrun. rewrite Hturn in Hrun.
  destruct (Linear.interval_size (mark v w) =? 1)%nat eqn:Hone.
  - injection Hrun as _ <-. apply Nat.eqb_eq in Hone. rewrite Hsize in Hone.
    destruct v.
    + exists (Linear.head w). rewrite Hg1, Hb1.
      assert (b = S (Linear.head w)) as -> by lia.
      split; [done|]. split; [done|]. split; [lia|]. split; [lia|]. by split.
    + specialize (Hv' eq_refl). exists g. rewrite Hg1, Hb1.
      assert (Linear.head w = S g) as Hh by lia. rewrite Hh in *.
      split; [done|]. split; [done|]. split; [lia|]. split; [lia|]. split; [done|]. by right.
  - apply Nat.eqb_neq in Hone. rewrite Hsize in Hone.
    destruct (advance_facts (mark v w) _ _ Hg1 Hb1) as (Hg2 & Hb2 & Hh2).
    { destruct v; exact Hone. }
    destruct (bisect_loop fuel ARGS projects mypy_exe repo_dir
                (batch_results (checker g0) projects) (advance (mark v w)))
      as [[r evs2] w2] eqn:Hloop.
    injection Hrun as -> _ ->.
    apply (fun Hinv => IH _ _ Hinv Hloop).
    pose proof (half_spec (b - Linear.head w)).
    pose proof (half_spec (Linear.head w - g)).
    destruct v.
    + exists (Linear.head w), b. rewrite Hg2, Hb2, Hh2.
      split; [done|]. split; [done|]. split; [lia|]. split; [lia|]. split; [lia|].
      split; [done|]. split; [done|]. left. lia.
    + specialize (Hv' eq_refl). exists g, (Linear.head w). rewrite Hg2, Hb2, Hh2.
      split; [done|]. split; [done|]. split; [lia|]. split; [lia|]. split; [lia|].
      split; [done|]. split; [by right|]. left. lia.
Qed.
End LinearSound.

(** X25.  Over the bisection primitive modelled as a binary search on a
    linear history: when [bisect] (lines 238-299) returns, the primitive
    is left with two adjacent revisions of the range between the old and
    the new revision; the oracle judged the first one good, and the second
    one either was judged bad or is the new revision itself, which the
    loop never tests. *)
Theorem X25_bisect_locates_boundary {L : Library} (checker : nat -> Project.t -> MypyResult)
    (compare : Project.t -> Res PrimerResult) (ARGS : Args.t) (projects : list Project.t)
    (old_rev new_rev : string) (g0 b0 fuel : nat) (w w' : Linear.Checkout)
    (evs : list Event) :
  rev_truthy (Args.new_typeshed ARGS) = false ->
  rev_truthy (Args.old_typeshed ARGS) = false ->
  revision_or_recent_tag_fn (Args.old_mypy ARGS) = RevStr old_rev ->
  Linear.index_of old_rev (Linear.revs w) = Some g0 ->
  Linear.resolve (if rev_truthy (Args.new_mypy ARGS) then Args.new_mypy ARGS
                  else RevStr "origin/HEAD") w = Ok new_rev ->
  Linear.index_of new_rev (Linear.revs w) = Some b0 ->
  select_projects ARGS = Ok projects -> projects <> [] ->
  (g0 < b0)%nat ->
  bisect (E := Linear.env checker compare) fuel ARGS w = (Ok tt, evs, w') ->
  located checker ARGS projects g0 b0 w'.
Proof.
  intros Hnt Hot Hold Hg0 Hnew Hb0 Hsel Hne Hlt Hrun.
  destruct (linear_init checker compare ARGS projects old_rev new_rev g0 b0 w)
    as (evs0 & mypy_exe & repo_dir & Hinit); try done.
  unfold runs in Hinit. unfold bisect in Hrun.
  apply bind_Ok_inv in Hrun as (st & evs1 & w1 & ? & Hinit' & Hrun & ->).
  rewrite Hinit in Hinit'. injection Hinit' as <- <- <-.
  apply bind_Ok_inv in Hrun as (good & evs2 & w2 & ? & Hgood & Hrun & ->).
  unfold lift in Hgood. injection Hgood as Hgood <- <-.
  apply bind_Ok_inv in Hrun as (? & evs3 & w3 & evs4 & Hassert & Hrun & ->).
  assert (good = true /\ w3 = if (b0 - g0 =? 1)%nat
                              then Linear.mk (Linear.revs w) g0 (Some g0) (Some b0)
                              else advance (Linear.mk (Linear.revs w) g0 (Some g0) (Some b0)))
    as [-> ->].
  { unfold py_assert, ret, raise in Hassert.
    destruct good; [by injection Hassert as _ _ <- | discriminate Hassert]. }
  apply (bisect_loop_sound checker compare ARGS projects mypy_exe repo_dir g0 b0 _ _ _ _)
    in Hrun; [exact Hrun|].
  set (w0 := Linear.mk (Linear.revs w) g0 (Some g0) (Some b0)).
  exists g0, b0.
  destruct (Nat.eqb_spec (b0 - g0) 1) as [Hone|Hone].
  - split_and!; first [done | lia | by left | right; simpl; lia].
  - destruct (advance_facts w0 g0 b0) as (Hg1 & Hb1 & Hh1); try done.
    pose proof (half_spec (b0 - g0)) as Hhalf.
    rewrite Hg1, Hb1, Hh1.
    split_and!; first [done | lia | by left].
Qed.

Lemma X25_witness :
  Linear.bad (snd (bisect (L := Scenario.library Example.args) (E := Scenario.environment) 2
                     (Scenario.args_bisect "r0" "r4" None) Scenario.start))
  = Some 3%nat.
Proof.
  edestruct (X25_bisect_locates_boundary (L := Scenario.library Example.args)
               Scenario.checker Scenario.compare (Scenario.args_bisect "r0" "r4" None)
               Scenario.corpus "r0" "r4" 0 4 2 Scenario.start)
    as (g & Hg & Hb & _);
    [first [reflexivity | discriminate | lia | vm_compute; reflexivity] ..|].
  vm_compute in Hg. injection Hg as <-. exact Hb.
Defined.

(** ** The reports of [measure_project_runtimes] and [coverage] *)

Lemma run_prints_nothing {W A} (m : M W A) (w w' : W) (r : Res A) (evs : list Event) :
  m w = (r, evs, w') -> silent is_print m -> prints evs = [].
Proof.
  intros Hrun Hm. apply prints_silent. specialize (Hm w).
  unfold events in Hm. by rewrite Hrun in Hm.
Qed.

Lemma insert_by_key_length (x : Z * Project.t) (l : list (Z * Project.t)) :
  length (insert_by_key x l) = S (length l).
Proof.
  induction l as [|y l IH]; simpl; [done|].
  destruct (fst x <? fst y); simpl; by rewrite ?IH.
Qed.

Lemma sorted_by_key_reverse_length (l : list (Z * Project.t)) :
  length (sorted_by_key_reverse l) = length l.
Proof.
  unfold sorted_by_key_reverse. rewrite length_map.
  induction l as [|x l IH]; simpl; [done|]. by rewrite insert_by_key_length, IH.
Qed.

Lemma py_map_length {A B} (f : A -> Res B) (l : list A) (ys : list B) :
  py_map f l = Ok ys -> length ys = length l.
Proof.
  revert ys. induction l as [|x l IH]; intros ys; simpl; [by intros [= <-]|].
  destruct (f x) as [y| |]; try discriminate.
  destruct (py_map f l) as [ys'| |]; try discriminate.
  intros [= <-]. simpl. by rewrite (IH ys').
Qed.

Section ReportFacts.
Context {L : Library} {W : Type} {E : Environment W}.



Lemma print_inv (text : string) (w w' : W) (u : unit) (evs : list Event) :
  print text w = (Ok u, evs, w') -> evs = [EvPrint text] /\ w' = w.
Proof. unfold print, emit. by intros [= <- <-]. Qed.

Lemma print_coverage_run (projects : list Project.t)
    (project_to_paths project_to_lines : list (string * Z)) (w w' : W) (u : unit)
    (evs : list Event) :
  print_coverage projects project_to_paths project_to_lines w = (Ok u, evs, w') ->
  w' = w /\ length (prints evs) = length projects.
Proof.
  destruct u. revert evs. induction projects as [|project rest IH]; intros evs; simpl.
  - by intros [= <- <-].
  - intros Hrun. apply bind_Ok_inv in Hrun as (lines & ? & ? & ? & Hlines & Hrun & ->).
    injection Hlines as _ <- <-.
    apply bind_Ok_inv in Hrun as (paths & ? & ? & ? & Hpaths & Hrun & ->).
    injection Hpaths as _ <- <-.
    apply bind_Ok_inv in Hrun as (? & ? & ? & evs' & Hprint & Hrun & ->).
    apply print_inv in Hprint as [-> ->].
    apply IH in Hrun as [-> Hlen]. split; [done|]. simpl.
    change (prints (EvPrint ?t :: evs')) with (t :: prints evs'). simpl. by rewrite Hlen.
Qed.

Lemma count_lines_quiet (paths : list string) : silent is_print (count_lines paths).
Proof.
  induction paths as [|path rest IH]; simpl; [apply silent_ret|]. silent_auto.
  all: try apply IH.
Qed.

Lemma coverage_counts_quiet (pairs : list (Project.t * list string))
    (project_to_paths project_to_lines : list (string * Z)) :
  silent is_print (coverage_counts pairs project_to_paths project_to_lines).
Proof.
  revert project_to_paths project_to_lines.
  induction pairs as [|[project paths] rest IH]; intros; simpl; [apply silent_ret|].
  apply silent_bind; [apply count_lines_quiet | intros lines; apply IH].
Qed.
End ReportFacts.


(** X27.  When [coverage] (lines 302-325) returns, it has printed one line
    per selected project and then the three lines of the summary, the first
    of which counts the selected projects. *)
Theorem X27_coverage_report {L : Library} {W : Type} {E : Environment W}
    (ARGS : Args.t) (w w' : W) (evs : list Event) :
  coverage ARGS w = (Ok tt, evs, w') ->
  exists projects report files lines,
    select_projects ARGS = Ok projects /\
    length report = length projects /\
    prints evs
    = report ++
      [String.append "Checking "
         (String.append (str_int (Z.of_nat (length projects))) " projects...");
       String.append "Containing " (String.append (str_int files) " files...");
       String.append "Totalling to " (String.append (str_int lines) " lines...")].
Proof.
  intros Hrun. unfold coverage in Hrun.
  apply bind_Ok_inv in Hrun as (mypy_exe & evs1 & w1 & ? & Hsetup & Hrun & ->).
  apply bind_Ok_inv in Hrun as (projects & evs2 & w2 & ? & Hsel & Hrun & ->).
  injection Hsel as Hsel <- <-. cbv zeta in Hrun.
  apply bind_Ok_inv in Hrun as (there & evs3 & w3 & ? & Hthere & Hrun & ->).
  injection Hthere as _ <- <-.
  apply bind_Ok_inv in Hrun as (? & evs4 & w4 & ? & Hassert & Hrun & ->).
  apply bind_Ok_inv in Hrun as (all_paths & evs5 & w5 & ? & Hpaths & Hrun & ->).
  apply bind_Ok_inv in Hrun as (counts & evs6 & w6 & ? & Hcounts & Hrun & ->).
  apply bind_Ok_inv in Hrun as (keys & evs7 & w7 & ? & Hkeys & Hrun & ->).
  injection Hkeys as Hkeys <- <-.
  apply bind_Ok_inv in Hrun as (? & evs8 & w8 & ? & Hreport & Hrun & ->).
  apply print_coverage_run in Hreport as [-> Hlen].
  rewrite sorted_by_key_reverse_length, length_combine in Hlen.
  rewrite (py_map_length _ _ _ Hkeys), Nat.min_id in Hlen.
  apply bind_Ok_inv in Hrun as (? & evs9 & w9 & ? & Hp1 & Hrun & ->).
  apply print_inv in Hp1 as [-> ->].
  apply bind_Ok_inv in Hrun as (? & evs10 & w10 & evs11 & Hp2 & Hp3 & ->).
  apply print_inv in Hp2 as [-> ->]. apply print_inv in Hp3 as [-> _].
  exists projects, (prints evs8), (sum (dict_values (fst counts))),
    (sum (dict_values (snd counts))).
  split; [done|]. split; [done|].
  rewrite !prints_app.
  rewrite (run_prints_nothing _ _ _ _ _ Hsetup) by (unfold_coroutines; silent_auto).
  rewrite (run_prints_nothing _ _ _ _ _ Hassert) by silent_auto.
  rewrite (run_prints_nothing _ _ _ _ _ Hpaths)
    by (apply silent_gather_map; intros p; silent_auto).
  rewrite (run_prints_nothing _ _ _ _ _ Hcounts) by apply coverage_counts_quiet.
  reflexivity.
Qed.


Lemma X27_witness :
  exists report files lines,
    length report = 3%nat /\
    prints (events (coverage (L := Scenario.library Example.args)
                      (E := Scenario.environment) Example.args Scenario.start))
    = report ++
      ["Checking 3 projects...";
       String.append "Containing " (String.append (str_int files) " files...");
       String.append "Totalling to " (String.append (str_int lines) " lines...")].
Proof.
  edestruct (X27_coverage_report (L := Scenario.library Example.args)
               (E := Scenario.environment) Example.args Scenario.start)
    as (projects & report & files & lines & Hsel & Hlen & Hprints).
  - vm_compute. reflexivity.
  - injection Hsel as <-. exists report, files, lines. split; [exact Hlen|].
    etransitivity; [exact Hprints|]. reflexivity.
Defined.
